(** * Project-Management backend: RBAC engine and analytics engine

    A shallow embedding of
      - backend/utils/permissions.py   (roles, permissions, role resolution),
      - backend/utils/analytics.py     (progress, productivity, timeline),
      - backend/routes/tasks.py, backend/routes/roles.py and the parts of
        backend/routes/projects.py that write the same tables,
      - the request bodies and the task response model of
        backend/models/project.py,
    over an in-memory model of the record store of
    backend/utils/supabase_client.py.

    Conventions.
      - Python [str] is [string]; [Optional[str]] is [option string].
      - A store table is a list of rows in the order the store returns them
        (the code reads [rows[0]]).
      - An [async def] that reads or writes the store is a computation in the
        monad [M]: it takes the store, gives back a result or a raised
        exception, and the store as it is at that moment (a write made before
        an exception is raised stays).
      - Python [float] is IEEE-754 binary64, modelled by the [spec_float]
        operations of the standard library at precision 53. *)

From Stdlib Require Import ZArith List String Ascii Bool Lia.
From Stdlib Require Import Floats.SpecFloat.
Import ListNotations.
Local Open Scope string_scope.
Local Open Scope Z_scope.

(** ** Strings *)

(** [str.lower()] on the ASCII range.  Bytes above 127 (UTF-8 encoded
    non-ASCII text) are kept: Python never lowers such a character to one of
    the ASCII letters that occur in a role name, so equality with a role name
    is not affected. *)
Definition lower_ascii (c : ascii) : ascii :=
  let n := nat_of_ascii c in
  if (Nat.leb 65 n && Nat.leb n 90)%bool then ascii_of_nat (n + 32) else c.

Fixpoint lower (s : string) : string :=
  match s with
  | EmptyString => EmptyString
  | String c s' => String (lower_ascii c) (lower s')
  end.

(** Python truthiness of a string and of an optional string. *)
Definition truthy (s : string) : bool :=
  match s with EmptyString => false | String _ _ => true end.

Definition truthy_opt (o : option string) : bool :=
  match o with None => false | Some s => truthy s end.

(** [a == b] where [a] may be [None] and [b] is a string. *)
Definition opt_eqb (a : option string) (b : string) : bool :=
  match a with None => false | Some x => String.eqb x b end.

(** [a == b] on two optional strings ([None == None] holds). *)
Definition opt_opt_eqb (a b : option string) : bool :=
  match a, b with
  | None, None => true
  | Some x, Some y => String.eqb x y
  | _, _ => false
  end.

(** ** permissions.py: the enumerations and the static table *)

Inductive Permission : Type :=
| CREATE_PROJECT | EDIT_PROJECT | DELETE_PROJECT | VIEW_PROJECT
| CREATE_TASK | EDIT_TASK | DELETE_TASK | VIEW_TASK | ASSIGN_TASK
| UPDATE_TASK_STATUS
| MANAGE_TEAM | ADD_MEMBER | REMOVE_MEMBER | UPDATE_ROLE
| VIEW_ANALYTICS.

Inductive Role : Type := OWNER | MANAGER | DEVELOPER | VIEWER.

Definition all_permissions : list Permission :=
  [CREATE_PROJECT; EDIT_PROJECT; DELETE_PROJECT; VIEW_PROJECT;
   CREATE_TASK; EDIT_TASK; DELETE_TASK; VIEW_TASK; ASSIGN_TASK;
   UPDATE_TASK_STATUS;
   MANAGE_TEAM; ADD_MEMBER; REMOVE_MEMBER; UPDATE_ROLE;
   VIEW_ANALYTICS].

Definition all_roles : list Role := [OWNER; MANAGER; DEVELOPER; VIEWER].

Definition Permission_value (p : Permission) : string :=
  match p with
  | CREATE_PROJECT => "create_project"
  | EDIT_PROJECT => "edit_project"
  | DELETE_PROJECT => "delete_project"
  | VIEW_PROJECT => "view_project"
  | CREATE_TASK => "create_task"
  | EDIT_TASK => "edit_task"
  | DELETE_TASK => "delete_task"
  | VIEW_TASK => "view_task"
  | ASSIGN_TASK => "assign_task"
  | UPDATE_TASK_STATUS => "update_task_status"
  | MANAGE_TEAM => "manage_team"
  | ADD_MEMBER => "add_member"
  | REMOVE_MEMBER => "remove_member"
  | UPDATE_ROLE => "update_role"
  | VIEW_ANALYTICS => "view_analytics"
  end.

Definition Role_value (r : Role) : string :=
  match r with
  | OWNER => "owner"
  | MANAGER => "manager"
  | DEVELOPER => "developer"
  | VIEWER => "viewer"
  end.

(** Members of a [str] enumeration compare by value. *)
Definition Permission_eqb (p q : Permission) : bool :=
  String.eqb (Permission_value p) (Permission_value q).

Definition Role_eqb (r q : Role) : bool :=
  String.eqb (Role_value r) (Role_value q).

(** [Role(s)]: the member whose value is [s]; [None] stands for the
    [ValueError] the constructor raises on any other string. *)
Definition Role_of_value (s : string) : option Role :=
  find (fun r => String.eqb (Role_value r) s) all_roles.

(** [ROLE_PERMISSIONS], a dict from role to the list of its permissions. *)
Definition ROLE_PERMISSIONS : list (Role * list Permission) :=
  [ (OWNER,
      [CREATE_PROJECT; EDIT_PROJECT; DELETE_PROJECT; VIEW_PROJECT;
       CREATE_TASK; EDIT_TASK; DELETE_TASK; VIEW_TASK; ASSIGN_TASK;
       UPDATE_TASK_STATUS;
       MANAGE_TEAM; ADD_MEMBER; REMOVE_MEMBER; UPDATE_ROLE;
       VIEW_ANALYTICS]);
    (MANAGER,
      [EDIT_PROJECT; VIEW_PROJECT;
       CREATE_TASK; EDIT_TASK; DELETE_TASK; VIEW_TASK; ASSIGN_TASK;
       UPDATE_TASK_STATUS;
       ADD_MEMBER;
       VIEW_ANALYTICS]);
    (DEVELOPER,
      [VIEW_PROJECT; CREATE_TASK; VIEW_TASK; UPDATE_TASK_STATUS]);
    (VIEWER,
      [VIEW_PROJECT; VIEW_TASK]) ].

(** [d.get(k, default)] on such a dict. *)
Definition dict_get {V : Type} (d : list (Role * V)) (k : Role) (default : V) : V :=
  match find (fun kv => Role_eqb (fst kv) k) d with
  | Some kv => snd kv
  | None => default
  end.

(** [check_permission(user_role, required_permission)]. *)
Definition check_permission (user_role : option string)
    (required_permission : Permission) : bool :=
  if negb (truthy_opt user_role) then false
  else
    match user_role with
    | None => false
    | Some r =>
        match Role_of_value (lower r) with
        | Some role_enum =>
            let permissions := dict_get ROLE_PERMISSIONS role_enum [] in
            existsb (Permission_eqb required_permission) permissions
        | None => false  (* except ValueError *)
        end
    end.

Definition has_any_permission (user_role : option string)
    (required_permissions : list Permission) : bool :=
  existsb (check_permission user_role) required_permissions.

Definition has_all_permissions (user_role : option string)
    (required_permissions : list Permission) : bool :=
  forallb (check_permission user_role) required_permissions.

Definition get_role_permissions (role : string) : list Permission :=
  match Role_of_value (lower role) with
  | Some role_enum => dict_get ROLE_PERMISSIONS role_enum []
  | None => []
  end.

(** The role/permission table as the specification prints it (section 4.1),
    row by row; every cell that is not ticked is [false]. *)
Definition table_4_1 (r : Role) (p : Permission) : bool :=
  match p, r with
  | CREATE_PROJECT, OWNER => true
  | EDIT_PROJECT, (OWNER | MANAGER) => true
  | DELETE_PROJECT, OWNER => true
  | VIEW_PROJECT, _ => true
  | CREATE_TASK, (OWNER | MANAGER | DEVELOPER) => true
  | EDIT_TASK, (OWNER | MANAGER) => true
  | DELETE_TASK, (OWNER | MANAGER) => true
  | VIEW_TASK, _ => true
  | ASSIGN_TASK, (OWNER | MANAGER) => true
  | UPDATE_TASK_STATUS, (OWNER | MANAGER | DEVELOPER) => true
  | (MANAGE_TEAM | REMOVE_MEMBER | UPDATE_ROLE), OWNER => true
  | ADD_MEMBER, (OWNER | MANAGER) => true
  | VIEW_ANALYTICS, (OWNER | MANAGER) => true
  | _, _ => false
  end.

(** ** The record store *)

(** Rows of the three tables.  Columns the modelled code never reads
    (a project's timestamps) are left out; server-assigned values (ids and
    timestamps) are supplied by the store when a row is inserted.  Every
    column of a task row other than its two ids may hold a null: the code
    reads them with [.get] and [update_task] can write one (a request body
    may carry an explicit null). *)
Record Project : Type := mkProject {
  p_id : string;
  p_name : string;
  p_description : option string;
  p_owner_id : string;
  p_status : string;
  p_progress : Z
}.

Record TeamMember : Type := mkTeamMember {
  tm_id : string;
  tm_project_id : string;
  tm_username : string;
  tm_role : string;
  tm_assigned_at : string
}.

Record Task : Type := mkTask {
  t_id : string;
  t_project_id : string;
  t_title : option string;
  t_description : option string;
  t_assigned_to : option string;
  t_status : option string;
  t_priority : option string;
  t_created_at : option string;
  t_updated_at : option string
}.

Record DB : Type := mkDB {
  projects : list Project;
  team_members : list TeamMember;
  tasks : list Task
}.

Definition with_projects (ps : list Project) (db : DB) : DB :=
  mkDB ps (team_members db) (tasks db).
Definition with_team_members (ms : list TeamMember) (db : DB) : DB :=
  mkDB (projects db) ms (tasks db).
Definition with_tasks (ts : list Task) (db : DB) : DB :=
  mkDB (projects db) (team_members db) ts.

(** ** Exceptions and the store monad *)

Inductive error : Type :=
| ProjectNotFound
| TaskNotFound
| TeamMemberNotFound
| InvalidRole
| MemberAlreadyExists
| CannotRemoveOwner
| InsufficientPermissions
| UnauthorizedAccess
| InvalidData
| DatabaseException
| ValueError
| OverflowError      (* datetime and timedelta arithmetic out of range *)
| ValidationError.   (* pydantic, building a response model from a row *)

Inductive result (A : Type) : Type :=
| Ok (a : A)
| Raise (e : error).
Arguments Ok {A} a.
Arguments Raise {A} e.

Definition M (A : Type) : Type := DB -> result A * DB.

Definition ret {A} (a : A) : M A := fun db => (Ok a, db).
Definition raise {A} (e : error) : M A := fun db => (Raise e, db).
Definition bind {A B} (m : M A) (k : A -> M B) : M B :=
  fun db =>
    match m db with
    | (Ok a, db') => k a db'
    | (Raise e, db') => (Raise e, db')
    end.
Definition get_db : M DB := fun db => (Ok db, db).
Definition put_db (db' : DB) : M unit := fun _ => (Ok tt, db').

Declare Scope store_scope.
Delimit Scope store_scope with store.
Notation "x <- m ;; k" := (bind m (fun x => k))
  (at level 61, m at next level, right associativity) : store_scope.
Notation "m ;;; k" := (bind m (fun _ => k))
  (at level 61, right associativity) : store_scope.
Local Open Scope store_scope.

(** [if not cond: raise e]. *)
Definition require (cond : bool) (e : error) : M unit :=
  if cond then ret tt else raise e.

(** ** supabase_client.py: the primitives the engines use *)

(** [select_by_id(table, id)]: the first row whose id matches, or [None]. *)
Definition select_project_by_id (record_id : string) : M (option Project) :=
  db <- get_db ;;
  ret (find (fun p => String.eqb (p_id p) record_id) (projects db)).

Definition select_task_by_id (record_id : string) : M (option Task) :=
  db <- get_db ;;
  ret (find (fun t => String.eqb (t_id t) record_id) (tasks db)).

(** [select_where("tasks", "project_id", v)]. *)
Definition select_tasks_where_project (project_id : string) : M (list Task) :=
  db <- get_db ;;
  ret (filter (fun t => String.eqb (t_project_id t) project_id) (tasks db)).

(** [select_where("team_members", "project_id", v)]. *)
Definition select_members_where_project (project_id : string)
  : M (list TeamMember) :=
  db <- get_db ;;
  ret (filter (fun m => String.eqb (tm_project_id m) project_id)
         (team_members db)).

(** [select_with_filters("team_members", {"project_id": p, "username": u})]. *)
Definition member_matches (project_id username : string) (m : TeamMember) : bool :=
  (String.eqb (tm_project_id m) project_id
   && String.eqb (tm_username m) username)%bool.

Definition select_members_with_filters (project_id username : string)
  : M (list TeamMember) :=
  db <- get_db ;;
  ret (filter (member_matches project_id username) (team_members db)).

(** [select_with_filters("tasks", {"project_id": p, "assigned_to": u})]. *)
Definition select_tasks_with_filters (project_id username : string)
  : M (list Task) :=
  db <- get_db ;;
  ret (filter (fun t => (String.eqb (t_project_id t) project_id
                         && opt_eqb (t_assigned_to t) username)%bool)
         (tasks db)).

(** [update(table, id, data)]: every row with that id takes the new fields;
    the first updated row is returned; no such row raises. *)
Definition update_rows {R : Type} (id_of : R -> string) (record_id : string)
    (patch : R -> R) (rows : list R) : list R :=
  map (fun r => if String.eqb (id_of r) record_id then patch r else r) rows.

Definition first_updated {R : Type} (id_of : R -> string) (record_id : string)
    (rows : list R) : option R :=
  find (fun r => String.eqb (id_of r) record_id) rows.

Definition update_project_row (record_id : string) (patch : Project -> Project)
  : M Project :=
  db <- get_db ;;
  let rows := update_rows p_id record_id patch (projects db) in
  put_db (with_projects rows db) ;;;
  match first_updated p_id record_id rows with
  | Some r => ret r
  | None => raise DatabaseException
  end.

Definition update_member_row (record_id : string)
    (patch : TeamMember -> TeamMember) : M TeamMember :=
  db <- get_db ;;
  let rows := update_rows tm_id record_id patch (team_members db) in
  put_db (with_team_members rows db) ;;;
  match first_updated tm_id record_id rows with
  | Some r => ret r
  | None => raise DatabaseException
  end.

Definition update_task_row (record_id : string) (patch : Task -> Task)
  : M Task :=
  db <- get_db ;;
  let rows := update_rows t_id record_id patch (tasks db) in
  put_db (with_tasks rows db) ;;;
  match first_updated t_id record_id rows with
  | Some r => ret r
  | None => raise DatabaseException
  end.

(** [insert(table, data)]: the row, completed by the store, is appended. *)
Definition insert_member (row : TeamMember) : M TeamMember :=
  db <- get_db ;;
  put_db (with_team_members (team_members db ++ [row])%list db) ;;;
  ret row.

Definition insert_task (row : Task) : M Task :=
  db <- get_db ;;
  put_db (with_tasks (tasks db ++ [row])%list db) ;;;
  ret row.

(** [delete(table, id)]. *)
Definition delete_member (record_id : string) : M bool :=
  db <- get_db ;;
  put_db (with_team_members
            (filter (fun m => negb (String.eqb (tm_id m) record_id))
               (team_members db)) db) ;;;
  ret true.

Definition delete_task_row (record_id : string) : M bool :=
  db <- get_db ;;
  put_db (with_tasks
            (filter (fun t => negb (String.eqb (t_id t) record_id))
               (tasks db)) db) ;;;
  ret true.

(** ** permissions.py: role resolution and the task rules *)

(** [get_user_role_in_project(username, project_id)]. *)
Definition get_user_role_in_project (username project_id : string)
  : M (option string) :=
  project <- select_project_by_id project_id ;;
  if match project with
     | Some p => String.eqb (p_owner_id p) username
     | None => false
     end
  then ret (Some (Role_value OWNER))
  else
    members <- select_members_with_filters project_id username ;;
    match members with
    | m :: _ => ret (Some (tm_role m))
    | [] => ret None
    end.

(** [is_project_owner(username, project_id)]. *)
Definition is_project_owner (username project_id : string) : M bool :=
  project <- select_project_by_id project_id ;;
  match project with
  | Some p => ret (String.eqb (p_owner_id p) username)
  | None => ret false
  end.

(** [is_project_member(username, project_id)]. *)
Definition is_project_member (username project_id : string) : M bool :=
  owner <- is_project_owner username project_id ;;
  if owner then ret true
  else
    role <- get_user_role_in_project username project_id ;;
    match role with
    | Some _ => ret true
    | None => ret false
    end.

(** [can_edit_task(username, project_id, task_owner)]. *)
Definition can_edit_task (username project_id : string)
    (task_owner : option string) : M bool :=
  role <- get_user_role_in_project username project_id ;;
  if negb (truthy_opt role) then ret false
  else if (opt_eqb role (Role_value OWNER)
           || opt_eqb role (Role_value MANAGER))%bool then ret true
  else if opt_eqb role (Role_value DEVELOPER)
       then ret (opt_eqb task_owner username)
  else ret false.

(** [can_delete_task(username, project_id, task_owner)]. *)
Definition can_delete_task (username project_id : string)
    (task_owner : option string) : M bool :=
  role <- get_user_role_in_project username project_id ;;
  if negb (truthy_opt role) then ret false
  else ret (opt_eqb role (Role_value OWNER)
            || opt_eqb role (Role_value MANAGER))%bool.

(** [can_assign_task(username, project_id)]. *)
Definition can_assign_task (username project_id : string) : M bool :=
  role <- get_user_role_in_project username project_id ;;
  ret (check_permission role ASSIGN_TASK).

(** [can_manage_team(username, project_id)]. *)
Definition can_manage_team (username project_id : string) : M bool :=
  role <- get_user_role_in_project username project_id ;;
  ret (check_permission role MANAGE_TEAM).

(** ** Python floats and integer conversion *)

Definition prec : Z := 53.
Definition emax : Z := 1024.

(** [float(n)] for an integer (exact below 2^53). *)
Definition float_of_int (n : Z) : spec_float :=
  binary_normalize prec emax n 0 false.

(** [a / b] on two integers: true division, the quotient rounded to the
    nearest double. *)
Definition int_truediv (a b : Z) : spec_float :=
  SFdiv prec emax (float_of_int a) (float_of_int b).

(** [x * n] for a float and an integer literal. *)
Definition float_mul_int (x : spec_float) (n : Z) : spec_float :=
  SFmul prec emax x (float_of_int n).

(** [int(x)]: truncation towards zero; [None] stands for the error Python
    raises on an infinity or a NaN. *)
Definition int_of_float (x : spec_float) : option Z :=
  match x with
  | S754_zero _ => Some 0
  | S754_finite s m e =>
      let a := if 0 <=? e then Z.pos m * 2 ^ e else Z.pos m / 2 ^ (- e) in
      Some (if s then - a else a)
  | S754_infinity _ | S754_nan => None
  end.

(** [int((completed / total) * 100)], as both analytics functions write it. *)
Definition percent (completed total : Z) : option Z :=
  int_of_float (float_mul_int (int_truediv completed total) 100).

(** ** Dates and times *)

(** A [datetime]: the calendar day as its proleptic Gregorian ordinal
    ([date.toordinal()]), the time of day in microseconds, and the UTC offset
    in microseconds of an aware value ([None] for a naive one). *)
Record datetime : Type := mkDatetime {
  dt_date : Z;
  dt_time : Z;
  dt_offset : option Z
}.

Definition micros_per_day : Z := 86400000000.

Definition dt_micros (d : datetime) : Z := dt_date d * micros_per_day + dt_time d.

(** The ordinals of [date.min] (0001-01-01) and [date.max] (9999-12-31),
    and the largest number of days a [timedelta] holds. *)
Definition MINORDINAL : Z := 1.
Definition MAXORDINAL : Z := 3652059.
Definition MAX_DELTA_DAYS : Z := 999999999.

(** [timedelta(days=n)]; [None] stands for the OverflowError of a number of
    days beyond [MAX_DELTA_DAYS] in magnitude. *)
Definition timedelta_days (n : Z) : option Z :=
  if Z.abs n <=? MAX_DELTA_DAYS then Some n else None.

(** [d + delta] for a [delta] of [n] whole days; [None] stands for the
    OverflowError of a result outside [date.min .. date.max]. *)
Definition add_days (d : datetime) (n : Z) : option datetime :=
  let day := dt_date d + n in
  if ((MINORDINAL <=? day) && (day <=? MAXORDINAL))%bool
  then Some (mkDatetime day (dt_time d) (dt_offset d))
  else None.

(** [a <= b] on two datetimes of the same kind (the timeline compares two
    values derived from one [datetime.now()]). *)
Definition datetime_leb (a b : datetime) : bool :=
  (dt_date a <? dt_date b)
  || ((dt_date a =? dt_date b) && (dt_time a <=? dt_time b)).

(** [(a - b).days]: the whole days of the difference, rounded down;
    [None] stands for the [TypeError] of mixing a naive and an aware value. *)
Definition sub_days (a b : datetime) : option Z :=
  match dt_offset a, dt_offset b with
  | None, None => Some ((dt_micros a - dt_micros b) / micros_per_day)
  | Some oa, Some ob =>
      Some (((dt_micros a - oa) - (dt_micros b - ob)) / micros_per_day)
  | _, _ => None
  end.

(** [s.replace("Z", "+00:00")]. *)
Fixpoint replace_Z (s : string) : string :=
  match s with
  | EmptyString => EmptyString
  | String c s' =>
      if Ascii.eqb c "Z"%char then "+00:00" ++ replace_Z s'
      else String c (replace_Z s')
  end.

(** ** analytics.py *)

Definition is_completed (t : Task) : bool := opt_eqb (t_status t) "completed".

(** [sum(1 for t in tasks if cond(t))]. *)
Definition count_if {A : Type} (cond : A -> bool) (l : list A) : Z :=
  Z.of_nat (List.length (filter cond l)).

Definition len {A : Type} (l : list A) : Z := Z.of_nat (List.length l).

Definition set_progress (n : Z) (p : Project) : Project :=
  mkProject (p_id p) (p_name p) (p_description p) (p_owner_id p) (p_status p) n.

(** [calculate_project_progress(project_id)]. *)
Definition calculate_project_progress (project_id : string) : M Z :=
  tasks <- select_tasks_where_project project_id ;;
  if len tasks =? 0 then ret 0
  else
    let completed := count_if is_completed tasks in
    match percent completed (len tasks) with
    | None => raise ValueError
    | Some progress =>
        update_project_row project_id (set_progress progress) ;;;
        ret progress
    end.

(** [calculate_task_completion_rate(project_id)]. *)
Record CompletionRate : Type := mkCompletionRate {
  total_tasks : Z;
  completed_tasks : Z;
  in_progress_tasks : Z;
  todo_tasks : Z
}.

Definition calculate_task_completion_rate (project_id : string)
  : M CompletionRate :=
  tasks <- select_tasks_where_project project_id ;;
  ret (mkCompletionRate
         (len tasks)
         (count_if is_completed tasks)
         (count_if (fun t => opt_eqb (t_status t) "in_progress") tasks)
         (count_if (fun t => opt_eqb (t_status t) "todo") tasks)).

Record TimelineEntry : Type := mkTimelineEntry {
  te_date : Z;        (* the bucket's calendar day; the code prints it as YYYY-MM-DD *)
  te_completed : Z;
  te_total : Z;
  te_progress : Z
}.

Record Productivity : Type := mkProductivity {
  pr_username : string;
  pr_tasks_assigned : Z;
  pr_tasks_completed : Z;
  pr_completion_rate : spec_float;
  pr_average_completion_time : spec_float;
  pr_last_active : string
}.

Section Analytics.

(** [datetime.fromisoformat]; [None] stands for its [ValueError]. *)
Variable fromisoformat : string -> option datetime.

(** The built-in [round(x, ndigits)] on floats. *)
Variable round : spec_float -> Z -> spec_float.

(** The condition of the timeline's generator for one task; the parse is
    reached, and may raise, only for a completed task with a non-empty
    [updated_at]. *)
Definition completed_on_or_before (current_date : datetime) (t : Task)
  : result bool :=
  if (is_completed t && truthy_opt (t_updated_at t))%bool then
    match t_updated_at t with
    | Some s =>
        match fromisoformat (replace_Z s) with
        | Some d => Ok (dt_date d <=? dt_date current_date)
        | None => Raise ValueError
        end
    | None => Ok false
    end
  else Ok false.

(** [sum(1 for t in tasks if ...)] of the timeline, left to right. *)
Fixpoint completed_by_date (current_date : datetime) (tasks : list Task)
  : result Z :=
  match tasks with
  | [] => Ok 0
  | t :: rest =>
      match completed_on_or_before current_date t with
      | Raise e => Raise e
      | Ok b =>
          match completed_by_date current_date rest with
          | Raise e => Raise e
          | Ok n => Ok ((if b then 1 else 0) + n)
          end
      end
  end.

(** The [while current_date <= end_date] loop.  [fuel] bounds the number
    of iterations the model unrolls; [None] means the bound was reached
    before the loop condition failed.  The step
    [current_date += timedelta(days=1)] raises OverflowError past
    [date.max]. *)
Fixpoint timeline_loop (fuel : nat) (tasks : list Task)
    (current_date end_date : datetime)
  : option (result (list TimelineEntry)) :=
  match fuel with
  | O => None
  | S fuel' =>
      if datetime_leb current_date end_date then
        match completed_by_date current_date tasks with
        | Raise e => Some (Raise e)
        | Ok completed =>
            let total := len tasks in
            match (if 0 <? total then percent completed total else Some 0) with
            | None => Some (Raise ValueError)
            | Some progress =>
                let entry :=
                  mkTimelineEntry (dt_date current_date) completed total progress in
                match add_days current_date 1 with
                | None => Some (Raise OverflowError)
                | Some next_date =>
                    match timeline_loop fuel' tasks next_date end_date with
                    | Some (Ok timeline) => Some (Ok (entry :: timeline))
                    | other => other
                    end
                end
            end
        end
      else Some (Ok [])
  end.

(** [get_project_timeline(project_id, days)], with the clock reading
    [now] of [datetime.now()].  It only reads the store.  Building
    [timedelta(days=days)] and subtracting it from [now] come before the
    loop, and either may raise OverflowError. *)
Definition get_project_timeline (fuel : nat) (now : datetime)
    (project_id : string) (days : Z) (db : DB)
  : option (result (list TimelineEntry)) :=
  let tasks := filter (fun t => String.eqb (t_project_id t) project_id) (tasks db) in
  let end_date := now in
  match timedelta_days days with
  | None => Some (Raise OverflowError)
  | Some delta =>
      match add_days end_date (- delta) with
      | None => Some (Raise OverflowError)
      | Some start_date => timeline_loop fuel tasks start_date end_date
      end
  end.

(** The [try] block of the productivity loop for one completed task:
    what it adds to [(total_days, valid_tasks)]. *)
Definition completion_days (t : Task) : option Z :=
  if (truthy_opt (t_created_at t) && truthy_opt (t_updated_at t))%bool then
    match t_created_at t, t_updated_at t with
    | Some c, Some u =>
        match fromisoformat (replace_Z c), fromisoformat (replace_Z u) with
        | Some created, Some updated =>
            match sub_days updated created with
            | Some days => if 0 <=? days then Some days else None
            | None => None   (* except TypeError: continue *)
            end
        | _, _ => None       (* except ValueError: continue *)
        end
    | _, _ => None
    end
  else None.

Fixpoint sum_completion_days (completed : list Task) : Z * Z :=
  match completed with
  | [] => (0, 0)
  | t :: rest =>
      let '(total_days, valid_tasks) := sum_completion_days rest in
      match completion_days t with
      | Some d => (d + total_days, 1 + valid_tasks)
      | None => (total_days, valid_tasks)
      end
  end.

Definition average_completion_time (tasks : list Task) : spec_float :=
  let completed := filter is_completed tasks in
  match completed with
  | [] => float_of_int 0
  | _ =>
      let '(total_days, valid_tasks) := sum_completion_days completed in
      if 0 <? valid_tasks then round (int_truediv total_days valid_tasks) 1
      else float_of_int 0
  end.

Definition member_productivity (now_iso : string) (project_id username : string)
  : M Productivity :=
  tasks <- select_tasks_with_filters project_id username ;;
  let tasks_assigned := len tasks in
  let tasks_completed := count_if is_completed tasks in
  let completion_rate :=
    if 0 <? tasks_assigned
    then float_mul_int (int_truediv tasks_completed tasks_assigned) 100
    else float_of_int 0 in
  ret (mkProductivity username tasks_assigned tasks_completed
         (round completion_rate 2)
         (average_completion_time tasks)
         now_iso).

Fixpoint for_each_member (now_iso : string) (project_id : string)
    (all_members : list string) : M (list Productivity) :=
  match all_members with
  | [] => ret []
  | username :: rest =>
      p <- member_productivity now_iso project_id username ;;
      ps <- for_each_member now_iso project_id rest ;;
      ret (p :: ps)
  end.

(** [get_team_productivity(project_id)]; [now_iso] is the clock reading
    put in [last_active]. *)
Definition get_team_productivity (now_iso : string) (project_id : string)
  : M (list Productivity) :=
  team <- select_members_where_project project_id ;;
  project <- select_project_by_id project_id ;;
  let owner_id := match project with Some p => Some (p_owner_id p) | None => None end in
  let all_members :=
    ((match owner_id with
      | Some o => if truthy o then [o] else []
      | None => []
      end) ++ map tm_username team)%list in
  for_each_member now_iso project_id all_members.

End Analytics.

(** ** models/project.py: request bodies *)

Inductive TaskStatus : Type := TODO | IN_PROGRESS | COMPLETED.
Inductive TaskPriority : Type := LOW | MEDIUM | HIGH.

Definition TaskStatus_value (s : TaskStatus) : string :=
  match s with
  | TODO => "todo"
  | IN_PROGRESS => "in_progress"
  | COMPLETED => "completed"
  end.

Definition TaskPriority_value (p : TaskPriority) : string :=
  match p with
  | LOW => "low"
  | MEDIUM => "medium"
  | HIGH => "high"
  end.

Record TaskCreate : Type := mkTaskCreate {
  tc_project_id : string;
  tc_title : string;
  tc_description : option string;
  tc_assigned_to : option string;
  tc_status : TaskStatus;
  tc_priority : TaskPriority
}.

(** [TaskUpdate] after [model_dump(exclude_unset=True)]: a field is absent
    ([None]) or present with its value, and every field of the model is
    [Optional], so a present field may hold an explicit null
    ([Some None]). *)
Record TaskUpdate : Type := mkTaskUpdate {
  tu_title : option (option string);
  tu_description : option (option string);
  tu_assigned_to : option (option string);
  tu_status : option (option TaskStatus);
  tu_priority : option (option TaskPriority)
}.

Record ProjectUpdate : Type := mkProjectUpdate {
  pu_name : option string;
  pu_description : option (option string);
  pu_status : option string;
  pu_progress : option Z
}.

Record TeamMemberAdd : Type := mkTeamMemberAdd {
  tma_username : string;
  tma_role : string
}.

Definition or_else {A : Type} (o : option A) (d : A) : A :=
  match o with Some a => a | None => d end.

Definition is_set {A : Type} (o : option A) : bool :=
  match o with Some _ => true | None => false end.

(** ** models/project.py: the response model of a task *)

Section TaskModel.

(** What pydantic's validation of a [datetime] field answers on a string:
    whether it accepts it. *)
Variable datetime_validates : string -> bool.

(** The response model [Task], built from the fields of a row, goes
    through when the row holds strings for [title], [status] and
    [priority] and, for [created_at] and [updated_at], values that validate
    as datetimes; [description] and [assigned_to] are optional, and keys
    that are not fields of the model (the [project_progress] the update
    routes put on the row) are ignored. *)
Definition Task_validates (row : Task) : bool :=
  (is_set (t_title row) && is_set (t_status row) && is_set (t_priority row)
   && match t_created_at row with
      | Some s => datetime_validates s
      | None => false
      end
   && match t_updated_at row with
      | Some s => datetime_validates s
      | None => false
      end)%bool.

(** The [Task] built from a row: the row as a response, or pydantic's
    ValidationError. *)
Definition Task_model (row : Task) : M Task :=
  if Task_validates row then ret row else raise ValidationError.

(** The list of [Task] responses built from the rows, in order. *)
Fixpoint Task_models (rows : list Task) : M (list Task) :=
  match rows with
  | [] => ret []
  | row :: rest =>
      response <- Task_model row ;;
      responses <- Task_models rest ;;
      ret (response :: responses)
  end.

End TaskModel.

(** ** analytics.py: the other aggregations *)

(** [select_where("projects", "owner_id", v)],
    [select_where("team_members", "username", v)] and
    [select_where("tasks", "assigned_to", v)]. *)
Definition select_projects_where_owner (username : string) : M (list Project) :=
  db <- get_db ;;
  ret (filter (fun p => String.eqb (p_owner_id p) username) (projects db)).

Definition select_members_where_username (username : string)
  : M (list TeamMember) :=
  db <- get_db ;;
  ret (filter (fun m => String.eqb (tm_username m) username) (team_members db)).

Definition select_tasks_where_assigned (username : string) : M (list Task) :=
  db <- get_db ;;
  ret (filter (fun t => opt_eqb (t_assigned_to t) username) (tasks db)).

Definition has_status (s : string) (t : Task) : bool := opt_eqb (t_status t) s.
Definition has_priority (s : string) (t : Task) : bool := opt_eqb (t_priority t) s.

Record StatusCounts : Type := mkStatusCounts {
  sc_total : Z;
  sc_completed : Z;
  sc_in_progress : Z;
  sc_todo : Z
}.

(** [get_member_workload(project_id, username)]. *)
Definition get_member_workload (project_id username : string) : M StatusCounts :=
  tasks <- select_tasks_with_filters project_id username ;;
  ret (mkStatusCounts (len tasks)
         (count_if (has_status "completed") tasks)
         (count_if (has_status "in_progress") tasks)
         (count_if (has_status "todo") tasks)).

Record PriorityCounts : Type := mkPriorityCounts {
  pc_high : Z;
  pc_medium : Z;
  pc_low : Z
}.

(** [get_tasks_by_priority(project_id)]. *)
Definition get_tasks_by_priority (project_id : string) : M PriorityCounts :=
  tasks <- select_tasks_where_project project_id ;;
  ret (mkPriorityCounts
         (count_if (has_priority "high") tasks)
         (count_if (has_priority "medium") tasks)
         (count_if (has_priority "low") tasks)).

Record UserStatistics : Type := mkUserStatistics {
  us_total_projects : Z;
  us_total_assigned_tasks : Z;
  us_completed_tasks_by_me : Z;
  us_in_progress_tasks_by_me : Z
}.

(** The loop of [get_user_statistics] over the memberships: the project of
    each membership, when it exists. *)
Fixpoint member_projects_of (memberships : list TeamMember) : M (list Project) :=
  match memberships with
  | [] => ret []
  | membership :: rest =>
      project <- select_project_by_id (tm_project_id membership) ;;
      ps <- member_projects_of rest ;;
      ret (match project with Some p => p :: ps | None => ps end)
  end.

(** [get_user_statistics(username)]; the set of project ids is the list of
    ids without repetition. *)
Definition get_user_statistics (username : string) : M UserStatistics :=
  owned_projects <- select_projects_where_owner username ;;
  team_memberships <- select_members_where_username username ;;
  member_projects <- member_projects_of team_memberships ;;
  let all_project_ids :=
    nodup string_dec (map p_id (owned_projects ++ member_projects)%list) in
  let total_projects := len all_project_ids in
  all_tasks <- select_tasks_where_assigned username ;;
  ret (mkUserStatistics total_projects (len all_tasks)
         (count_if (has_status "completed") all_tasks)
         (count_if (has_status "in_progress") all_tasks)).

Record MemberAnalytics : Type := mkMemberAnalytics {
  ma_username : string;
  ma_role : string;
  ma_total_assigned : Z;
  ma_completed : Z;
  ma_in_progress : Z;
  ma_todo : Z;
  ma_completion_rate : spec_float;
  ma_average_completion_time : spec_float
}.

Section MemberAnalytics.

Variable fromisoformat : string -> option datetime.
Variable round : spec_float -> Z -> spec_float.

(** [get_member_analytics(project_id, username)]; its completion-time loop
    is the one of [get_team_productivity]. *)
Definition get_member_analytics (project_id username : string)
  : M MemberAnalytics :=
  role <- get_user_role_in_project username project_id ;;
  tasks <- select_tasks_with_filters project_id username ;;
  let total_assigned := len tasks in
  let completed := count_if (has_status "completed") tasks in
  let in_progress := count_if (has_status "in_progress") tasks in
  let todo := count_if (has_status "todo") tasks in
  let completion_rate :=
    if 0 <? total_assigned
    then float_mul_int (int_truediv completed total_assigned) 100
    else float_of_int 0 in
  ret (mkMemberAnalytics username
         (if truthy_opt role then or_else role "none" else "none")
         total_assigned completed in_progress todo
         (round completion_rate 2)
         (average_completion_time fromisoformat round tasks)).

End MemberAnalytics.

(** ** utils/helpers.py *)

Module Helpers.

(** [calculate_project_progress(project_id)] of helpers.py: the same
    computation as the one of analytics.py, without the write. *)
Definition calculate_project_progress (project_id : string) : M Z :=
  tasks <- select_tasks_where_project project_id ;;
  if len tasks =? 0 then ret 0
  else
    let completed := count_if is_completed tasks in
    match percent completed (len tasks) with
    | None => raise ValueError
    | Some progress => ret progress
    end.

(** [get_user_task_count(username, project_id)]. *)
Definition get_user_task_count (username : string) (project_id : option string)
  : M StatusCounts :=
  tasks <- (if truthy_opt project_id
            then select_tasks_with_filters (or_else project_id "") username
            else select_tasks_where_assigned username) ;;
  ret (mkStatusCounts (len tasks)
         (count_if (has_status "completed") tasks)
         (count_if (has_status "in_progress") tasks)
         (count_if (has_status "todo") tasks)).

(** [get_project_member_count(project_id)]. *)
Definition get_project_member_count (project_id : string) : M Z :=
  members <- select_members_where_project project_id ;;
  ret (len members + 1).

End Helpers.

(** ** routes/tasks.py *)

Module Tasks.

(** [verify_project_access(project_id, username)]. *)
Definition verify_project_access (project_id username : string) : M unit :=
  project <- select_project_by_id project_id ;;
  require (is_set project) ProjectNotFound ;;;
  member <- is_project_member username project_id ;;
  require member UnauthorizedAccess.

(** The task of [task_id] inside [project_id], or [TaskNotFound]. *)
Definition get_existing_task (project_id task_id : string) : M Task :=
  task <- select_task_by_id task_id ;;
  match task with
  | None => raise TaskNotFound
  | Some t =>
      if negb (String.eqb (t_project_id t) project_id) then raise TaskNotFound
      else ret t
  end.

(** [create_task]; [new_id] and [stamp] are the id and the timestamps the
    store assigns to the inserted row, which is returned as the store
    built it. *)
Definition create_task (new_id stamp : string) (project_id : string)
    (task_data : TaskCreate) (current_user : string) : M Task :=
  verify_project_access project_id current_user ;;;
  user_role <- get_user_role_in_project current_user project_id ;;
  require (check_permission user_role CREATE_TASK) InsufficientPermissions ;;;
  (if truthy_opt (tc_assigned_to task_data) then
     let assignee := or_else (tc_assigned_to task_data) "" in
     member <- is_project_member assignee project_id ;;
     require member InvalidData ;;;
     if negb (String.eqb assignee current_user) then
       can <- can_assign_task current_user project_id ;;
       require can InsufficientPermissions
     else ret tt
   else ret tt) ;;;
  created_task <- insert_task
    (mkTask new_id project_id (Some (tc_title task_data))
       (tc_description task_data) (tc_assigned_to task_data)
       (Some (TaskStatus_value (tc_status task_data)))
       (Some (TaskPriority_value (tc_priority task_data)))
       (Some stamp) (Some stamp)) ;;
  (* log_task_assignment is a placeholder that does nothing *)
  ret created_task.

Definition apply_task_update (u : TaskUpdate) (t : Task) : Task :=
  mkTask (t_id t) (t_project_id t)
    (or_else (tu_title u) (t_title t))
    (or_else (tu_description u) (t_description t))
    (or_else (tu_assigned_to u) (t_assigned_to t))
    (or_else (option_map (option_map TaskStatus_value) (tu_status u)) (t_status t))
    (or_else (option_map (option_map TaskPriority_value) (tu_priority u))
       (t_priority t))
    (t_created_at t) (t_updated_at t).

Definition update_is_empty (u : TaskUpdate) : bool :=
  negb (is_set (tu_title u) || is_set (tu_description u)
        || is_set (tu_assigned_to u) || is_set (tu_status u)
        || is_set (tu_priority u)).

Section Responses.

Variable datetime_validates : string -> bool.

(** [update_task]; the returned pair is the response built from the
    updated row and the [project_progress] attached to that row when the
    status was part of the update.  The response is built last, after the
    writes. *)
Definition update_task (project_id task_id : string) (task_data : TaskUpdate)
    (current_user : string) : M (Task * option Z) :=
  verify_project_access project_id current_user ;;;
  task <- get_existing_task project_id task_id ;;
  let task_owner := t_assigned_to task in
  can <- can_edit_task current_user project_id task_owner ;;
  require can InsufficientPermissions ;;;
  let update_data := task_data in
  require (negb (update_is_empty update_data)) InvalidData ;;;
  (match tu_assigned_to update_data with
   | Some new_assignee =>
       if negb (opt_opt_eqb new_assignee task_owner) then
         can <- can_assign_task current_user project_id ;;
         require can InsufficientPermissions ;;;
         if truthy_opt new_assignee then
           member <- is_project_member (or_else new_assignee "") project_id ;;
           require member InvalidData
         else ret tt
       else ret tt
   | None => ret tt
   end) ;;;
  updated_task <- update_task_row task_id (apply_task_update update_data) ;;
  if is_set (tu_status update_data) then
    new_progress <- calculate_project_progress project_id ;;
    response <- Task_model datetime_validates updated_task ;;
    ret (response, Some new_progress)
  else
    response <- Task_model datetime_validates updated_task ;;
    ret (response, None).

Definition set_status (s : string) (t : Task) : Task :=
  mkTask (t_id t) (t_project_id t) (t_title t) (t_description t)
    (t_assigned_to t) (Some s) (t_priority t) (t_created_at t) (t_updated_at t).

(** [update_task_status]. *)
Definition update_task_status (project_id task_id : string)
    (status_data : TaskStatus) (current_user : string) : M (Task * Z) :=
  verify_project_access project_id current_user ;;;
  task <- get_existing_task project_id task_id ;;
  user_role <- get_user_role_in_project current_user project_id ;;
  let task_owner := t_assigned_to task in
  let has_permission := check_permission user_role UPDATE_TASK_STATUS in
  let is_assigned := opt_eqb task_owner current_user in
  require (has_permission || is_assigned) InsufficientPermissions ;;;
  updated_task <- update_task_row task_id
                    (set_status (TaskStatus_value status_data)) ;;
  new_progress <- calculate_project_progress project_id ;;
  response <- Task_model datetime_validates updated_task ;;
  ret (response, new_progress).

(** [delete_task]. *)
Definition delete_task (project_id task_id : string) (current_user : string)
  : M unit :=
  verify_project_access project_id current_user ;;;
  task <- get_existing_task project_id task_id ;;
  let task_owner := t_assigned_to task in
  can <- can_delete_task current_user project_id task_owner ;;
  require can InsufficientPermissions ;;;
  delete_task_row task_id ;;;
  ret tt.

(** [get_all_tasks]: the responses built from the tasks of the project,
    and their number. *)
Definition get_all_tasks (project_id : string) (current_user : string)
  : M (list Task * Z) :=
  verify_project_access project_id current_user ;;;
  user_role <- get_user_role_in_project current_user project_id ;;
  require (check_permission user_role VIEW_TASK) InsufficientPermissions ;;;
  tasks <- select_tasks_where_project project_id ;;
  responses <- Task_models datetime_validates tasks ;;
  ret (responses, len tasks).

(** [get_task]. *)
Definition get_task (project_id task_id : string) (current_user : string)
  : M Task :=
  verify_project_access project_id current_user ;;;
  user_role <- get_user_role_in_project current_user project_id ;;
  require (check_permission user_role VIEW_TASK) InsufficientPermissions ;;;
  task <- get_existing_task project_id task_id ;;
  Task_model datetime_validates task.

End Responses.

End Tasks.

(** ** routes/roles.py *)

Module Roles.

(** [verify_project_exists(project_id)]. *)
Definition verify_project_exists (project_id : string) : M Project :=
  project <- select_project_by_id project_id ;;
  match project with
  | None => raise ProjectNotFound
  | Some p => ret p
  end.

(** [validate_role(role)]. *)
Definition validate_role (role : string) : M unit :=
  let valid_roles := map Role_value all_roles in
  require (existsb (String.eqb (lower role)) valid_roles) InvalidRole.

Definition set_role (role : string) (m : TeamMember) : TeamMember :=
  mkTeamMember (tm_id m) (tm_project_id m) (tm_username m) role
    (tm_assigned_at m).

(** [add_team_member]; [new_id] and [stamp] are the id and [assigned_at]
    the store assigns to an inserted row. *)
Definition add_team_member (new_id stamp : string) (project_id : string)
    (member_data : TeamMemberAdd) (current_user : string) : M TeamMember :=
  project <- verify_project_exists project_id ;;
  owner <- is_project_owner current_user project_id ;;
  require owner InsufficientPermissions ;;;
  validate_role (tma_role member_data) ;;;
  require (negb (String.eqb (tma_username member_data) (p_owner_id project)))
    InvalidData ;;;
  existing_members <-
    select_members_with_filters project_id (tma_username member_data) ;;
  match existing_members with
  | existing_member :: _ =>
      update_member_row (tm_id existing_member)
        (set_role (tma_role member_data))
  | [] =>
      insert_member
        (mkTeamMember new_id project_id (tma_username member_data)
           (tma_role member_data) stamp)
  end.

(** [update_member_role]. *)
Definition update_member_role (project_id username : string)
    (member_data : TeamMemberAdd) (current_user : string) : M TeamMember :=
  project <- verify_project_exists project_id ;;
  owner <- is_project_owner current_user project_id ;;
  require owner InsufficientPermissions ;;;
  validate_role (tma_role member_data) ;;;
  require (negb (String.eqb username (p_owner_id project))) InvalidData ;;;
  members <- select_members_with_filters project_id username ;;
  match members with
  | [] => raise TeamMemberNotFound
  | member :: _ =>
      update_member_row (tm_id member) (set_role (tma_role member_data))
  end.

(** [remove_team_member]. *)
Definition remove_team_member (project_id username : string)
    (current_user : string) : M unit :=
  project <- verify_project_exists project_id ;;
  owner <- is_project_owner current_user project_id ;;
  require owner InsufficientPermissions ;;;
  require (negb (String.eqb username (p_owner_id project))) CannotRemoveOwner ;;;
  members <- select_members_with_filters project_id username ;;
  match members with
  | [] => raise TeamMemberNotFound
  | member :: _ =>
      delete_member (tm_id member) ;;;
      ret tt
  end.

(** [get_team_members]. *)
Definition get_team_members (project_id : string) (current_user : string)
  : M (list TeamMember) :=
  verify_project_exists project_id ;;;
  member <- is_project_member current_user project_id ;;
  require member UnauthorizedAccess ;;;
  select_members_where_project project_id.

(** [get_team_member]. *)
Definition get_team_member (project_id username : string)
    (current_user : string) : M TeamMember :=
  verify_project_exists project_id ;;;
  member <- is_project_member current_user project_id ;;
  require member UnauthorizedAccess ;;;
  members <- select_members_with_filters project_id username ;;
  match members with
  | [] => raise TeamMemberNotFound
  | m :: _ => ret m
  end.

(** [get_member_permissions]: the username, its role and the values of the
    role's permissions. *)
Definition get_member_permissions (project_id username : string)
    (current_user : string) : M (string * string * list string) :=
  verify_project_exists project_id ;;;
  member <- is_project_member current_user project_id ;;
  require member UnauthorizedAccess ;;;
  role <- get_user_role_in_project username project_id ;;
  require (truthy_opt role) TeamMemberNotFound ;;;
  let role := or_else role "" in
  let permissions := get_role_permissions role in
  ret (username, role, map Permission_value permissions).

End Roles.

(** ** routes/projects.py: the operations that write [progress] *)

Module Projects.

(** [check_project_access(project_id, username, db, require_owner)]. *)
Definition check_project_access (project_id username : string)
    (require_owner : bool) : M Project :=
  project <- select_project_by_id project_id ;;
  match project with
  | None => raise ProjectNotFound
  | Some p =>
      let is_owner := String.eqb (p_owner_id p) username in
      require (negb (require_owner && negb is_owner)) UnauthorizedAccess ;;;
      (if negb is_owner then
         team <- select_members_where_project project_id ;;
         require (existsb (fun tm => String.eqb (tm_username tm) username) team)
           UnauthorizedAccess
       else ret tt) ;;;
      ret p
  end.

Definition apply_project_update (u : ProjectUpdate) (p : Project) : Project :=
  mkProject (p_id p)
    (or_else (pu_name u) (p_name p))
    (or_else (pu_description u) (p_description p))
    (p_owner_id p)
    (or_else (pu_status u) (p_status p))
    (or_else (pu_progress u) (p_progress p)).

Definition update_is_empty (u : ProjectUpdate) : bool :=
  negb (is_set (pu_name u) || is_set (pu_description u)
        || is_set (pu_status u) || is_set (pu_progress u)).

(** [update_project]. *)
Definition update_project (project_id : string) (project_data : ProjectUpdate)
    (current_user : string) : M Project :=
  check_project_access project_id current_user true ;;;
  let update_data := project_data in
  require (negb (update_is_empty update_data)) InvalidData ;;;
  update_project_row project_id (apply_project_update update_data).

(** [add_team_member] of routes/projects.py (POST /projects/{id}/team):
    the older membership route, which rejects a duplicate instead of
    updating it and has no test on the owner's username. *)
Definition add_team_member (new_id stamp : string) (project_id : string)
    (team_member : TeamMemberAdd) (current_user : string) : M TeamMember :=
  check_project_access project_id current_user true ;;;
  existing <- select_members_with_filters project_id (tma_username team_member) ;;
  match existing with
  | _ :: _ => raise InvalidData
  | [] =>
      insert_member
        (mkTeamMember new_id project_id (tma_username team_member)
           (tma_role team_member) stamp)
  end.

(** [remove_team_member] of routes/projects.py
    (DELETE /projects/{id}/team/{member_id}). *)
Definition remove_team_member (project_id member_id : string)
    (current_user : string) : M unit :=
  check_project_access project_id current_user true ;;;
  delete_member member_id ;;;
  ret tt.

(** [get_team_members] of routes/projects.py. *)
Definition get_team_members (project_id : string) (current_user : string)
  : M (list TeamMember) :=
  check_project_access project_id current_user false ;;;
  select_members_where_project project_id.

(** The counting loop of [get_project_stats]: a dict with three fixed keys,
    a task adding one to the entry of its status (or priority) when that
    key is in the dict.  The default of [.get] stands in for a missing key
    only, so a column that holds a null is read as that null, which is not
    in the dict. *)
Fixpoint count_into (keys : list string) (field : Task -> option string)
    (tasks : list Task) (counts : list (string * Z)) : list (string * Z) :=
  match tasks with
  | [] => counts
  | t :: rest =>
      count_into keys field rest
        (if existsb (opt_eqb (field t)) keys
         then map (fun kv => if opt_eqb (field t) (fst kv)
                             then (fst kv, snd kv + 1) else kv) counts
         else counts)
  end.

Record ProjectStats : Type := mkProjectStats {
  ps_total_tasks : Z;
  ps_tasks_by_status : list (string * Z);
  ps_tasks_by_priority : list (string * Z);
  ps_team_member_count : Z;
  ps_progress : Z
}.

(** [get_project_stats]. *)
Definition get_project_stats (project_id : string) (current_user : string)
  : M ProjectStats :=
  project <- check_project_access project_id current_user false ;;
  tasks <- select_tasks_where_project project_id ;;
  let status_keys := ["todo"; "in_progress"; "completed"] in
  let priority_keys := ["low"; "medium"; "high"] in
  let status_counts :=
    count_into status_keys t_status tasks (map (fun k => (k, 0)) status_keys) in
  let priority_counts :=
    count_into priority_keys t_priority tasks
      (map (fun k => (k, 0)) priority_keys) in
  team <- select_members_where_project project_id ;;
  ret (mkProjectStats (len tasks) status_counts priority_counts (len team)
         (p_progress project)).

End Projects.

(** ** routes/analytics.py *)

Module AnalyticsRoutes.

(** [verify_analytics_access(project_id, username)]. *)
Definition verify_analytics_access (project_id username : string) : M unit :=
  project <- select_project_by_id project_id ;;
  require (is_set project) ProjectNotFound ;;;
  user_role <- get_user_role_in_project username project_id ;;
  require (check_permission user_role VIEW_ANALYTICS) InsufficientPermissions.

Section Endpoints.

Variable fromisoformat : string -> option datetime.
Variable round : spec_float -> Z -> spec_float.

(** [get_analytics_timeline]: the access check, then the timeline. *)
Definition get_analytics_timeline (fuel : nat) (now : datetime)
    (project_id : string) (days : Z) (current_user : string) (db : DB)
  : option (result (list TimelineEntry)) :=
  match verify_analytics_access project_id current_user db with
  | (Raise e, _) => Some (Raise e)
  | (Ok _, db') => get_project_timeline fromisoformat fuel now project_id days db'
  end.

(** [get_member_analytics_endpoint]. *)
Definition get_member_analytics_endpoint (project_id username : string)
    (current_user : string) : M MemberAnalytics :=
  project <- select_project_by_id project_id ;;
  require (is_set project) ProjectNotFound ;;;
  user_role <- get_user_role_in_project current_user project_id ;;
  let is_owner_or_manager := check_permission user_role VIEW_ANALYTICS in
  let is_self := String.eqb current_user username in
  require (is_owner_or_manager || is_self) InsufficientPermissions ;;;
  get_member_analytics fromisoformat round project_id username.

End Endpoints.

End AnalyticsRoutes.

(** ** The value role resolution computes *)

(** What [get_user_role_in_project] returns, as a function of the store:
    the owner test on the project row if there is one, then the first
    membership row for (project, username). *)
Definition resolved_role (username project_id : string) (db : DB) : option string :=
  if match find (fun p => String.eqb (p_id p) project_id) (projects db) with
     | Some p => String.eqb (p_owner_id p) username
     | None => false
     end
  then Some (Role_value OWNER)
  else match filter (member_matches project_id username) (team_members db) with
       | m :: _ => Some (tm_role m)
       | [] => None
       end.

(** The tasks of one project, and the progress stored on its row. *)
Definition project_tasks (project_id : string) (db : DB) : list Task :=
  filter (fun t => String.eqb (t_project_id t) project_id) (tasks db).

Definition stored_progress (project_id : string) (db : DB) : option Z :=
  option_map p_progress
    (find (fun p => String.eqb (p_id p) project_id) (projects db)).

(** The caller and the role a membership route of roles.py goes through
    with, and the key of a membership row. *)
Definition caller_is_owner (current_user : string) (project : Project) : Prop :=
  current_user = p_owner_id project.

Definition role_is_valid (role : string) : Prop :=
  existsb (String.eqb (lower role)) (map Role_value all_roles) = true.

Definition member_key (m : TeamMember) : string * string :=
  (tm_project_id m, tm_username m).

(** The bucket the timeline emits for the day [date], once every parse
    succeeded; [percent_or_zero] is the progress expression of the loop. *)
Definition percent_or_zero (completed total : Z) : Z :=
  if 0 <? total then or_else (percent completed total) 0 else 0.

Section TimelineBuckets.

Variable fromisoformat : string -> option datetime.

Definition parses (t : Task) : bool :=
  match t_updated_at t with
  | Some s => is_set (fromisoformat (replace_Z s))
  | None => true
  end.

(** A completed task with a non-empty [updated_at] that is not a
    timestamp. *)
Definition bad_stamp (t : Task) : bool :=
  (is_completed t && truthy_opt (t_updated_at t) && negb (parses t))%bool.

Definition completed_on (date : Z) (t : Task) : bool :=
  (is_completed t && truthy_opt (t_updated_at t)
   && match t_updated_at t with
      | Some s =>
          match fromisoformat (replace_Z s) with
          | Some d => dt_date d <=? date
          | None => false
          end
      | None => false
      end)%bool.

Definition bucket (tasks : list Task) (date : Z) : TimelineEntry :=
  let completed := count_if (completed_on date) tasks in
  mkTimelineEntry date completed (len tasks)
    (percent_or_zero completed (len tasks)).

End TimelineBuckets.

(** Exhaustive check of the progress expression on all ratios [c / t] with
    [c <= t <= bound]: the value exists, lies in [0, 100], is 0 for no
    completed task and 100 when all are, and is the exact floor or one
    below it. *)
Definition percent_check (c t : Z) : bool :=
  match percent c t with
  | Some n =>
      (0 <=? n) && (n <=? 100)
      && (if c =? t then n =? 100 else true)
      && (if c =? 0 then n =? 0 else true)
      && ((n =? 100 * c / t) || (n =? 100 * c / t - 1))
  | None => false
  end.

Definition percent_check_upto (bound : nat) : bool :=
  forallb (fun t =>
             forallb (fun c => percent_check (Z.of_nat c) (Z.of_nat t))
               (seq 0 (S t)))
    (seq 1 bound).

(** The smallest exponent of the format, and the outcome of a rounding
    whose operand is not too large: a zero or a finite number, with bounded
    mantissa size and exponent. *)
Definition float_emin : Z := 3 - emax - prec.

Definition finite_within (D elo ehi : Z) (x : spec_float) : Prop :=
  match x with
  | S754_zero _ => True
  | S754_finite _ m e => Zdigits2 (Z.pos m) <= D /\ elo <= e <= ehi
  | S754_infinity _ | S754_nan => False
  end.

(** ** Views of the task routes *)

(** The row [create_task] inserts, the task [get_existing_task] finds, and
    the part of [update_task] that follows the access checks, as functions
    of the store. *)
Definition created_row (new_id stamp project_id : string) (task_data : TaskCreate)
  : Task :=
  mkTask new_id project_id (Some (tc_title task_data))
    (tc_description task_data) (tc_assigned_to task_data)
    (Some (TaskStatus_value (tc_status task_data)))
    (Some (TaskPriority_value (tc_priority task_data)))
    (Some stamp) (Some stamp).

Definition found_task (project_id task_id : string) (db : DB) : option Task :=
  match find (fun t => String.eqb (t_id t) task_id) (tasks db) with
  | Some t => if String.eqb (t_project_id t) project_id then Some t else None
  | None => None
  end.

(** What [update_task] does once the project and the caller's membership are
    established and the task is found. *)
Definition update_task_body (datetime_validates : string -> bool)
    (project_id task_id : string) (task_data : TaskUpdate)
    (current_user : string) (task : Task) (db : DB)
  : result (Task * option Z) * DB :=
  let role := resolved_role current_user project_id db in
  let can_edit :=
    if negb (truthy_opt role) then false
    else if (opt_eqb role "owner" || opt_eqb role "manager")%bool then true
    else if opt_eqb role "developer"
         then opt_eqb (t_assigned_to task) current_user
    else false in
  if negb can_edit then (Raise InsufficientPermissions, db)
  else if Tasks.update_is_empty task_data then (Raise InvalidData, db)
  else
    match (match tu_assigned_to task_data with
           | Some new_assignee =>
               if negb (opt_opt_eqb new_assignee (t_assigned_to task)) then
                 if negb (check_permission role ASSIGN_TASK)
                 then Some InsufficientPermissions
                 else if (truthy_opt new_assignee
                          && negb (is_set (resolved_role (or_else new_assignee "")
                                             project_id db)))%bool
                 then Some InvalidData
                 else None
               else None
           | None => None
           end) with
    | Some e => (Raise e, db)
    | None =>
        bind (update_task_row task_id (Tasks.apply_task_update task_data))
          (fun updated_task =>
             if is_set (tu_status task_data) then
               bind (calculate_project_progress project_id)
                 (fun new_progress =>
                    bind (Task_model datetime_validates updated_task)
                      (fun response => ret (response, Some new_progress)))
             else
               bind (Task_model datetime_validates updated_task)
                 (fun response => ret (response, None)))
          db
    end.

(** ** Sample data used by the worked examples *)

Module Sample.

Definition task (id : string) (assignee : option string) (status : string)
    (updated_at : option string) : Task :=
  mkTask id "p1" (Some "task") None assignee (Some status) (Some "medium")
    (Some "2024-01-01") updated_at.

Definition project_p1 (progress : Z) : Project :=
  mkProject "p1" "Website" None "olivia" "active" progress.

Definition team : list TeamMember :=
  [ mkTeamMember "m1" "p1" "mark" "manager" "2024-01-01";
    mkTeamMember "m2" "p1" "dev1" "developer" "2024-01-01";
    mkTeamMember "m3" "p1" "alice" "viewer" "2024-01-01" ].

(** One project owned by olivia, a manager, a developer and a viewer, and
    two tasks: one assigned to the viewer alice, one to nobody. *)
Definition db1 : DB :=
  mkDB [project_p1 0] team
    [ task "t1" (Some "alice") "todo" None;
      task "t2" None "todo" None ].


(** A store without any project. *)
Definition db_empty : DB := mkDB [] [] [].

(** Membership rows that outlived their project. *)
Definition db_orphan : DB := mkDB [] team [].

(** [n] task rows of one status, with ids [status-01], [status-02], ... *)
Fixpoint tasks_n (n : nat) (status : string) (updated_at : option string)
  : list Task :=
  match n with
  | O => []
  | S n' =>
      task (status ++ "-"
              ++ String (ascii_of_nat (48 + (n / 10) mod 10))
                   (String (ascii_of_nat (48 + n mod 10)) ""))
        None status updated_at :: tasks_n n' status updated_at
  end.

(** Fifty tasks, twenty-nine of them completed on 2024-01-01. *)
Definition db_29_of_50 : DB :=
  mkDB [project_p1 0] team
    (tasks_n 29 "completed" (Some "2024-01-01") ++ tasks_n 21 "todo" None)%list.

(** One completed task, stored progress 100. *)
Definition db_done : DB :=
  mkDB [project_p1 100] team [ task "t1" (Some "dev1") "completed" (Some "2024-01-01") ].

(** One completed and one open task, stored progress 50. *)
Definition db_half : DB :=
  mkDB [project_p1 50] team
    [ task "t1" (Some "dev1") "completed" (Some "2024-01-01");
      task "t2" None "todo" (Some "2024-01-01") ].

Definition new_task : TaskCreate :=
  mkTaskCreate "p1" "write tests" None None TODO MEDIUM.

(** A completed task whose [updated_at] is not a timestamp. *)
Definition db_bad_stamp : DB :=
  mkDB [project_p1 100] team [ task "t1" (Some "dev1") "completed" (Some "yesterday") ].

(** A stand-in for [datetime.fromisoformat] that reads the date-only form
    [YYYY-MM-DD] (midnight, naive) and rejects every other string. *)
Definition digit (c : ascii) : option Z :=
  let n := nat_of_ascii c in
  if (Nat.leb 48 n && Nat.leb n 57)%bool then Some (Z.of_nat (n - 48)) else None.

Fixpoint number (acc : Z) (cs : list ascii) : option Z :=
  match cs with
  | [] => Some acc
  | c :: rest =>
      match digit c with
      | Some d => number (10 * acc + d) rest
      | None => None
      end
  end.

Definition is_leap (y : Z) : bool :=
  ((y mod 4 =? 0) && (negb (y mod 100 =? 0) || (y mod 400 =? 0)))%bool.

Definition days_in_month (y m : Z) : Z :=
  if m =? 2 then (if is_leap y then 29 else 28)
  else if ((m =? 4) || (m =? 6) || (m =? 9) || (m =? 11))%bool then 30
  else 31.

Definition days_before_year (y : Z) : Z :=
  let y' := y - 1 in y' * 365 + y' / 4 - y' / 100 + y' / 400.

Fixpoint days_before_month (y : Z) (m : nat) : Z :=
  match m with
  | O => 0
  | S m' => days_before_month y m' + days_in_month y (Z.of_nat m)
  end.

Definition toordinal (y m d : Z) : Z :=
  days_before_year y + days_before_month y (Z.to_nat (m - 1)) + d.

Definition fromisoformat (s : string) : option datetime :=
  match list_ascii_of_string s with
  | [y1; y2; y3; y4; dash1; m1; m2; dash2; d1; d2] =>
      if (Ascii.eqb dash1 "-" && Ascii.eqb dash2 "-")%bool then
        match number 0 [y1; y2; y3; y4], number 0 [m1; m2], number 0 [d1; d2] with
        | Some y, Some m, Some d =>
            if ((1 <=? y) && (1 <=? m) && (m <=? 12) && (1 <=? d)
                && (d <=? days_in_month y m))%bool
            then Some (mkDatetime (toordinal y m d) 0 None)
            else None
        | _, _, _ => None
        end
      else None
  | _ => None
  end.

(** A stand-in for the built-in [round] that keeps its argument. *)
Definition round (x : spec_float) (ndigits : Z) : spec_float := x.

(** A stand-in for pydantic's validation of a [datetime] field, which in
    its default mode accepts the date-only form: it accepts the strings the
    parser above reads and no other. *)
Definition datetime_validates (s : string) : bool := is_set (fromisoformat s).

(** 2024-03-01, 09:30 local time. *)
Definition now : datetime := mkDatetime (toordinal 2024 3 1) 34200000000 None.

(** The owner also listed as a viewer in the membership table. *)
Definition db_owner_row : DB :=
  mkDB [project_p1 0]
    (mkTeamMember "m0" "p1" "olivia" "viewer" "2024-01-01" :: team)
    [ task "t1" (Some "alice") "todo" None ].

(** Two projects; paula owns p2, whose only member is peter. *)
Definition project_p2 : Project :=
  mkProject "p2" "Mobile app" None "paula" "active" 0.

Definition db_two_projects : DB :=
  mkDB [project_p1 0; project_p2]
    (team ++ [mkTeamMember "m7" "p2" "peter" "developer" "2024-01-01"])%list
    [ task "t1" (Some "alice") "todo" None;
      mkTask "t5" "p2" (Some "task") None (Some "peter") (Some "in_progress")
        (Some "high") (Some "2024-01-01") None ].

(** alice is a developer here, with a task of her own. *)
Definition db_dev_task : DB :=
  mkDB [project_p1 0]
    [ mkTeamMember "m1" "p1" "mark" "manager" "2024-01-01";
      mkTeamMember "m3" "p1" "alice" "developer" "2024-01-01" ]
    [ task "t1" (Some "alice") "todo" (Some "2024-01-01");
      task "t2" None "completed" (Some "2024-01-02") ].

End Sample.

(** * Properties *)

(** ** Floats: the progress expression never overflows *)

Lemma digits2_pos_size p : digits2_pos p = Pos.size p.
Proof. induction p; cbn; congruence. Qed.

Lemma Zdigits2_pos_log2 p : Zdigits2 (Z.pos p) = Z.log2 (Z.pos p) + 1.
Proof.
  destruct p; cbn [Zdigits2 digits2_pos Z.log2];
    rewrite ?digits2_pos_size, ?Pos2Z.inj_succ; lia.
Qed.

Lemma Zdigits2_nonneg z : 0 <= Zdigits2 z.
Proof. destruct z; cbn; lia. Qed.

Lemma Zdigits2_mono a b : 0 <= a <= b -> Zdigits2 a <= Zdigits2 b.
Proof.
  intros [Ha Hab]. destruct a as [|a|a]; [apply Zdigits2_nonneg| |lia].
  destruct b as [|b|b]; try lia.
  rewrite !Zdigits2_pos_log2.
  apply Z.add_le_mono_r, Z.log2_le_mono, Hab.
Qed.

Lemma Zdigits2_succ a : 0 <= a -> Zdigits2 (a + 1) <= Zdigits2 a + 1.
Proof.
  intros Ha. destruct a as [|a|a]; [cbn; lia| |lia].
  change (Z.pos a + 1) with (Z.succ (Z.pos a)).
  assert (H := Z.log2_succ_le (Z.pos a)).
  destruct (Z.succ (Z.pos a)) as [|s|s] eqn:E; try lia.
  rewrite !Zdigits2_pos_log2. lia.
Qed.

Lemma Zdigits2_shiftl a n :
  0 < a -> 0 <= n -> Zdigits2 (Z.shiftl a n) = Zdigits2 a + n.
Proof.
  intros Ha Hn. rewrite Z.shiftl_mul_pow2 by exact Hn.
  assert (Hp : 0 < a * 2 ^ n) by (apply Z.mul_pos_pos; [exact Ha|apply Z.pow_pos_nonneg; lia]).
  assert (Hlog := Z.log2_mul_pow2 a n Ha Hn).
  destruct a as [|a|a]; try lia.
  destruct (Z.pos a * 2 ^ n) as [|q|q]; try lia.
  rewrite !Zdigits2_pos_log2. lia.
Qed.

Lemma Zdigits2_mul a b :
  Zdigits2 (Z.pos (a * b)) <= Zdigits2 (Z.pos a) + Zdigits2 (Z.pos b).
Proof.
  rewrite !Zdigits2_pos_log2, Pos2Z.inj_mul.
  assert (H := Z.log2_mul_above (Z.pos a) (Z.pos b)). lia.
Qed.

Lemma digits2_pos_iter_xO m k :
  Z.pos (digits2_pos (Pos.iter xO m k)) = Z.pos (digits2_pos m) + Z.pos k.
Proof.
  induction k as [|k IH] using Pos.peano_ind.
  - cbn. lia.
  - rewrite Pos.iter_succ. cbn [digits2_pos]. rewrite Pos2Z.inj_succ, IH. lia.
Qed.

Lemma shr_1_bounds mrs :
  0 <= shr_m mrs -> 0 <= shr_m (shr_1 mrs) <= shr_m mrs.
Proof.
  destruct mrs as [m r s]. cbn [shr_m].
  destruct m as [|[p|p|]|p]; cbn; lia.
Qed.

Lemma iter_shr_1_bounds p : forall mrs,
  0 <= shr_m mrs -> 0 <= shr_m (iter_pos shr_1 p mrs) <= shr_m mrs.
Proof.
  induction p as [p IH|p IH|]; intros mrs H; cbn [iter_pos].
  - assert (H1 := shr_1_bounds mrs H).
    assert (H2 := IH (shr_1 mrs) (proj1 H1)).
    assert (H3 := IH _ (proj1 H2)). lia.
  - assert (H2 := IH mrs H).
    assert (H3 := IH _ (proj1 H2)). lia.
  - apply shr_1_bounds, H.
Qed.

Lemma shr_bounds mrs e n :
  0 <= shr_m mrs ->
  0 <= shr_m (fst (shr mrs e n)) <= shr_m mrs
  /\ snd (shr mrs e n) = e + Z.max 0 n.
Proof.
  intros H. destruct n as [|p|p]; cbn [shr fst snd]; try lia.
  split; [apply iter_shr_1_bounds, H|lia].
Qed.

Lemma shr_m_of_loc m l : shr_m (shr_record_of_loc m l) = m.
Proof. destruct l as [|[]]; reflexivity. Qed.

Lemma round_nearest_even_bounds m l :
  m <= round_nearest_even m l <= m + 1.
Proof.
  destruct l as [|[]]; cbn; try lia. destruct (Z.even m); lia.
Qed.

Lemma shr_fexp_bounds m e l D :
  0 <= m -> Zdigits2 m <= D -> float_emin <= e ->
  let out := shr_fexp prec emax m e l in
  0 <= shr_m (fst out) <= m
  /\ e <= snd out <= e + Z.max 0 (D - prec).
Proof.
  intros Hm HD He. cbv zeta. unfold shr_fexp.
  destruct (shr_bounds (shr_record_of_loc m l) e
              (fexp prec emax (Zdigits2 m + e) - e)) as [Hb He'].
  { rewrite shr_m_of_loc. exact Hm. }
  rewrite shr_m_of_loc in Hb. split; [exact Hb|].
  rewrite He'. unfold fexp, SpecFloat.emin, float_emin in *. lia.
Qed.

Lemma binary_round_aux_finite sx mx ex lx D :
  0 <= mx -> Zdigits2 mx <= D -> float_emin <= ex ->
  ex + 2 * Z.max 0 (D + 1 - prec) <= emax - prec ->
  finite_within (D + 1) ex (ex + 2 * Z.max 0 (D + 1 - prec))
    (binary_round_aux prec emax sx mx ex lx).
Proof.
  intros Hm HD He Hmax. unfold binary_round_aux.
  assert (H1 := shr_fexp_bounds mx ex lx D Hm HD He). cbv zeta in H1.
  destruct (shr_fexp prec emax mx ex lx) as [mrs1 e1]. cbn [fst snd] in H1.
  destruct H1 as [Hm1 He1].
  assert (Hr := round_nearest_even_bounds (shr_m mrs1) (loc_of_shr_record mrs1)).
  set (m2 := round_nearest_even (shr_m mrs1) (loc_of_shr_record mrs1)) in *.
  assert (Hd2 : Zdigits2 m2 <= D + 1).
  { transitivity (Zdigits2 (mx + 1)).
    - apply Zdigits2_mono. lia.
    - transitivity (Zdigits2 mx + 1); [apply Zdigits2_succ, Hm|lia]. }
  assert (H2 := shr_fexp_bounds m2 e1 loc_Exact (D + 1)). cbv zeta in H2.
  destruct (shr_fexp prec emax m2 e1 loc_Exact) as [mrs2 e2]. cbn [fst snd] in H2.
  destruct H2 as [Hm3 He2]; [lia|exact Hd2|lia|].
  destruct (shr_m mrs2) as [|m3|m3] eqn:E3; [exact I| |lia].
  assert (Hle : (e2 <=? emax - prec) = true) by (apply Z.leb_le; lia).
  rewrite Hle. cbn [finite_within]. split.
  - transitivity (Zdigits2 m2); [apply Zdigits2_mono; lia|exact Hd2].
  - lia.
Qed.

(** [float(n)] for [0 < n < 2^53] is exact: a 53-bit mantissa and an
    exponent between -52 and 0. *)
Lemma float_of_int_exact n :
  0 < n < 2 ^ 53 ->
  exists m e, float_of_int n = S754_finite false m e
              /\ Zdigits2 (Z.pos m) = 53 /\ -52 <= e <= 0.
Proof.
  intros [Hpos Hlt]. destruct n as [|p|p]; try lia.
  assert (Hd : 1 <= Zdigits2 (Z.pos p) <= 53).
  { rewrite Zdigits2_pos_log2.
    assert (H0 := Z.log2_nonneg (Z.pos p)).
    assert (H1 : Z.log2 (Z.pos p) < 53) by (apply Z.log2_lt_pow2; lia). lia. }
  cbn [Zdigits2] in Hd.
  unfold float_of_int, binary_normalize, binary_round.
  set (d := Z.pos (digits2_pos p)) in *.
  assert (Hfexp : fexp prec emax (d + 0) = d - 53).
  { unfold fexp, SpecFloat.emin, prec, emax. lia. }
  rewrite Hfexp. unfold shl_align.
  assert (Hshape : exists m e,
             (match d - 53 - 0 with
              | Z.neg k => (Pos.iter xO p k, d - 53)
              | _ => (p, 0)
              end) = (m, e)
             /\ Z.pos (digits2_pos m) = 53 /\ -52 <= e <= 0).
  { destruct (d - 53 - 0) as [|k|k] eqn:E.
    - exists p, 0. repeat split; try fold d; lia.
    - lia.
    - exists (Pos.iter xO p k), (d - 53).
      repeat split; rewrite ?digits2_pos_iter_xO; try fold d; lia. }
  destruct Hshape as (m & e & -> & Hm & He).
  exists m, e. split; [|split; [exact Hm|exact He]].
  unfold binary_round_aux, shr_fexp. cbn [Zdigits2 shr_record_of_loc].
  rewrite Hm.
  assert (Hf : fexp prec emax (53 + e) - e = 0).
  { unfold fexp, SpecFloat.emin, prec, emax. lia. }
  rewrite Hf. cbn [shr shr_m loc_of_shr_record round_nearest_even Zdigits2].
  rewrite Hm, Hf. cbn [shr shr_m shr_record_of_loc].
  replace (e <=? emax - prec) with true
    by (symmetry; apply Z.leb_le; unfold emax, prec; lia).
  reflexivity.
Qed.

Lemma int_of_float_finite_within D elo ehi x :
  finite_within D elo ehi x -> exists n, int_of_float x = Some n.
Proof.
  destruct x as [s|s| |s m e]; cbn; intros H; try destruct H; eexists; reflexivity.
Qed.

Lemma int_truediv_finite c t :
  0 < c < 2 ^ 53 -> 0 < t < 2 ^ 53 ->
  finite_within 107 (-105) 107 (int_truediv c t).
Proof.
  intros Hc Ht. unfold int_truediv.
  destruct (float_of_int_exact c Hc) as (mx & ex & -> & Hdx & Hex).
  destruct (float_of_int_exact t Ht) as (my & ey & -> & Hdy & Hey).
  unfold SFdiv, SFdiv_core_binary. rewrite Hdx, Hdy.
  assert (He' : Z.min (fexp prec emax (53 + ex - (53 + ey))) (ex - ey)
                = ex - ey - 53).
  { unfold fexp, SpecFloat.emin, prec, emax. lia. }
  rewrite He'.
  replace (ex - ey - (ex - ey - 53)) with 53 by lia.
  assert (Hdiv := Z_div_mod (Z.shiftl (Z.pos mx) 53) (Z.pos my) eq_refl).
  destruct (Z.div_eucl (Z.shiftl (Z.pos mx) 53) (Z.pos my)) as [q r].
  destruct Hdiv as [Heq Hr].
  assert (Hsh : 0 < Z.shiftl (Z.pos mx) 53).
  { rewrite Z.shiftl_mul_pow2 by lia. lia. }
  assert (Hq : 0 <= q <= Z.shiftl (Z.pos mx) 53) by nia.
  assert (Hdq : Zdigits2 q <= 106).
  { transitivity (Zdigits2 (Z.shiftl (Z.pos mx) 53));
      [apply Zdigits2_mono, Hq|].
    rewrite Zdigits2_shiftl by lia. lia. }
  assert (H := binary_round_aux_finite (xorb false false) q (ex - ey - 53)
                 (new_location (Z.pos my) r) 106 (proj1 Hq) Hdq).
  unfold float_emin, prec, emax in H.
  assert (Hfin : finite_within (106 + 1) (ex - ey - 53)
                   (ex - ey - 53 + 2 * Z.max 0 (106 + 1 - 53))
                   (binary_round_aux 53 1024 (xorb false false) q (ex - ey - 53)
                      (new_location (Z.pos my) r))) by (apply H; lia).
  unfold prec, emax.
  destruct (binary_round_aux 53 1024 _ q _ _); cbn in *; try exact Hfin; lia.
Qed.

(** The progress expression is defined on every ratio the code can form:
    [completed <= total], with [total] below 2^53. *)
Lemma percent_total c t :
  0 <= c <= t -> 0 < t < 2 ^ 53 -> exists n, percent c t = Some n.
Proof.
  intros Hc Ht. unfold percent, float_mul_int.
  destruct (float_of_int_exact 100) as (mh & eh & Hh & Hdh & Heh); [lia|].
  rewrite Hh.
  destruct (Z.eq_dec c 0) as [-> | Hc0].
  - unfold int_truediv.
    destruct (float_of_int_exact t Ht) as (my & ey & -> & _ & _).
    cbn. eexists. reflexivity.
  - assert (Hdiv := int_truediv_finite c t ltac:(lia) Ht).
    destruct (int_truediv c t) as [s|s| |s m e]; cbn [finite_within] in Hdiv.
    + cbn. eexists. reflexivity.
    + destruct Hdiv.
    + destruct Hdiv.
    + destruct Hdiv as [Hdm He]. unfold SFmul.
      apply (int_of_float_finite_within (160 + 1) (e + eh)
               (e + eh + 2 * Z.max 0 (160 + 1 - prec))).
      apply binary_round_aux_finite.
      * lia.
      * assert (H := Zdigits2_mul m mh). lia.
      * unfold float_emin, prec, emax. lia.
      * unfold prec, emax. lia.
Qed.

(** ** Reading the store *)

Lemma get_user_role_in_project_run username project_id db :
  get_user_role_in_project username project_id db
  = (Ok (resolved_role username project_id db), db).
Proof.
  unfold get_user_role_in_project, resolved_role, select_project_by_id,
    select_members_with_filters, bind, get_db, ret.
  destruct (find _ (projects db)) as [p|]; [destruct (String.eqb _ _)|];
    try reflexivity;
    destruct (filter _ (team_members db)); reflexivity.
Qed.

Lemma is_project_owner_run username project_id db :
  is_project_owner username project_id db
  = (Ok match find (fun p => String.eqb (p_id p) project_id) (projects db) with
        | Some p => String.eqb (p_owner_id p) username
        | None => false
        end, db).
Proof.
  unfold is_project_owner, select_project_by_id, bind, get_db, ret.
  destruct (find _ (projects db)); reflexivity.
Qed.

Lemma is_project_member_run username project_id db :
  is_project_member username project_id db
  = (Ok (is_set (resolved_role username project_id db)), db).
Proof.
  unfold is_project_member, bind.
  rewrite is_project_owner_run.
  assert (Hrole := get_user_role_in_project_run username project_id db).
  unfold resolved_role in *.
  destruct (find _ (projects db)) as [p|]; [destruct (String.eqb _ _)|];
    try reflexivity; rewrite Hrole;
    destruct (filter _ (team_members db)); reflexivity.
Qed.

Lemma can_edit_task_run username project_id task_owner db :
  can_edit_task username project_id task_owner db
  = (Ok (let role := resolved_role username project_id db in
         if negb (truthy_opt role) then false
         else if (opt_eqb role "owner" || opt_eqb role "manager")%bool then true
         else if opt_eqb role "developer" then opt_eqb task_owner username
         else false), db).
Proof.
  unfold can_edit_task, bind. rewrite get_user_role_in_project_run. cbv zeta.
  generalize (resolved_role username project_id db). intros role.
  destruct (negb _); [reflexivity|].
  change (Role_value OWNER) with "owner"; change (Role_value MANAGER) with "manager";
    change (Role_value DEVELOPER) with "developer".
  destruct (_ || _)%bool; [reflexivity|].
  destruct (opt_eqb _ "developer"); reflexivity.
Qed.

(** ** C1: the permission table *)

Lemma Role_of_value_Role_value r : Role_of_value (Role_value r) = Some r.
Proof. destruct r; reflexivity. Qed.

Lemma lower_Role_value r : lower (Role_value r) = Role_value r.
Proof. destruct r; reflexivity. Qed.

Lemma check_permission_of_role s r p :
  Role_of_value (lower s) = Some r ->
  check_permission (Some s) p = table_4_1 r p.
Proof.
  intros H. unfold check_permission.
  destruct s as [|c s].
  - discriminate H.
  - cbn [truthy_opt truthy negb]. rewrite H.
    destruct r, p; reflexivity.
Qed.

(** C1 (as stated): a role string outside the four enumerated values is
    claimed to have no permission; the upper-case spelling of a role is such
    a string and is granted the role's permissions. *)
Lemma check_permission_uppercase_role :
  ~ In "OWNER" (map Role_value all_roles)
  /\ check_permission (Some "OWNER") DELETE_PROJECT = true.
Proof.
  split; [|reflexivity].
  cbn. intros [H|[H|[H|[H|[]]]]]; discriminate H.
Qed.

(** C1 (amended): on the four roles and fifteen permissions
    [check_permission] is the table of section 4.1; it returns [false] for
    [None], for the empty string and for every string whose lower-case form
    is not a role value; a string whose lower-case form is a role value is
    given that role's row of the table. *)
Theorem check_permission_table :
  (forall r p, check_permission (Some (Role_value r)) p = table_4_1 r p)
  /\ (forall p, check_permission None p = false)
  /\ (forall p, check_permission (Some "") p = false)
  /\ (forall s p, Role_of_value (lower s) = None ->
                  check_permission (Some s) p = false)
  /\ (forall s r p, Role_of_value (lower s) = Some r ->
                    check_permission (Some s) p = table_4_1 r p).
Proof.
  repeat split.
  - intros r p. apply check_permission_of_role.
    rewrite lower_Role_value. apply Role_of_value_Role_value.
  - intros s p H. unfold check_permission. rewrite H.
    destruct (negb _); reflexivity.
  - intros s r p. apply check_permission_of_role.
Qed.

Lemma check_permission_table_witness :
  Role_of_value (lower "admin") = None
  /\ check_permission (Some "admin") VIEW_PROJECT = false
  /\ Role_of_value (lower "Manager") = Some MANAGER
  /\ check_permission (Some "Manager") EDIT_PROJECT = true
  /\ check_permission (Some "manager") CREATE_PROJECT = false
  /\ check_permission (Some "manager") DELETE_PROJECT = false
  /\ check_permission (Some "developer") EDIT_TASK = false
  /\ check_permission (Some "developer") DELETE_TASK = false
  /\ check_permission (Some "developer") ASSIGN_TASK = false
  /\ filter (check_permission (Some "viewer")) all_permissions
     = [VIEW_PROJECT; VIEW_TASK].
Proof.
  destruct check_permission_table as (Htab & _ & _ & Hout & Hin).
  split; [reflexivity|].
  split; [apply (Hout "admin" VIEW_PROJECT); reflexivity|].
  split; [reflexivity|].
  split; [apply (Hin "Manager" MANAGER EDIT_PROJECT); reflexivity|].
  split; [apply (Htab MANAGER CREATE_PROJECT)|].
  split; [apply (Htab MANAGER DELETE_PROJECT)|].
  split; [apply (Htab DEVELOPER EDIT_TASK)|].
  split; [apply (Htab DEVELOPER DELETE_TASK)|].
  split; [apply (Htab DEVELOPER ASSIGN_TASK)|].
  reflexivity.
Defined.

(** ** C2: role resolution when the project is missing *)

(** C2 (as stated): with no project in the store the resolution is claimed
    to raise ProjectNotFound; it returns [None], and with a membership row
    left behind it returns that row's role. *)
Lemma get_user_role_missing_project_returns :
  find (fun p => String.eqb (p_id p) "p1") (projects Sample.db_empty) = None
  /\ get_user_role_in_project "alice" "p1" Sample.db_empty
     = (Ok None, Sample.db_empty)
  /\ find (fun p => String.eqb (p_id p) "p1") (projects Sample.db_orphan) = None
  /\ get_user_role_in_project "alice" "p1" Sample.db_orphan
     = (Ok (Some "viewer"), Sample.db_orphan)
  /\ fst (get_user_role_in_project "alice" "p1" Sample.db_empty)
     <> Raise ProjectNotFound.
Proof. repeat split; try reflexivity. discriminate. Qed.

(** C2 (amended): when the project id is absent from the store,
    [get_user_role_in_project] raises nothing and leaves the store as it is:
    it returns the role of the first membership row for (project, username),
    or [None] when there is no such row.  The existence check is left to the
    callers ([verify_project_access], [verify_project_exists]). *)
Theorem get_user_role_missing_project :
  forall username project_id db,
    find (fun p => String.eqb (p_id p) project_id) (projects db) = None ->
    get_user_role_in_project username project_id db
    = (Ok (option_map tm_role
             (hd_error (filter (member_matches project_id username)
                          (team_members db)))), db).
Proof.
  intros username project_id db H.
  rewrite get_user_role_in_project_run. unfold resolved_role. rewrite H.
  destruct (filter _ (team_members db)); reflexivity.
Qed.

Lemma get_user_role_missing_project_witness :
  get_user_role_in_project "mark" "p1" Sample.db_orphan
  = (Ok (Some "manager"), Sample.db_orphan).
Proof.
  apply (get_user_role_missing_project "mark" "p1" Sample.db_orphan).
  reflexivity.
Defined.

(** ** C3: who may edit a task *)

(** C3: with the role [get_user_role_in_project] resolves, [can_edit_task]
    is true for an owner or a manager whatever the assignee, is the equality
    of the assignee with the username for a developer (so false for a task
    without assignee), and is false for a viewer and for a user without
    role. *)
Theorem can_edit_task_rule :
  forall username project_id task_owner db role,
    fst (get_user_role_in_project username project_id db) = Ok role ->
    (role = Some (Role_value OWNER) \/ role = Some (Role_value MANAGER) ->
       can_edit_task username project_id task_owner db = (Ok true, db))
    /\ (role = Some (Role_value DEVELOPER) ->
          can_edit_task username project_id task_owner db
          = (Ok (opt_eqb task_owner username), db)
          /\ can_edit_task username project_id None db = (Ok false, db))
    /\ (role = Some (Role_value VIEWER) \/ role = None ->
          can_edit_task username project_id task_owner db = (Ok false, db)).
Proof.
  intros username project_id task_owner db role Hrole.
  rewrite get_user_role_in_project_run in Hrole. cbn in Hrole.
  injection Hrole as Hrole.
  rewrite !can_edit_task_run, Hrole. cbv zeta.
  split; [|split].
  - intros [-> | ->]; reflexivity.
  - intros ->. split; reflexivity.
  - intros [-> | ->]; reflexivity.
Qed.

Lemma can_edit_task_rule_witness :
  can_edit_task "dev1" "p1" (Some "dev1") Sample.db1 = (Ok true, Sample.db1)
  /\ can_edit_task "dev1" "p1" (Some "dev2") Sample.db1 = (Ok false, Sample.db1)
  /\ can_edit_task "dev1" "p1" None Sample.db1 = (Ok false, Sample.db1)
  /\ can_edit_task "olivia" "p1" None Sample.db1 = (Ok true, Sample.db1)
  /\ can_edit_task "mark" "p1" (Some "dev2") Sample.db1 = (Ok true, Sample.db1)
  /\ can_edit_task "alice" "p1" (Some "alice") Sample.db1 = (Ok false, Sample.db1)
  /\ can_edit_task "nobody" "p1" (Some "nobody") Sample.db1 = (Ok false, Sample.db1).
Proof.
  destruct (can_edit_task_rule "dev1" "p1" (Some "dev1") Sample.db1
              (Some "developer") eq_refl) as (_ & Hown & _).
  destruct (can_edit_task_rule "dev1" "p1" (Some "dev2") Sample.db1
              (Some "developer") eq_refl) as (_ & Hother & _).
  destruct (can_edit_task_rule "olivia" "p1" None Sample.db1
              (Some "owner") eq_refl) as (Howner & _ & _).
  destruct (can_edit_task_rule "mark" "p1" (Some "dev2") Sample.db1
              (Some "manager") eq_refl) as (Hmanager & _ & _).
  destruct (can_edit_task_rule "alice" "p1" (Some "alice") Sample.db1
              (Some "viewer") eq_refl) as (_ & _ & Hviewer).
  destruct (can_edit_task_rule "nobody" "p1" (Some "nobody") Sample.db1
              None eq_refl) as (_ & _ & Hnone).
  split; [exact (proj1 (Hown eq_refl))|].
  split; [exact (proj1 (Hother eq_refl))|].
  split; [exact (proj2 (Hown eq_refl))|].
  split; [exact (Howner (or_introl eq_refl))|].
  split; [exact (Hmanager (or_intror eq_refl))|].
  split; [exact (Hviewer (or_introl eq_refl))|].
  exact (Hnone (or_intror eq_refl)).
Defined.

(** ** Store lemmas *)

Lemma find_update_rows {R : Type} (id_of : R -> string) rid (patch : R -> R) rows r :
  (forall x, id_of (patch x) = id_of x) ->
  find (fun x => String.eqb (id_of x) rid) rows = Some r ->
  find (fun x => String.eqb (id_of x) rid) (update_rows id_of rid patch rows)
  = Some (patch r).
Proof.
  intros Hid. induction rows as [|x rows IH]; cbn; [discriminate|].
  destruct (String.eqb (id_of x) rid) eqn:E.
  - intros [= ->]. cbn. rewrite Hid, E. reflexivity.
  - intros H. cbn. rewrite E. apply IH, H.
Qed.

Lemma find_update_rows_other {R : Type} (id_of : R -> string) rid rid'
    (patch : R -> R) rows :
  (forall x, id_of (patch x) = id_of x) ->
  String.eqb rid' rid = false ->
  find (fun x => String.eqb (id_of x) rid') (update_rows id_of rid patch rows)
  = find (fun x => String.eqb (id_of x) rid') rows.
Proof.
  intros Hid Hne. induction rows as [|x rows IH]; cbn; [reflexivity|].
  destruct (String.eqb (id_of x) rid) eqn:E.
  - cbn. rewrite Hid. apply String.eqb_eq in E. rewrite E.
    rewrite String.eqb_sym, Hne. apply IH.
  - cbn. destruct (String.eqb (id_of x) rid'); [reflexivity|apply IH].
Qed.

Lemma filter_update_rows {R : Type} (id_of : R -> string) rid (patch : R -> R)
    (keep : R -> bool) rows :
  (forall x, keep (patch x) = keep x) ->
  filter keep (update_rows id_of rid patch rows)
  = update_rows id_of rid patch (filter keep rows).
Proof.
  intros Hkeep. unfold update_rows in *.
  induction rows as [|x rows IH]; cbn; [reflexivity|].
  destruct (String.eqb (id_of x) rid) eqn:E.
  - rewrite Hkeep. destruct (keep x); cbn; rewrite ?E, IH; reflexivity.
  - destruct (keep x); cbn; rewrite ?E, IH; reflexivity.
Qed.

Lemma length_update_rows {R : Type} (id_of : R -> string) rid (patch : R -> R) rows :
  List.length (update_rows id_of rid patch rows) = List.length rows.
Proof. apply length_map. Qed.

Lemma find_some_filter {R : Type} (f keep : R -> bool) rows r :
  find f rows = Some r -> keep r = true -> filter keep rows <> [].
Proof.
  intros Hf Hk. apply find_some in Hf. destruct Hf as [Hin _].
  intros Hnil.
  assert (In r (filter keep rows)) by (apply filter_In; auto).
  rewrite Hnil in H. destruct H.
Qed.

Lemma count_if_le_len {A : Type} (cond : A -> bool) l :
  0 <= count_if cond l <= len l.
Proof.
  unfold count_if, len. split; [lia|].
  apply inj_le. induction l as [|x l IH]; cbn; [lia|].
  destruct (cond x); cbn; lia.
Qed.

(** ** Progress recomputation *)

Lemma calculate_project_progress_run project_id db project n :
  find (fun p => String.eqb (p_id p) project_id) (projects db) = Some project ->
  project_tasks project_id db <> [] ->
  percent (count_if is_completed (project_tasks project_id db))
    (len (project_tasks project_id db)) = Some n ->
  calculate_project_progress project_id db
  = (Ok n, with_projects
             (update_rows p_id project_id (set_progress n) (projects db)) db).
Proof.
  intros Hp Hne Hpct.
  unfold calculate_project_progress, select_tasks_where_project, bind, get_db, ret.
  fold (project_tasks project_id db).
  destruct (len (project_tasks project_id db) =? 0) eqn:E.
  - apply Z.eqb_eq in E. unfold len in E.
    destruct (project_tasks project_id db); [congruence|cbn in E; lia].
  - rewrite Hpct. unfold update_project_row, bind, get_db, put_db, ret, raise.
    unfold first_updated.
    rewrite (find_update_rows p_id project_id (set_progress n) _ project);
      [reflexivity|reflexivity|exact Hp].
Qed.

Lemma calculate_project_progress_empty project_id db :
  project_tasks project_id db = [] ->
  calculate_project_progress project_id db = (Ok 0, db).
Proof.
  intros H.
  unfold calculate_project_progress, select_tasks_where_project, bind, get_db, ret.
  fold (project_tasks project_id db). rewrite H. reflexivity.
Qed.

(** ** Guards shared by the task routes *)

Lemma verify_project_access_run project_id username db :
  Tasks.verify_project_access project_id username db
  = (match find (fun p => String.eqb (p_id p) project_id) (projects db) with
     | None => Raise ProjectNotFound
     | Some _ =>
         if is_set (resolved_role username project_id db) then Ok tt
         else Raise UnauthorizedAccess
     end, db).
Proof.
  unfold Tasks.verify_project_access, select_project_by_id, bind, get_db, ret.
  destruct (find _ (projects db)); cbn; [|reflexivity].
  rewrite is_project_member_run.
  destruct (is_set _); reflexivity.
Qed.

Lemma get_existing_task_run project_id task_id db :
  Tasks.get_existing_task project_id task_id db
  = (match find (fun t => String.eqb (t_id t) task_id) (tasks db) with
     | None => Raise TaskNotFound
     | Some t =>
         if String.eqb (t_project_id t) project_id then Ok t
         else Raise TaskNotFound
     end, db).
Proof.
  unfold Tasks.get_existing_task, select_task_by_id, bind, get_db, ret, raise.
  destruct (find _ (tasks db)) as [t|]; [|reflexivity].
  destruct (String.eqb (t_project_id t) project_id); reflexivity.
Qed.

Lemma update_task_row_run task_id patch db task :
  (forall t, t_id (patch t) = t_id t) ->
  find (fun t => String.eqb (t_id t) task_id) (tasks db) = Some task ->
  update_task_row task_id patch db
  = (Ok (patch task), with_tasks (update_rows t_id task_id patch (tasks db)) db).
Proof.
  intros Hid Hf.
  unfold update_task_row, bind, get_db, put_db, ret, raise, first_updated.
  rewrite (find_update_rows t_id task_id patch _ task Hid Hf). reflexivity.
Qed.

Lemma project_tasks_after_update project_id task_id patch db :
  (forall t, t_project_id (patch t) = t_project_id t) ->
  project_tasks project_id
    (with_tasks (update_rows t_id task_id patch (tasks db)) db)
  = update_rows t_id task_id patch (project_tasks project_id db).
Proof.
  intros H. unfold project_tasks. cbn.
  apply filter_update_rows. intros t. rewrite H. reflexivity.
Qed.

(** ** C4: who may update a task's status *)




(** ** Membership routes *)

Lemma verify_project_exists_run project_id db :
  Roles.verify_project_exists project_id db
  = (match find (fun p => String.eqb (p_id p) project_id) (projects db) with
     | None => Raise ProjectNotFound
     | Some p => Ok p
     end, db).
Proof.
  unfold Roles.verify_project_exists, select_project_by_id, bind, get_db, ret, raise.
  destruct (find _ (projects db)); reflexivity.
Qed.

Lemma validate_role_run role db :
  Roles.validate_role role db
  = (if existsb (String.eqb (lower role)) (map Role_value all_roles)
     then Ok tt else Raise InvalidRole, db).
Proof.
  unfold Roles.validate_role, require, ret, raise.
  destruct (existsb _ _); reflexivity.
Qed.

(** The guards every membership mutation of roles.py starts with. *)
Lemma add_team_member_run new_id stamp project_id member_data current_user db project :
  find (fun p => String.eqb (p_id p) project_id) (projects db) = Some project ->
  Roles.add_team_member new_id stamp project_id member_data current_user db
  = if negb (String.eqb (p_owner_id project) current_user)
    then (Raise InsufficientPermissions, db)
    else if negb (existsb (String.eqb (lower (tma_role member_data)))
                    (map Role_value all_roles))
    then (Raise InvalidRole, db)
    else if String.eqb (tma_username member_data) (p_owner_id project)
    then (Raise InvalidData, db)
    else
      match filter (member_matches project_id (tma_username member_data))
              (team_members db) with
      | existing_member :: _ =>
          update_member_row (tm_id existing_member)
            (Roles.set_role (tma_role member_data)) db
      | [] =>
          insert_member
            (mkTeamMember new_id project_id (tma_username member_data)
               (tma_role member_data) stamp) db
      end.
Proof.
  intros Hp. unfold Roles.add_team_member.
  unfold bind at 1. rewrite verify_project_exists_run, Hp.
  unfold bind at 1. rewrite is_project_owner_run, Hp.
  destruct (String.eqb (p_owner_id project) current_user); [|reflexivity].
  cbn [negb]. unfold bind at 1. cbn [require ret].
  unfold bind at 1. rewrite validate_role_run.
  destruct (existsb _ _); [|reflexivity].
  cbn [negb]. unfold bind at 1.
  destruct (String.eqb (tma_username member_data) (p_owner_id project));
    [reflexivity|].
  cbn [negb require ret].
  unfold bind at 1, select_members_with_filters, bind, get_db, ret.
  destruct (filter _ (team_members db)); reflexivity.
Qed.

Lemma update_member_role_run project_id username member_data current_user db project :
  find (fun p => String.eqb (p_id p) project_id) (projects db) = Some project ->
  Roles.update_member_role project_id username member_data current_user db
  = if negb (String.eqb (p_owner_id project) current_user)
    then (Raise InsufficientPermissions, db)
    else if negb (existsb (String.eqb (lower (tma_role member_data)))
                    (map Role_value all_roles))
    then (Raise InvalidRole, db)
    else if String.eqb username (p_owner_id project)
    then (Raise InvalidData, db)
    else
      match filter (member_matches project_id username) (team_members db) with
      | [] => (Raise TeamMemberNotFound, db)
      | member :: _ =>
          update_member_row (tm_id member)
            (Roles.set_role (tma_role member_data)) db
      end.
Proof.
  intros Hp. unfold Roles.update_member_role.
  unfold bind at 1. rewrite verify_project_exists_run, Hp.
  unfold bind at 1. rewrite is_project_owner_run, Hp.
  destruct (String.eqb (p_owner_id project) current_user); [|reflexivity].
  cbn [negb]. unfold bind at 1. cbn [require ret].
  unfold bind at 1. rewrite validate_role_run.
  destruct (existsb _ _); [|reflexivity].
  cbn [negb]. unfold bind at 1.
  destruct (String.eqb username (p_owner_id project)); [reflexivity|].
  cbn [negb require ret].
  unfold bind at 1, select_members_with_filters, bind, get_db, ret.
  destruct (filter _ (team_members db)); reflexivity.
Qed.

Lemma remove_team_member_run project_id username current_user db project :
  find (fun p => String.eqb (p_id p) project_id) (projects db) = Some project ->
  Roles.remove_team_member project_id username current_user db
  = if negb (String.eqb (p_owner_id project) current_user)
    then (Raise InsufficientPermissions, db)
    else if String.eqb username (p_owner_id project)
    then (Raise CannotRemoveOwner, db)
    else
      match filter (member_matches project_id username) (team_members db) with
      | [] => (Raise TeamMemberNotFound, db)
      | member :: _ =>
          (Ok tt,
           with_team_members
             (filter (fun m => negb (String.eqb (tm_id m) (tm_id member)))
                (team_members db)) db)
      end.
Proof.
  intros Hp. unfold Roles.remove_team_member.
  unfold bind at 1. rewrite verify_project_exists_run, Hp.
  unfold bind at 1. rewrite is_project_owner_run, Hp.
  destruct (String.eqb (p_owner_id project) current_user); [|reflexivity].
  cbn [negb]. unfold bind at 1. cbn [require ret].
  unfold bind at 1.
  destruct (String.eqb username (p_owner_id project)); [reflexivity|].
  cbn [negb require ret].
  unfold bind at 1, select_members_with_filters, bind, get_db, ret.
  destruct (filter _ (team_members db)); reflexivity.
Qed.

(** ** C8: the owner and the membership table *)

(** The routes of routes/roles.py keep the owner out of the table: in an
    existing project, the three membership mutations aimed at the
    project's owner are refused without any store write: whoever calls, the
    operation raises and the store (so the membership table) is unchanged;
    called by the owner, the one caller these routes admit, with a valid
    role, adding the owner raises InvalidData, updating the owner's role
    raises InvalidData and removing the owner raises CannotRemoveOwner. *)
Theorem owner_membership_is_immutable :
  forall db project_id project current_user role new_id stamp,
    find (fun p => String.eqb (p_id p) project_id) (projects db) = Some project ->
    let owner := p_owner_id project in
    let add :=
      Roles.add_team_member new_id stamp project_id (mkTeamMemberAdd owner role)
        current_user db in
    let update :=
      Roles.update_member_role project_id owner (mkTeamMemberAdd owner role)
        current_user db in
    let remove := Roles.remove_team_member project_id owner current_user db in
    ((exists e, add = (Raise e, db))
     /\ (exists e, update = (Raise e, db))
     /\ (exists e, remove = (Raise e, db)))
    /\ (caller_is_owner current_user project ->
        remove = (Raise CannotRemoveOwner, db)
        /\ (role_is_valid role ->
            add = (Raise InvalidData, db) /\ update = (Raise InvalidData, db))).
Proof.
  intros db project_id project current_user role new_id stamp Hp
    owner add update remove.
  unfold add, update, remove.
  rewrite (add_team_member_run _ _ _ _ _ _ project Hp).
  rewrite (update_member_role_run _ _ _ _ _ project Hp).
  rewrite (remove_team_member_run _ _ _ _ project Hp).
  cbn [tma_username tma_role]. fold owner. rewrite (String.eqb_refl owner).
  split.
  - destruct (String.eqb owner current_user); cbn [negb].
    + destruct (existsb _ _); cbn [negb]; repeat split; eexists; reflexivity.
    + repeat split; eexists; reflexivity.
  - unfold caller_is_owner, role_is_valid. fold owner. intros ->.
    rewrite String.eqb_refl. cbn [negb]. split; [reflexivity|].
    intros ->. cbn [negb]. split; reflexivity.
Qed.

Lemma owner_membership_is_immutable_witness :
  Roles.add_team_member "m9" "2024-03-01" "p1" (mkTeamMemberAdd "olivia" "manager")
    "olivia" Sample.db1 = (Raise InvalidData, Sample.db1)
  /\ Roles.update_member_role "p1" "olivia" (mkTeamMemberAdd "olivia" "manager")
       "olivia" Sample.db1 = (Raise InvalidData, Sample.db1)
  /\ Roles.remove_team_member "p1" "olivia" "olivia" Sample.db1
     = (Raise CannotRemoveOwner, Sample.db1).
Proof.
  destruct (owner_membership_is_immutable Sample.db1 "p1" (Sample.project_p1 0)
              "olivia" "manager" "m9" "2024-03-01" eq_refl) as (_ & H).
  destruct (H eq_refl) as (Hremove & Hrole).
  destruct (Hrole eq_refl) as (Hadd & Hupdate).
  split; [exact Hadd|]. split; [exact Hupdate|exact Hremove].
Defined.

(** C8: the owner is claimed never to appear in the membership table.  The
    add-member route of routes/roles.py refuses the owner's username with
    InvalidData, but the add-member route of routes/projects.py has no such
    test: called by the owner olivia with her own username it inserts a row
    for her.  After it the membership table lists the owner (her role
    still resolves to "owner"), and the member count of helpers.py, which
    adds one for an owner it takes to be absent from the table, counts her
    twice. *)
Theorem owner_row_is_inserted_by_projects_route :
  let request := mkTeamMemberAdd "olivia" "viewer" in
  let row := mkTeamMember "m9" "p1" "olivia" "viewer" "2024-03-01" in
  let db' := with_team_members (team_members Sample.db1 ++ [row]) Sample.db1 in
  p_owner_id (Sample.project_p1 0) = "olivia"
  /\ Roles.add_team_member "m9" "2024-03-01" "p1" request "olivia" Sample.db1
     = (Raise InvalidData, Sample.db1)
  /\ Projects.add_team_member "m9" "2024-03-01" "p1" request "olivia" Sample.db1
     = (Ok row, db')
  /\ map tm_username (team_members db') = ["mark"; "dev1"; "alice"; "olivia"]
  /\ fst (get_user_role_in_project "olivia" "p1" db') = Ok (Some "owner")
  /\ fst (Helpers.get_project_member_count "p1" Sample.db1) = Ok 4
  /\ fst (Helpers.get_project_member_count "p1" db') = Ok 5.
Proof.
  cbv zeta. split; [reflexivity|].
  split; [vm_compute; reflexivity|].
  split; [vm_compute; reflexivity|].
  split; [reflexivity|].
  split; [vm_compute; reflexivity|].
  split; vm_compute; reflexivity.
Qed.

(** ** C9: adding an existing member *)

Lemma update_member_row_run record_id patch db m :
  (forall x, tm_id (patch x) = tm_id x) ->
  find (fun x => String.eqb (tm_id x) record_id) (team_members db) = Some m ->
  update_member_row record_id patch db
  = (Ok (patch m),
     with_team_members (update_rows tm_id record_id patch (team_members db)) db).
Proof.
  intros Hid Hf.
  unfold update_member_row, bind, get_db, put_db, ret, raise, first_updated.
  rewrite (find_update_rows tm_id record_id patch _ m Hid Hf). reflexivity.
Qed.

Lemma filter_head_find {R : Type} (keep : R -> bool) (id_of : R -> string) rows x rest :
  filter keep rows = x :: rest ->
  exists y, find (fun r => String.eqb (id_of r) (id_of x)) rows = Some y.
Proof.
  intros H.
  assert (Hin : In x rows).
  { apply (proj1 (filter_In keep x rows)). rewrite H. left. reflexivity. }
  destruct (find (fun r => String.eqb (id_of r) (id_of x)) rows) as [y|] eqn:E.
  - exists y. reflexivity.
  - exfalso. apply (find_none _ _ E) in Hin. rewrite String.eqb_refl in Hin.
    discriminate Hin.
Qed.

Lemma map_key_update_rows rid role rows :
  map member_key (update_rows tm_id rid (Roles.set_role role) rows)
  = map member_key rows.
Proof.
  unfold update_rows. rewrite map_map. apply map_ext.
  intros m. destruct (String.eqb (tm_id m) rid); reflexivity.
Qed.

Lemma update_rows_twice rid role rows :
  update_rows tm_id rid (Roles.set_role role)
    (update_rows tm_id rid (Roles.set_role role) rows)
  = update_rows tm_id rid (Roles.set_role role) rows.
Proof.
  unfold update_rows. rewrite map_map. apply map_ext.
  intros m. destruct (String.eqb (tm_id m) rid) eqn:E.
  - cbn. rewrite E. reflexivity.
  - rewrite E. reflexivity.
Qed.

Lemma filter_matches_update_rows project_id username rid role rows :
  filter (member_matches project_id username)
    (update_rows tm_id rid (Roles.set_role role) rows)
  = update_rows tm_id rid (Roles.set_role role)
      (filter (member_matches project_id username) rows).
Proof. apply filter_update_rows. reflexivity. Qed.

(** C9: in an existing project, for a username that is not the owner's and
    already has a membership row, [add_team_member] (called by the owner
    with a valid role) writes the new role on that row and inserts nothing:
    the table keeps its length, its rows keep their place and their
    (project_id, username) keys, rows with another id are untouched, keys
    that were unique stay unique, and a second identical call changes
    nothing more.  Whoever calls and whatever the role, no row is added. *)
Theorem add_existing_member_is_upsert :
  forall db project_id project username role current_user new_id stamp existing rest,
    find (fun p => String.eqb (p_id p) project_id) (projects db) = Some project ->
    username <> p_owner_id project ->
    filter (member_matches project_id username) (team_members db)
    = existing :: rest ->
    let add :=
      Roles.add_team_member new_id stamp project_id
        (mkTeamMemberAdd username role) current_user in
    map member_key (team_members (snd (add db))) = map member_key (team_members db)
    /\ (caller_is_owner current_user project ->
        role_is_valid role ->
        let db' := snd (add db) in
        (exists row, fst (add db) = Ok row /\ tm_role row = role
                     /\ tm_id row = tm_id existing)
        /\ team_members db'
           = map (fun m => if String.eqb (tm_id m) (tm_id existing)
                           then Roles.set_role role m else m)
               (team_members db)
        /\ List.length (team_members db') = List.length (team_members db)
        /\ (NoDup (map member_key (team_members db)) ->
            NoDup (map member_key (team_members db')))
        /\ projects db' = projects db
        /\ tasks db' = tasks db
        /\ snd (add db') = db').
Proof.
  intros db project_id project username role current_user new_id stamp
    existing rest Hp Hne Hex add.
  assert (Hneb : String.eqb username (p_owner_id project) = false)
    by (apply String.eqb_neq; exact Hne).
  destruct (filter_head_find _ tm_id _ _ _ Hex) as [first Hfirst].
  assert (Hrun : forall d,
    find (fun p => String.eqb (p_id p) project_id) (projects d) = Some project ->
    forall ex rs first',
    filter (member_matches project_id username) (team_members d) = ex :: rs ->
    find (fun x => String.eqb (tm_id x) (tm_id ex)) (team_members d) = Some first' ->
    add d
    = if negb (String.eqb (p_owner_id project) current_user)
      then (Raise InsufficientPermissions, d)
      else if negb (existsb (String.eqb (lower role)) (map Role_value all_roles))
      then (Raise InvalidRole, d)
      else (Ok (Roles.set_role role first'),
            with_team_members
              (update_rows tm_id (tm_id ex) (Roles.set_role role) (team_members d))
              d)).
  { intros d Hpd ex rs first' Hexd Hfd. unfold add.
    rewrite (add_team_member_run _ _ _ _ _ _ project Hpd).
    cbn [tma_username tma_role]. rewrite Hneb, Hexd.
    rewrite (update_member_row_run _ _ _ first') by (try reflexivity; exact Hfd).
    reflexivity. }
  rewrite (Hrun db Hp existing rest first Hex Hfirst).
  split.
  - destruct (negb (String.eqb _ _)); [reflexivity|].
    destruct (negb (existsb _ _)); [reflexivity|].
    cbn. apply map_key_update_rows.
  - unfold caller_is_owner, role_is_valid. intros -> Hvalid.
    rewrite String.eqb_refl, Hvalid. cbn [negb snd fst].
    assert (Hid : tm_id first = tm_id existing).
    { apply find_some in Hfirst. destruct Hfirst as [_ H].
      apply String.eqb_eq in H. exact H. }
    repeat split.
    + exists (Roles.set_role role first). repeat split. exact Hid.
    + cbn. apply length_update_rows.
    + cbn. rewrite map_key_update_rows. trivial.
    + set (db' := with_team_members _ db).
      assert (Hex' : filter (member_matches project_id username) (team_members db')
                     = Roles.set_role role existing
                       :: update_rows tm_id (tm_id existing) (Roles.set_role role) rest).
      { unfold db'. cbn [team_members with_team_members].
        rewrite filter_matches_update_rows, Hex. cbn.
        rewrite String.eqb_refl. reflexivity. }
      assert (Hfirst' : find (fun x => String.eqb (tm_id x)
                                         (tm_id (Roles.set_role role existing)))
                          (team_members db')
                        = Some (Roles.set_role role first)).
      { unfold db'. cbn [team_members with_team_members Roles.set_role tm_id].
        apply find_update_rows; [reflexivity|exact Hfirst]. }
      rewrite (Hrun db' Hp _ _ _ Hex' Hfirst').
      rewrite String.eqb_refl, Hvalid. cbn [negb snd].
      unfold db'. unfold with_team_members. cbn [team_members projects tasks Roles.set_role tm_id].
      rewrite update_rows_twice. reflexivity.
Qed.

(** dev1 is a developer of p1; the owner adds dev1 again as a manager. *)
Lemma add_existing_member_is_upsert_witness :
  let add :=
    Roles.add_team_member "m9" "2024-03-01" "p1" (mkTeamMemberAdd "dev1" "manager")
      "olivia" in
  map tm_username (team_members (snd (add Sample.db1))) = ["mark"; "dev1"; "alice"]
  /\ map tm_role (team_members (snd (add Sample.db1)))
     = ["manager"; "manager"; "viewer"]
  /\ snd (add (snd (add Sample.db1))) = snd (add Sample.db1).
Proof.
  intros add.
  destruct (add_existing_member_is_upsert Sample.db1 "p1" (Sample.project_p1 0)
              "dev1" "manager" "olivia" "m9" "2024-03-01"
              (mkTeamMember "m2" "p1" "dev1" "developer" "2024-01-01") []
              eq_refl) as (_ & H).
  - discriminate.
  - reflexivity.
  - destruct (H eq_refl eq_refl) as (_ & Htable & _ & _ & _ & _ & Hidem).
    fold add in Htable, Hidem.
    split; [rewrite Htable; reflexivity|].
    split; [rewrite Htable; reflexivity|].
    exact Hidem.
Defined.

(** ** C6: when the stored progress is recomputed *)

Lemma bind_ok_inv {A B} (m : M A) (k : A -> M B) db r db' :
  bind m k db = (Ok r, db') ->
  exists a db1, m db = (Ok a, db1) /\ k a db1 = (Ok r, db').
Proof.
  unfold bind. destruct (m db) as [[a|e] db1]; intros H.
  - exists a, db1. split; [reflexivity|exact H].
  - discriminate H.
Qed.

Lemma require_ok_inv cond e db r db' :
  require cond e db = (Ok r, db') -> cond = true /\ db' = db.
Proof.
  unfold require, ret, raise. destruct cond; intros H.
  - injection H as _ H. split; [reflexivity|symmetry; exact H].
  - discriminate H.
Qed.

Lemma verify_project_access_ok_inv project_id username db r db' :
  Tasks.verify_project_access project_id username db = (Ok r, db') ->
  db' = db
  /\ exists p, find (fun p => String.eqb (p_id p) project_id) (projects db) = Some p.
Proof.
  rewrite verify_project_access_run.
  destruct (find _ (projects db)) as [p|]; [|discriminate].
  destruct (is_set _); [|discriminate].
  intros [= _ <-]. split; [reflexivity|exists p; reflexivity].
Qed.

Lemma get_existing_task_ok_inv project_id task_id db t db' :
  Tasks.get_existing_task project_id task_id db = (Ok t, db') ->
  db' = db
  /\ find (fun x => String.eqb (t_id x) task_id) (tasks db) = Some t
  /\ t_project_id t = project_id.
Proof.
  rewrite get_existing_task_run.
  destruct (find _ (tasks db)) as [x|]; [|discriminate].
  destruct (String.eqb (t_project_id x) project_id) eqn:E; [|discriminate].
  intros [= <- <-]. apply String.eqb_eq in E. auto.
Qed.

Lemma update_task_row_ok_inv task_id patch db t db' :
  (forall x, t_id (patch x) = t_id x) ->
  update_task_row task_id patch db = (Ok t, db') ->
  db' = with_tasks (update_rows t_id task_id patch (tasks db)) db.
Proof.
  intros _.
  unfold update_task_row, bind, get_db, put_db, ret, raise, first_updated.
  destruct (find _ _); [|discriminate]. intros [= _ <-]. reflexivity.
Qed.

Lemma Task_model_ok_inv datetime_validates row db r db' :
  Task_model datetime_validates row db = (Ok r, db') ->
  r = row /\ db' = db /\ Task_validates datetime_validates row = true.
Proof.
  unfold Task_model, ret, raise.
  destruct (Task_validates datetime_validates row); [|discriminate].
  intros [= <- <-]. auto.
Qed.

(** A successful recomputation on a project with tasks leaves the derived
    value on the project row. *)
Lemma calculate_project_progress_ok project_id db n db' p :
  find (fun p => String.eqb (p_id p) project_id) (projects db) = Some p ->
  project_tasks project_id db <> [] ->
  calculate_project_progress project_id db = (Ok n, db') ->
  stored_progress project_id db' = Some n
  /\ percent (count_if is_completed (project_tasks project_id db'))
       (len (project_tasks project_id db')) = Some n.
Proof.
  intros Hp Hne H.
  destruct (percent (count_if is_completed (project_tasks project_id db))
              (len (project_tasks project_id db))) as [m|] eqn:Hm.
  - rewrite (calculate_project_progress_run project_id db p m Hp Hne Hm) in H.
    injection H as <- <-. split.
    + unfold stored_progress. cbn [projects with_projects].
      rewrite (find_update_rows p_id project_id (set_progress m) _ p);
        [reflexivity|reflexivity|exact Hp].
    + exact Hm.
  - exfalso. revert H.
    unfold calculate_project_progress, select_tasks_where_project, bind, get_db, ret.
    fold (project_tasks project_id db).
    destruct (len (project_tasks project_id db) =? 0) eqn:E.
    + apply Z.eqb_eq in E. unfold len in E.
      destruct (project_tasks project_id db); [congruence|cbn in E; lia].
    + rewrite Hm. discriminate.
Qed.

Lemma status_change_then_recompute project_id task_id patch db t p n db1 db' :
  (forall x, t_id (patch x) = t_id x) ->
  (forall x, t_project_id (patch x) = t_project_id x) ->
  find (fun p => String.eqb (p_id p) project_id) (projects db) = Some p ->
  find (fun x => String.eqb (t_id x) task_id) (tasks db) = Some t ->
  t_project_id t = project_id ->
  db1 = with_tasks (update_rows t_id task_id patch (tasks db)) db ->
  calculate_project_progress project_id db1 = (Ok n, db') ->
  stored_progress project_id db' = Some n
  /\ percent (count_if is_completed (project_tasks project_id db'))
       (len (project_tasks project_id db')) = Some n.
Proof.
  intros Hid Hpid Hp Ht Htp -> H.
  apply (calculate_project_progress_ok project_id
           (with_tasks (update_rows t_id task_id patch (tasks db)) db) n db' p);
    [exact Hp| |exact H].
  unfold project_tasks.
  apply (find_some_filter (fun x => String.eqb (t_id x) task_id) _ _ (patch t)).
  - cbn [tasks with_tasks]. apply find_update_rows; assumption.
  - rewrite Hpid, Htp. apply String.eqb_refl.
Qed.

Lemma can_assign_task_run username project_id db :
  can_assign_task username project_id db
  = (Ok (check_permission (resolved_role username project_id db) ASSIGN_TASK), db).
Proof.
  unfold can_assign_task, bind. rewrite get_user_role_in_project_run. reflexivity.
Qed.

Lemma update_project_run project_id project_data current_user db p :
  find (fun p => String.eqb (p_id p) project_id) (projects db) = Some p ->
  caller_is_owner current_user p ->
  Projects.update_is_empty project_data = false ->
  Projects.update_project project_id project_data current_user db
  = (Ok (Projects.apply_project_update project_data p),
     with_projects
       (update_rows p_id project_id (Projects.apply_project_update project_data)
          (projects db)) db).
Proof.
  intros Hp Hown Hne. unfold caller_is_owner in Hown. subst current_user.
  unfold Projects.update_project, Projects.check_project_access.
  unfold bind at 1. unfold bind at 1. unfold select_project_by_id, bind at 1.
  unfold get_db, ret. rewrite Hp, String.eqb_refl. cbn [negb andb require ret bind].
  rewrite Hne. cbn [negb].
  unfold require, update_project_row, bind, get_db, put_db, ret, raise,
    first_updated.
  rewrite (find_update_rows p_id project_id _ _ p); [reflexivity|reflexivity|exact Hp].
Qed.

(** C6 (as stated): the stored progress is claimed to follow every task
    creation and deletion, and [calculate_project_progress] to be its only
    writer.  Creating a task, deleting a task and updating the project each
    succeed and leave a stored progress that differs from the ratio derived
    from the tasks. *)
Lemma stored_progress_departs_from_ratio :
  (let out := Tasks.create_task "t9" "2024-03-01" "p1" Sample.new_task "olivia"
                Sample.db_done in
   (exists t, fst out = Ok t)
   /\ stored_progress "p1" (snd out) = Some 100
   /\ fst (calculate_project_progress "p1" (snd out)) = Ok 50)
  /\ (let out := Tasks.delete_task "p1" "t2" "olivia" Sample.db_half in
      fst out = Ok tt
      /\ stored_progress "p1" (snd out) = Some 50
      /\ fst (calculate_project_progress "p1" (snd out)) = Ok 100)
  /\ (let out := Projects.update_project "p1"
                   (mkProjectUpdate None None None (Some 45)) "olivia"
                   Sample.db_done in
      (exists p, fst out = Ok p)
      /\ stored_progress "p1" (snd out) = Some 45
      /\ fst (calculate_project_progress "p1" (snd out)) = Ok 100).
Proof.
  split; [|split]; cbv zeta.
  - split; [eexists; vm_compute; reflexivity|]. split; vm_compute; reflexivity.
  - split; [vm_compute; reflexivity|]. split; vm_compute; reflexivity.
  - split; [eexists; vm_compute; reflexivity|]. split; vm_compute; reflexivity.
Qed.

(** C6 (amended): [calculate_project_progress] runs after every successful
    status change, that is after [update_task_status] and after an
    [update_task] whose payload carries a status, and the progress then
    stored on the project row is the value it derives from the project's
    tasks, [int((completed / total) * 100)]; an [update_task] without a
    status does not touch the project row.  It is not the only writer of
    the column: [update_project], called by the owner with a progress,
    stores that progress as given. *)
Theorem progress_recomputed_after_status_change :
  (forall datetime_validates db project_id task_id status_data current_user
          t n db',
      Tasks.update_task_status datetime_validates project_id task_id status_data
        current_user db
      = (Ok (t, n), db') ->
      stored_progress project_id db' = Some n
      /\ percent (count_if is_completed (project_tasks project_id db'))
           (len (project_tasks project_id db')) = Some n)
  /\ (forall datetime_validates db project_id task_id task_data current_user
             t o db',
         Tasks.update_task datetime_validates project_id task_id task_data
           current_user db
         = (Ok (t, o), db') ->
         match tu_status task_data with
         | Some _ =>
             exists n, o = Some n
               /\ stored_progress project_id db' = Some n
               /\ percent (count_if is_completed (project_tasks project_id db'))
                    (len (project_tasks project_id db')) = Some n
         | None => o = None /\ projects db' = projects db
         end)
  /\ (forall db project_id project current_user project_data n,
         find (fun p => String.eqb (p_id p) project_id) (projects db)
         = Some project ->
         caller_is_owner current_user project ->
         pu_progress project_data = Some n ->
         exists p db',
           Projects.update_project project_id project_data current_user db
           = (Ok p, db')
           /\ stored_progress project_id db' = Some n
           /\ tasks db' = tasks db).
Proof.
  split; [|split].
  - intros datetime_validates db project_id task_id status_data current_user
      t n db' H.
    unfold Tasks.update_task_status in H.
    apply bind_ok_inv in H. destruct H as (? & d1 & Hv & H).
    apply verify_project_access_ok_inv in Hv. destruct Hv as (-> & p & Hp).
    apply bind_ok_inv in H. destruct H as (task & d2 & Hg & H).
    apply get_existing_task_ok_inv in Hg. destruct Hg as (-> & Ht & Htp).
    apply bind_ok_inv in H. destruct H as (role & d3 & Hr & H).
    rewrite get_user_role_in_project_run in Hr. injection Hr as _ <-.
    cbv zeta in H.
    apply bind_ok_inv in H. destruct H as (? & d4 & Hq & H).
    apply require_ok_inv in Hq. destruct Hq as (_ & ->).
    apply bind_ok_inv in H. destruct H as (updated & d5 & Hu & H).
    apply update_task_row_ok_inv in Hu; [|reflexivity].
    apply bind_ok_inv in H. destruct H as (m & d6 & Hc & H).
    apply bind_ok_inv in H. destruct H as (response & d7 & Hmodel & H).
    apply Task_model_ok_inv in Hmodel. destruct Hmodel as (_ & -> & _).
    unfold ret in H. injection H as _ <- <-.
    apply (status_change_then_recompute project_id task_id
             (Tasks.set_status (TaskStatus_value status_data)) db task p m d5 d6);
      try assumption; reflexivity.
  - intros datetime_validates db project_id task_id task_data current_user
      t o db' H.
    unfold Tasks.update_task in H.
    apply bind_ok_inv in H. destruct H as (? & d1 & Hv & H).
    apply verify_project_access_ok_inv in Hv. destruct Hv as (-> & p & Hp).
    apply bind_ok_inv in H. destruct H as (task & d2 & Hg & H).
    apply get_existing_task_ok_inv in Hg. destruct Hg as (-> & Ht & Htp).
    cbv zeta in H.
    apply bind_ok_inv in H. destruct H as (can & d3 & Hc & H).
    rewrite can_edit_task_run in Hc. injection Hc as _ <-.
    apply bind_ok_inv in H. destruct H as (? & d4 & Hq & H).
    apply require_ok_inv in Hq. destruct Hq as (_ & ->).
    apply bind_ok_inv in H. destruct H as (? & d5 & Hq & H).
    apply require_ok_inv in Hq. destruct Hq as (_ & ->).
    apply bind_ok_inv in H. destruct H as (? & d6 & Hblock & H).
    assert (Hd6 : d6 = db).
    { clear H. destruct (tu_assigned_to task_data) as [new_assignee|].
      - destruct (negb (opt_opt_eqb new_assignee (t_assigned_to task))).
        + apply bind_ok_inv in Hblock. destruct Hblock as (c & e1 & Ha & Hblock).
          rewrite can_assign_task_run in Ha. injection Ha as _ <-.
          apply bind_ok_inv in Hblock. destruct Hblock as (? & e2 & Hq & Hblock).
          apply require_ok_inv in Hq. destruct Hq as (_ & ->).
          destruct (truthy_opt new_assignee).
          * apply bind_ok_inv in Hblock. destruct Hblock as (mem & e3 & Hm & Hblock).
            rewrite is_project_member_run in Hm. injection Hm as _ <-.
            apply require_ok_inv in Hblock. apply Hblock.
          * unfold ret in Hblock. injection Hblock as _ <-. reflexivity.
        + unfold ret in Hblock. injection Hblock as _ <-. reflexivity.
      - unfold ret in Hblock. injection Hblock as _ <-. reflexivity. }
    subst d6.
    apply bind_ok_inv in H. destruct H as (updated & d7 & Hu & H).
    apply update_task_row_ok_inv in Hu; [|reflexivity].
    destruct (tu_status task_data) as [s|]; cbn [is_set] in H.
    + apply bind_ok_inv in H. destruct H as (m & d8 & Hcalc & H).
      apply bind_ok_inv in H. destruct H as (response & d9 & Hmodel & H).
      apply Task_model_ok_inv in Hmodel. destruct Hmodel as (_ & -> & _).
      unfold ret in H. injection H as _ <- <-.
      exists m. split; [reflexivity|].
      apply (status_change_then_recompute project_id task_id
               (Tasks.apply_task_update task_data) db task p m d7 d8);
        try assumption; reflexivity.
    + apply bind_ok_inv in H. destruct H as (response & d8 & Hmodel & H).
      apply Task_model_ok_inv in Hmodel. destruct Hmodel as (_ & -> & _).
      unfold ret in H. injection H as _ <- <-.
      split; [reflexivity|]. rewrite Hu. reflexivity.
  - intros db project_id project current_user project_data n Hp Hown Hn.
    eexists. eexists.
    rewrite (update_project_run project_id project_data current_user db project Hp Hown).
    + split; [reflexivity|]. split; [|reflexivity].
      unfold stored_progress. cbn [projects with_projects].
      rewrite (find_update_rows p_id project_id _ _ project);
        [|reflexivity|exact Hp].
      cbn. rewrite Hn. reflexivity.
    + unfold Projects.update_is_empty. rewrite Hn. cbn.
      rewrite !orb_true_r. reflexivity.
Qed.

Lemma progress_recomputed_after_status_change_witness :
  (let out := Tasks.update_task_status Sample.datetime_validates "p1" "t2"
                COMPLETED "olivia" Sample.db_half in
   stored_progress "p1" (snd out) = Some 100)
  /\ (exists p db',
         Projects.update_project "p1" (mkProjectUpdate None None None (Some 45))
           "olivia" Sample.db_done = (Ok p, db')
         /\ stored_progress "p1" db' = Some 45
         /\ tasks db' = tasks Sample.db_done).
Proof.
  destruct progress_recomputed_after_status_change as (Hstatus & _ & Hproject).
  split.
  - cbv zeta.
    apply (Hstatus Sample.datetime_validates Sample.db_half "p1" "t2" COMPLETED
             "olivia"
             (Tasks.set_status "completed"
                (Sample.task "t2" None "todo" (Some "2024-01-01"))) 100).
    vm_compute. reflexivity.
  - apply (Hproject Sample.db_done "p1" (Sample.project_p1 100) "olivia"
             (mkProjectUpdate None None None (Some 45)) 45); reflexivity.
Defined.

(** ** C5: the progress percentage *)

(** C5: with 29 of 50 tasks completed the percentage is exactly 58, and
    [calculate_project_progress] returns and stores 57: the quotient 29/50 is
    rounded to a double before it is multiplied by 100, and the product
    57.99999999999999 is truncated. *)
Theorem progress_of_29_in_50_is_57 :
  len (project_tasks "p1" Sample.db_29_of_50) = 50
  /\ count_if is_completed (project_tasks "p1" Sample.db_29_of_50) = 29
  /\ 100 * 29 / 50 = 58
  /\ fst (calculate_project_progress "p1" Sample.db_29_of_50) = Ok 57
  /\ stored_progress "p1" (snd (calculate_project_progress "p1" Sample.db_29_of_50))
     = Some 57.
Proof.
  split; [vm_compute; reflexivity|].
  split; [vm_compute; reflexivity|].
  split; [vm_compute; reflexivity|].
  split; vm_compute; reflexivity.
Qed.

(** The same expression on other ratios. *)
Example percent_deviations :
  percent 29 100 = Some 28 /\ percent 57 100 = Some 56
  /\ percent 58 100 = Some 57 /\ percent 2 4 = Some 50
  /\ percent 1 3 = Some 33.
Proof.
  split; [vm_compute; reflexivity|].
  split; [vm_compute; reflexivity|].
  split; [vm_compute; reflexivity|].
  split; vm_compute; reflexivity.
Qed.

Lemma forallb_seq_Z (f : nat -> bool) a n (P : Z -> Prop) :
  forallb f (seq a n) = true ->
  (forall k, f k = true -> P (Z.of_nat k)) ->
  forall z, Z.of_nat a <= z < Z.of_nat a + Z.of_nat n -> P z.
Proof.
  intros Hall HP z Hz.
  rewrite forallb_forall in Hall.
  replace z with (Z.of_nat (Z.to_nat z)) by lia.
  apply HP, Hall, in_seq. lia.
Qed.

Lemma percent_check_upto_sound bound :
  percent_check_upto bound = true ->
  forall c t, 0 < t <= Z.of_nat bound -> 0 <= c <= t -> percent_check c t = true.
Proof.
  unfold percent_check_upto. intros Hall c t Ht. revert c.
  apply (forallb_seq_Z _ 1 bound
           (fun t => forall c, 0 <= c <= t -> percent_check c t = true) Hall);
    [|lia].
  intros k Hk c Hc.
  apply (forallb_seq_Z _ 0 (S k) (fun c => percent_check c (Z.of_nat k) = true) Hk);
    [auto|lia].
Qed.

Lemma percent_check_upto_100 : percent_check_upto 100 = true.
Proof. vm_compute. reflexivity. Qed.

(** The other parts of the progress contract hold on every task set of up
    to 100 tasks: a value is returned, it lies in [0, 100], it is 0 when no
    task is completed and 100 when all are, and it is the floor of the exact
    percentage or one below it. *)
Lemma percent_upto_100 c t :
  0 < t <= 100 -> 0 <= c <= t ->
  exists n, percent c t = Some n
    /\ 0 <= n <= 100
    /\ (c = t -> n = 100)
    /\ (c = 0 -> n = 0)
    /\ (n = 100 * c / t \/ n = 100 * c / t - 1).
Proof.
  intros Ht Hc.
  assert (Hcheck : percent_check c t = true).
  { apply (percent_check_upto_sound 100%nat percent_check_upto_100); lia. }
  unfold percent_check in Hcheck.
  destruct (percent c t) as [n|]; [|discriminate].
  exists n. split; [reflexivity|].
  apply andb_prop in Hcheck. destruct Hcheck as [Hcheck Hfloor].
  apply andb_prop in Hcheck. destruct Hcheck as [Hcheck Hzero].
  apply andb_prop in Hcheck. destruct Hcheck as [Hcheck Hfull].
  apply andb_prop in Hcheck. destruct Hcheck as [Hlo Hhi].
  apply Z.leb_le in Hlo, Hhi.
  split; [split; assumption|]. split; [|split].
  - intros ->. rewrite Z.eqb_refl in Hfull. apply Z.eqb_eq, Hfull.
  - intros ->. rewrite Z.eqb_refl in Hzero. apply Z.eqb_eq, Hzero.
  - apply orb_prop in Hfloor. destruct Hfloor as [H|H]; apply Z.eqb_eq in H; auto.
Qed.

Lemma update_rows_set_progress_twice project_id n rows :
  update_rows p_id project_id (set_progress n)
    (update_rows p_id project_id (set_progress n) rows)
  = update_rows p_id project_id (set_progress n) rows.
Proof.
  unfold update_rows. rewrite map_map. apply map_ext.
  intros p. destruct (String.eqb (p_id p) project_id) eqn:E.
  - cbn. rewrite E. reflexivity.
  - rewrite E. reflexivity.
Qed.

Lemma calculate_project_progress_unfold project_id db :
  calculate_project_progress project_id db
  = if len (project_tasks project_id db) =? 0 then (Ok 0, db)
    else
      match percent (count_if is_completed (project_tasks project_id db))
              (len (project_tasks project_id db)) with
      | None => (Raise ValueError, db)
      | Some n =>
          let rows := update_rows p_id project_id (set_progress n) (projects db) in
          (match find (fun p => String.eqb (p_id p) project_id) rows with
           | Some _ => Ok n
           | None => Raise DatabaseException
           end, with_projects rows db)
      end.
Proof.
  unfold calculate_project_progress, select_tasks_where_project, bind, get_db, ret.
  fold (project_tasks project_id db).
  destruct (len (project_tasks project_id db) =? 0); [reflexivity|].
  destruct (percent _ _) as [n|]; [|reflexivity].
  unfold update_project_row, bind, get_db, put_db, ret, raise, first_updated.
  cbv zeta. destruct (find _ _); reflexivity.
Qed.

(** Recomputing without any task change gives the same value and the same
    store; a project without tasks has progress 0. *)
Lemma calculate_project_progress_idempotent project_id db :
  let out := calculate_project_progress project_id db in
  calculate_project_progress project_id (snd out) = out.
Proof.
  cbv zeta. rewrite (calculate_project_progress_unfold project_id db).
  destruct (len (project_tasks project_id db) =? 0) eqn:E.
  - cbn [snd]. rewrite calculate_project_progress_unfold, E. reflexivity.
  - destruct (percent _ _) as [n|] eqn:Hn.
    + cbv zeta. cbn [snd]. rewrite calculate_project_progress_unfold.
      change (project_tasks project_id (with_projects _ db))
        with (project_tasks project_id db).
      rewrite E, Hn. cbv zeta. cbn [projects with_projects].
      rewrite update_rows_set_progress_twice. reflexivity.
    + cbn [snd]. rewrite calculate_project_progress_unfold, E, Hn. reflexivity.
Qed.

(** ** The timeline *)

Section Timeline.

Variable fromisoformat : string -> option datetime.

Lemma completed_on_or_before_ok current_date t :
  bad_stamp fromisoformat t = false ->
  completed_on_or_before fromisoformat current_date t
  = Ok (completed_on fromisoformat (dt_date current_date) t).
Proof.
  unfold bad_stamp, parses, completed_on_or_before, completed_on.
  destruct (is_completed t); [|reflexivity].
  destruct (t_updated_at t) as [s|]; [|reflexivity].
  cbn [truthy_opt andb]. destruct (truthy s); [|reflexivity].
  cbn [andb]. destruct (fromisoformat (replace_Z s)); [reflexivity|discriminate].
Qed.

Lemma completed_on_or_before_bad current_date t :
  bad_stamp fromisoformat t = true ->
  completed_on_or_before fromisoformat current_date t = Raise ValueError.
Proof.
  unfold bad_stamp, parses, completed_on_or_before.
  destruct (is_completed t); [|discriminate].
  destruct (t_updated_at t) as [s|]; [|discriminate].
  cbn [truthy_opt andb]. destruct (truthy s); [|discriminate].
  cbn [andb]. destruct (fromisoformat (replace_Z s)); [discriminate|reflexivity].
Qed.

Lemma completed_on_or_before_cases current_date t :
  completed_on_or_before fromisoformat current_date t = Raise ValueError
  \/ exists b, completed_on_or_before fromisoformat current_date t = Ok b.
Proof.
  destruct (bad_stamp fromisoformat t) eqn:E.
  - left. apply completed_on_or_before_bad, E.
  - right. eexists. apply completed_on_or_before_ok, E.
Qed.

Lemma completed_by_date_ok current_date tasks :
  (forall t, In t tasks -> bad_stamp fromisoformat t = false) ->
  completed_by_date fromisoformat current_date tasks
  = Ok (count_if (completed_on fromisoformat (dt_date current_date)) tasks).
Proof.
  induction tasks as [|t tasks IH]; intros Hall; [reflexivity|].
  cbn [completed_by_date].
  rewrite completed_on_or_before_ok by (apply Hall; left; reflexivity).
  rewrite IH by (intros x Hx; apply Hall; right; exact Hx).
  unfold count_if. cbn [filter].
  destruct (completed_on fromisoformat (dt_date current_date) t);
    cbn [List.length]; f_equal; lia.
Qed.

Lemma completed_by_date_bad current_date tasks t :
  In t tasks -> bad_stamp fromisoformat t = true ->
  completed_by_date fromisoformat current_date tasks = Raise ValueError.
Proof.
  induction tasks as [|x tasks IH]; intros Hin Hbad; [destruct Hin|].
  cbn [completed_by_date].
  destruct (completed_on_or_before_cases current_date x) as [-> | [b Hb]];
    [reflexivity|].
  rewrite Hb. destruct Hin as [-> | Hin].
  - rewrite completed_on_or_before_bad in Hb by exact Hbad. discriminate Hb.
  - rewrite (IH Hin Hbad). reflexivity.
Qed.

Lemma timeline_loop_done fuel tasks current_date end_date :
  dt_time current_date = dt_time end_date ->
  dt_date end_date < dt_date current_date ->
  timeline_loop fromisoformat (S fuel) tasks current_date end_date = Some (Ok []).
Proof.
  intros Htime Hdate. cbn [timeline_loop]. unfold datetime_leb.
  replace (dt_date current_date <? dt_date end_date) with false
    by (symmetry; apply Z.ltb_ge; lia).
  replace (dt_date current_date =? dt_date end_date) with false
    by (symmetry; apply Z.eqb_neq; lia).
  reflexivity.
Qed.

Lemma datetime_leb_same_time a b :
  dt_time a = dt_time b -> dt_date a <= dt_date b -> datetime_leb a b = true.
Proof.
  intros Htime Hdate. unfold datetime_leb. rewrite Htime.
  destruct (dt_date a <? dt_date b) eqn:E; [reflexivity|].
  apply Z.ltb_ge in E.
  replace (dt_date a =? dt_date b) with true by (symmetry; apply Z.eqb_eq; lia).
  cbn. apply Z.leb_refl.
Qed.

Lemma add_days_in_range d n :
  MINORDINAL <= dt_date d + n <= MAXORDINAL ->
  add_days d n = Some (mkDatetime (dt_date d + n) (dt_time d) (dt_offset d)).
Proof.
  intros [Hlo Hhi]. unfold add_days. cbv zeta.
  apply Z.leb_le in Hlo, Hhi. rewrite Hlo, Hhi. reflexivity.
Qed.

Lemma add_days_out_of_range d n :
  dt_date d + n < MINORDINAL \/ MAXORDINAL < dt_date d + n ->
  add_days d n = None.
Proof.
  intros H. unfold add_days. cbv zeta.
  destruct (MINORDINAL <=? dt_date d + n) eqn:Elo; [|reflexivity].
  destruct (dt_date d + n <=? MAXORDINAL) eqn:Ehi; [|reflexivity].
  apply Z.leb_le in Elo, Ehi. lia.
Qed.

Lemma timedelta_days_in_range n :
  Z.abs n <= MAX_DELTA_DAYS -> timedelta_days n = Some n.
Proof.
  intros H. unfold timedelta_days. apply Z.leb_le in H. rewrite H. reflexivity.
Qed.

(** The loop emits one bucket per day from [current_date] to [end_date],
    in order, when no timestamp is malformed and the day after [end_date]
    is still a date; [n] is the number of days left and any fuel above [n]
    is enough. *)
Lemma timeline_loop_series tasks end_date :
  (forall t, In t tasks -> bad_stamp fromisoformat t = false) ->
  len tasks < 2 ^ 53 ->
  dt_date end_date < MAXORDINAL ->
  forall n fuel current_date,
    MINORDINAL <= dt_date current_date ->
    dt_time current_date = dt_time end_date ->
    dt_date end_date - dt_date current_date + 1 = Z.of_nat n ->
    (n < fuel)%nat ->
    timeline_loop fromisoformat fuel tasks current_date end_date
    = Some (Ok (map (fun i => bucket fromisoformat tasks
                                (dt_date current_date + Z.of_nat i))
                  (seq 0 n))).
Proof.
  intros Hall Hsize Hend.
  induction n as [|n IH]; intros fuel current_date Hmin Htime Hn Hfuel.
  - destruct fuel as [|fuel]; [lia|].
    apply timeline_loop_done; [exact Htime|lia].
  - destruct fuel as [|fuel]; [lia|].
    cbn [timeline_loop].
    rewrite datetime_leb_same_time by (try exact Htime; lia).
    rewrite completed_by_date_ok by exact Hall.
    set (completed := count_if (completed_on fromisoformat (dt_date current_date)) tasks).
    assert (Hpct : (if 0 <? len tasks then percent completed (len tasks) else Some 0)
                   = Some (percent_or_zero completed (len tasks))).
    { unfold percent_or_zero. destruct (0 <? len tasks) eqn:E; [|reflexivity].
      apply Z.ltb_lt in E.
      destruct (percent_total completed (len tasks)) as [p ->];
        [apply count_if_le_len|lia|reflexivity]. }
    rewrite Hpct.
    rewrite add_days_in_range by (unfold MINORDINAL in *; lia).
    rewrite (IH fuel); [|cbn; lia|exact Htime|cbn; lia|lia].
    cbn [seq map]. rewrite Z.add_0_r.
    f_equal. f_equal. f_equal.
    rewrite <- seq_shift, map_map. apply map_ext.
    intros i. cbn [dt_date]. f_equal. lia.
Qed.

(** The series [get_project_timeline] returns when every completed task
    carries a well-formed timestamp and the look-back stays inside the
    calendar: one bucket for each of the [days + 1] calendar days from
    [now - days] to [now], each with the tasks completed up to that day,
    the current number of tasks, and the progress expression applied to
    the two. *)
Lemma get_project_timeline_series fuel now project_id days db :
  0 <= days < dt_date now ->
  dt_date now < MAXORDINAL ->
  (Z.to_nat (days + 1) < fuel)%nat ->
  (forall t, In t (project_tasks project_id db) ->
             bad_stamp fromisoformat t = false) ->
  len (project_tasks project_id db) < 2 ^ 53 ->
  get_project_timeline fromisoformat fuel now project_id days db
  = Some (Ok (map (fun i => bucket fromisoformat (project_tasks project_id db)
                              (dt_date now - days + Z.of_nat i))
                (seq 0 (Z.to_nat (days + 1))))).
Proof.
  intros Hdays Hnow Hfuel Hall Hsize. unfold get_project_timeline.
  fold (project_tasks project_id db). cbv zeta.
  rewrite timedelta_days_in_range
    by (unfold MAX_DELTA_DAYS, MAXORDINAL in *; lia).
  rewrite add_days_in_range by (unfold MINORDINAL in *; lia).
  rewrite (timeline_loop_series _ now Hall Hsize Hnow (Z.to_nat (days + 1)));
    [|cbn; unfold MINORDINAL; lia|reflexivity|cbn; lia|exact Hfuel].
  cbn [dt_date]. reflexivity.
Qed.

(** A negative [days] whose start date is still a date gives an empty
    series. *)
Lemma get_project_timeline_negative fuel now project_id days db :
  days < 0 ->
  MINORDINAL <= dt_date now ->
  dt_date now - days <= MAXORDINAL ->
  get_project_timeline fromisoformat (S fuel) now project_id days db
  = Some (Ok []).
Proof.
  intros Hdays Hmin Hmax. unfold get_project_timeline. cbv zeta.
  rewrite timedelta_days_in_range
    by (unfold MAX_DELTA_DAYS, MAXORDINAL, MINORDINAL in *; lia).
  rewrite add_days_in_range by (unfold MINORDINAL in *; lia).
  apply timeline_loop_done; [reflexivity|cbn; lia].
Qed.

(** A look-back that leaves the calendar raises before the loop. *)
Lemma get_project_timeline_overflow fuel now project_id days db :
  dt_date now - days < MINORDINAL \/ MAXORDINAL < dt_date now - days ->
  get_project_timeline fromisoformat fuel now project_id days db
  = Some (Raise OverflowError).
Proof.
  intros Hout. unfold get_project_timeline. cbv zeta.
  unfold timedelta_days. destruct (Z.abs days <=? MAX_DELTA_DAYS); [|reflexivity].
  rewrite add_days_out_of_range by lia. reflexivity.
Qed.

(** A malformed timestamp on a completed task makes the first bucket
    raise. *)
Lemma get_project_timeline_bad_stamp fuel now project_id days db t :
  0 <= days < dt_date now ->
  dt_date now <= MAXORDINAL ->
  In t (project_tasks project_id db) ->
  bad_stamp fromisoformat t = true ->
  get_project_timeline fromisoformat (S fuel) now project_id days db
  = Some (Raise ValueError).
Proof.
  intros Hdays Hnow Hin Hbad. unfold get_project_timeline.
  fold (project_tasks project_id db). cbv zeta.
  rewrite timedelta_days_in_range
    by (unfold MAX_DELTA_DAYS, MAXORDINAL in *; lia).
  rewrite add_days_in_range by (unfold MINORDINAL in *; lia).
  cbn [timeline_loop].
  rewrite datetime_leb_same_time by (cbn; try reflexivity; lia).
  rewrite (completed_by_date_bad _ _ t Hin Hbad). reflexivity.
Qed.

(** ** Productivity never raises *)

Variable round : spec_float -> Z -> spec_float.

(** A task whose [updated_at] does not parse adds nothing to the sums of
    the average. *)
Lemma completion_days_unparseable t stamp :
  t_updated_at t = Some stamp ->
  fromisoformat (replace_Z stamp) = None ->
  completion_days fromisoformat t = None.
Proof.
  intros Hstamp Hparse. unfold completion_days. rewrite Hstamp, Hparse.
  destruct (truthy_opt (t_created_at t) && truthy_opt (Some stamp))%bool;
    [|reflexivity].
  destruct (t_created_at t) as [c|]; [|reflexivity].
  destruct (fromisoformat (replace_Z c)); reflexivity.
Qed.

Lemma for_each_member_shape now_iso project_id members db :
  exists series,
    for_each_member fromisoformat round now_iso project_id members db
    = (Ok series, db)
    /\ map pr_username series = members
    /\ Forall (fun p =>
                 pr_tasks_assigned p
                 = len (filter (fun t => (String.eqb (t_project_id t) project_id
                                          && opt_eqb (t_assigned_to t) (pr_username p))%bool)
                          (tasks db))
                 /\ pr_tasks_completed p
                    = count_if is_completed
                        (filter (fun t => (String.eqb (t_project_id t) project_id
                                           && opt_eqb (t_assigned_to t) (pr_username p))%bool)
                           (tasks db))
                 /\ pr_last_active p = now_iso) series.
Proof.
  induction members as [|m members (series & IH & Hnames & Hall)].
  - exists []. repeat split. constructor.
  - eexists. cbn [for_each_member]. unfold bind at 1.
    unfold member_productivity at 1, select_tasks_with_filters, bind, get_db, ret.
    cbv zeta. fold (bind (A := list Productivity) (B := list Productivity)).
    unfold bind. rewrite IH. split; [reflexivity|].
    split; [cbn; rewrite Hnames; reflexivity|].
    constructor; [|exact Hall].
    cbn [pr_tasks_assigned pr_tasks_completed pr_last_active pr_username].
    repeat split.
Qed.

(** [get_team_productivity] returns one row per name, owner first, for any
    parser: the parse failures of its loop are caught. *)
Lemma get_team_productivity_shape now_iso project_id db :
  exists series,
    get_team_productivity fromisoformat round now_iso project_id db
    = (Ok series, db)
    /\ map pr_username series
       = ((match find (fun p => String.eqb (p_id p) project_id) (projects db) with
           | Some p => if truthy (p_owner_id p) then [p_owner_id p] else []
           | None => []
           end)
          ++ map tm_username
               (filter (fun m => String.eqb (tm_project_id m) project_id)
                  (team_members db)))%list
    /\ Forall (fun p =>
                 pr_tasks_assigned p
                 = len (filter (fun t => (String.eqb (t_project_id t) project_id
                                          && opt_eqb (t_assigned_to t) (pr_username p))%bool)
                          (tasks db))
                 /\ pr_tasks_completed p
                    = count_if is_completed
                        (filter (fun t => (String.eqb (t_project_id t) project_id
                                           && opt_eqb (t_assigned_to t) (pr_username p))%bool)
                           (tasks db))
                 /\ pr_last_active p = now_iso) series.
Proof.
  unfold get_team_productivity, select_members_where_project,
    select_project_by_id, bind, get_db, ret.
  destruct (for_each_member_shape now_iso project_id
              ((match
                   match find (fun p => String.eqb (p_id p) project_id) (projects db) with
                   | Some p => Some (p_owner_id p)
                   | None => None
                   end
                 with
                 | Some o => if truthy o then [o] else []
                 | None => []
                 end)
               ++ map tm_username
                    (filter (fun m => String.eqb (tm_project_id m) project_id)
                       (team_members db)))%list db)
    as (series & Hrun & Hnames & Hall).
  exists series. split; [exact Hrun|]. split; [|exact Hall].
  rewrite Hnames. destruct (find _ (projects db)); reflexivity.
Qed.

End Timeline.

(** ** C7: the timeline's progress value *)

(** C7: with 29 of 50 tasks completed before today, the bucket for today
    (days = 0) counts 29 completed tasks out of the current total of 50 and
    should carry progress floor(100 * 29 / 50) = 58; the timeline computes
    57, by the same float expression as [calculate_project_progress]. *)
Theorem timeline_of_29_in_50_is_57 :
  100 * 29 / 50 = 58
  /\ get_project_timeline Sample.fromisoformat 2 Sample.now "p1" 0
       Sample.db_29_of_50
     = Some (Ok [mkTimelineEntry (dt_date Sample.now) 29 50 57]).
Proof. split; vm_compute; reflexivity. Qed.

(** ** C10: the timeline has no parse guard *)

(** C10: for a look-back that stays inside the calendar (0 <= days, and
    [now - days] is still a date), a completed task whose [updated_at] is a
    non-empty string that [fromisoformat] rejects makes
    [get_project_timeline] raise ValueError instead of returning a series,
    while [get_team_productivity] on the same store returns its list: one
    row per name, the owner first and then the membership rows, each with
    its counts of assigned and completed tasks, the task in question
    counted as completed for its assignee and left out of the average's
    sums only.  When every completed task's non-empty [updated_at] parses
    (and today is not the last day of the calendar), the timeline returns
    its series of days + 1 buckets. *)
Theorem timeline_needs_parseable_stamps :
  forall (fromisoformat : string -> option datetime)
         (round : spec_float -> Z -> spec_float)
         db project_id now now_iso days fuel,
    MINORDINAL <= dt_date now <= MAXORDINAL ->
    0 <= days < dt_date now ->
    (Z.to_nat (days + 1) < fuel)%nat ->
    len (project_tasks project_id db) < 2 ^ 53 ->
    (forall t stamp,
        In t (tasks db) ->
        t_project_id t = project_id ->
        is_completed t = true ->
        t_updated_at t = Some stamp ->
        truthy stamp = true ->
        fromisoformat (replace_Z stamp) = None ->
        get_project_timeline fromisoformat fuel now project_id days db
        = Some (Raise ValueError)
        /\ completion_days fromisoformat t = None
        /\ exists series,
             get_team_productivity fromisoformat round now_iso project_id db
             = (Ok series, db)
             /\ map pr_username series
                = ((match find (fun p => String.eqb (p_id p) project_id)
                              (projects db) with
                    | Some p => if truthy (p_owner_id p) then [p_owner_id p] else []
                    | None => []
                    end)
                   ++ map tm_username
                        (filter (fun m => String.eqb (tm_project_id m) project_id)
                           (team_members db)))%list
             /\ (forall p, In p series ->
                   pr_tasks_assigned p
                   = len (filter (fun x => (String.eqb (t_project_id x) project_id
                                            && opt_eqb (t_assigned_to x) (pr_username p))%bool)
                            (tasks db))
                   /\ pr_tasks_completed p
                      = count_if is_completed
                          (filter (fun x => (String.eqb (t_project_id x) project_id
                                             && opt_eqb (t_assigned_to x) (pr_username p))%bool)
                             (tasks db)))
             /\ (forall p, In p series ->
                   t_assigned_to t = Some (pr_username p) ->
                   1 <= pr_tasks_completed p))
    /\ ((forall t, In t (project_tasks project_id db) ->
                   bad_stamp fromisoformat t = false) ->
        dt_date now < MAXORDINAL ->
        get_project_timeline fromisoformat fuel now project_id days db
        = Some (Ok (map (fun i => bucket fromisoformat
                                    (project_tasks project_id db)
                                    (dt_date now - days + Z.of_nat i))
                      (seq 0 (Z.to_nat (days + 1)))))).
Proof.
  intros fromisoformat round db project_id now now_iso days fuel Hnow Hdays
    Hfuel Hsize.
  split.
  - intros t stamp Hin Hpid Hdone Hstamp Htruthy Hparse. split; [|split].
    + destruct fuel as [|fuel]; [lia|].
      apply (get_project_timeline_bad_stamp fromisoformat fuel now project_id days db t
               Hdays (proj2 Hnow)).
      * unfold project_tasks. apply filter_In. split; [exact Hin|].
        rewrite Hpid. apply String.eqb_refl.
      * unfold bad_stamp, parses. rewrite Hdone, Hstamp, Hparse. cbn.
        rewrite Htruthy. reflexivity.
    + apply (completion_days_unparseable fromisoformat t stamp Hstamp Hparse).
    + destruct (get_team_productivity_shape fromisoformat round now_iso project_id db)
        as (series & Hrun & Hnames & Hall).
      exists series. split; [exact Hrun|]. split; [exact Hnames|].
      rewrite Forall_forall in Hall. split.
      * intros p Hp. destruct (Hall p Hp) as (Ha & Hc & _). split; assumption.
      * intros p Hp Hassignee. destruct (Hall p Hp) as (_ & -> & _).
        unfold count_if.
        assert (Hmem : In t (filter is_completed
                               (filter (fun x => (String.eqb (t_project_id x) project_id
                                                  && opt_eqb (t_assigned_to x) (pr_username p))%bool)
                                  (tasks db)))).
        { apply filter_In. split; [|exact Hdone].
          apply filter_In. split; [exact Hin|].
          rewrite Hpid, String.eqb_refl, Hassignee. cbn.
          apply String.eqb_refl. }
        destruct (filter is_completed _); [destruct Hmem|cbn [List.length]; lia].
  - intros Hall Hlast.
    apply get_project_timeline_series; assumption.
Qed.

Lemma timeline_needs_parseable_stamps_witness :
  get_project_timeline Sample.fromisoformat 32 Sample.now "p1" 30 Sample.db_bad_stamp
  = Some (Raise ValueError)
  /\ (exists series,
         get_team_productivity Sample.fromisoformat Sample.round "2024-03-01T09:30:00"
           "p1" Sample.db_bad_stamp = (Ok series, Sample.db_bad_stamp)
         /\ map pr_username series = ["olivia"; "mark"; "dev1"; "alice"]
         /\ map pr_tasks_completed series = [0; 0; 1; 0])
  /\ (exists series,
         get_project_timeline Sample.fromisoformat 32 Sample.now "p1" 30 Sample.db_done
         = Some (Ok series)
         /\ len series = 31).
Proof.
  assert (Hnow : MINORDINAL <= dt_date Sample.now <= MAXORDINAL)
    by (vm_compute; split; discriminate).
  assert (Hdays : 0 <= 30 < dt_date Sample.now)
    by (vm_compute; split; [discriminate|reflexivity]).
  assert (Hfuel : (Z.to_nat (30 + 1) < 32)%nat) by (cbn; lia).
  destruct (timeline_needs_parseable_stamps Sample.fromisoformat Sample.round
              Sample.db_bad_stamp "p1" Sample.now "2024-03-01T09:30:00" 30 32%nat
              Hnow Hdays Hfuel) as (Hbad & _); [reflexivity|].
  destruct (timeline_needs_parseable_stamps Sample.fromisoformat Sample.round
              Sample.db_done "p1" Sample.now "2024-03-01T09:30:00" 30 32%nat
              Hnow Hdays Hfuel) as (_ & Hgood); [reflexivity|].
  destruct (Hbad (Sample.task "t1" (Some "dev1") "completed" (Some "yesterday"))
              "yesterday") as (Hraise & _ & series & Hprod & Hnames & _);
    try reflexivity; [left; reflexivity|].
  split; [exact Hraise|]. split.
  - exists series. split; [exact Hprod|]. split; [exact Hnames|].
    assert (Hval : fst (get_team_productivity Sample.fromisoformat Sample.round
                          "2024-03-01T09:30:00" "p1" Sample.db_bad_stamp)
                   = Ok series) by (rewrite Hprod; reflexivity).
    vm_compute in Hval. injection Hval as <-. reflexivity.
  - eexists. split.
    + apply Hgood; [|vm_compute; reflexivity].
      intros t [<- | []]. reflexivity.
    + vm_compute. reflexivity.
Defined.

(** * Further properties of the modelled code *)

(** ** permissions.py *)

Lemma can_delete_task_run username project_id task_owner db :
  can_delete_task username project_id task_owner db
  = (Ok (let role := resolved_role username project_id db in
         if negb (truthy_opt role) then false
         else (opt_eqb role "owner" || opt_eqb role "manager")%bool), db).
Proof.
  unfold can_delete_task, bind. rewrite get_user_role_in_project_run. cbv zeta.
  destruct (negb _); reflexivity.
Qed.

Lemma can_manage_team_run username project_id db :
  can_manage_team username project_id db
  = (Ok (check_permission (resolved_role username project_id db) MANAGE_TEAM), db).
Proof.
  unfold can_manage_team, bind. rewrite get_user_role_in_project_run. reflexivity.
Qed.

(** X1: the owner of an existing project resolves to the owner role
    whatever the membership table holds (even a row that lists the owner
    with another role), and so is a member and may edit and delete any
    task. *)
Theorem owner_role_takes_precedence :
  forall db project_id project task_owner,
    find (fun p => String.eqb (p_id p) project_id) (projects db) = Some project ->
    let owner := p_owner_id project in
    get_user_role_in_project owner project_id db = (Ok (Some "owner"), db)
    /\ is_project_member owner project_id db = (Ok true, db)
    /\ can_edit_task owner project_id task_owner db = (Ok true, db)
    /\ can_delete_task owner project_id task_owner db = (Ok true, db).
Proof.
  intros db project_id project task_owner Hp owner.
  assert (Hrole : resolved_role owner project_id db = Some "owner").
  { unfold resolved_role. rewrite Hp. unfold owner.
    rewrite String.eqb_refl. reflexivity. }
  rewrite get_user_role_in_project_run, is_project_member_run,
    can_edit_task_run, can_delete_task_run, Hrole.
  repeat split.
Qed.

Lemma owner_role_takes_precedence_witness :
  get_user_role_in_project "olivia" "p1" Sample.db_owner_row
  = (Ok (Some "owner"), Sample.db_owner_row)
  /\ can_delete_task "olivia" "p1" (Some "alice") Sample.db_owner_row
     = (Ok true, Sample.db_owner_row).
Proof.
  destruct (owner_role_takes_precedence Sample.db_owner_row "p1"
              (Sample.project_p1 0) (Some "alice") eq_refl)
    as (Hrole & _ & _ & Hdelete).
  split; [exact Hrole|exact Hdelete].
Defined.

(** X2: [is_project_member] never raises and never writes; it answers
    true exactly when the user owns the project row of that id or has a
    membership row for (project, user), the latter also when the project
    row itself is gone. *)
Theorem project_membership_characterized :
  forall db username project_id,
    is_project_member username project_id db
    = (Ok (match find (fun p => String.eqb (p_id p) project_id) (projects db) with
           | Some p => String.eqb (p_owner_id p) username
           | None => false
           end
           || existsb (member_matches project_id username) (team_members db))%bool,
       db).
Proof.
  intros db username project_id.
  rewrite is_project_member_run. unfold resolved_role.
  assert (Hex : existsb (member_matches project_id username) (team_members db)
                = match filter (member_matches project_id username)
                          (team_members db) with
                  | _ :: _ => true
                  | [] => false
                  end).
  { induction (team_members db) as [|m l IH]; [reflexivity|].
    cbn. destruct (member_matches project_id username m); [reflexivity|exact IH]. }
  rewrite Hex.
  destruct (match find _ (projects db) with Some p => _ | None => false end);
    [reflexivity|].
  destruct (filter _ (team_members db)); reflexivity.
Qed.

(** X3: [can_delete_task] does not look at the task's assignee: it is true
    exactly for the resolved roles "owner" and "manager" (so a developer
    cannot delete even a task assigned to them), and whenever it is true the
    permission table grants DELETE_TASK to that role. *)
Theorem can_delete_task_rule :
  forall db username project_id task_owner role,
    fst (get_user_role_in_project username project_id db) = Ok role ->
    let allowed := (opt_eqb role "owner" || opt_eqb role "manager")%bool in
    can_delete_task username project_id task_owner db = (Ok allowed, db)
    /\ (allowed = true -> check_permission role DELETE_TASK = true)
    /\ (role = Some "developer" ->
        can_delete_task username project_id (Some username) db = (Ok false, db)).
Proof.
  intros db username project_id task_owner role Hrole allowed.
  rewrite get_user_role_in_project_run in Hrole. cbn in Hrole.
  injection Hrole as Hrole.
  rewrite !can_delete_task_run, Hrole. cbv zeta. unfold allowed.
  split; [|split].
  - destruct role as [s|]; [|reflexivity].
    destruct s; [reflexivity|]. reflexivity.
  - destruct role as [s|]; cbn; [|discriminate].
    intros H. apply orb_prop in H.
    destruct H as [H|H]; apply String.eqb_eq in H; subst s; reflexivity.
  - intros ->. reflexivity.
Qed.

Lemma can_delete_task_rule_witness :
  can_delete_task "dev1" "p1" (Some "dev1") Sample.db1 = (Ok false, Sample.db1)
  /\ can_delete_task "mark" "p1" (Some "dev1") Sample.db1 = (Ok true, Sample.db1).
Proof.
  destruct (can_delete_task_rule Sample.db1 "dev1" "p1" (Some "dev1")
              (Some "developer") eq_refl) as (Hdev & _ & _).
  destruct (can_delete_task_rule Sample.db1 "mark" "p1" (Some "dev1")
              (Some "manager") eq_refl) as (Hmgr & _ & _).
  split; [exact Hdev|exact Hmgr].
Defined.

(** X4: for a user whose resolved role is one of the four role values, the
    task rules are the table's cells: deleting is the DELETE_TASK cell,
    assigning the ASSIGN_TASK cell, managing the team the MANAGE_TEAM cell,
    and editing is the EDIT_TASK cell or, for a developer, being the task's
    assignee. *)
Theorem task_rules_follow_table :
  forall db username project_id task_owner r,
    fst (get_user_role_in_project username project_id db)
    = Ok (Some (Role_value r)) ->
    can_delete_task username project_id task_owner db
    = (Ok (table_4_1 r DELETE_TASK), db)
    /\ can_assign_task username project_id db = (Ok (table_4_1 r ASSIGN_TASK), db)
    /\ can_manage_team username project_id db = (Ok (table_4_1 r MANAGE_TEAM), db)
    /\ can_edit_task username project_id task_owner db
       = (Ok (table_4_1 r EDIT_TASK
              || (Role_eqb r DEVELOPER && opt_eqb task_owner username))%bool, db).
Proof.
  intros db username project_id task_owner r Hrole.
  rewrite get_user_role_in_project_run in Hrole. cbn in Hrole.
  injection Hrole as Hrole.
  rewrite can_delete_task_run, can_assign_task_run, can_manage_team_run,
    can_edit_task_run, Hrole.
  destruct r; repeat split.
Qed.

Lemma task_rules_follow_table_witness :
  can_assign_task "mark" "p1" Sample.db1 = (Ok true, Sample.db1)
  /\ can_manage_team "mark" "p1" Sample.db1 = (Ok false, Sample.db1)
  /\ can_assign_task "dev1" "p1" Sample.db1 = (Ok false, Sample.db1).
Proof.
  destruct (task_rules_follow_table Sample.db1 "mark" "p1" None MANAGER eq_refl)
    as (_ & Hassign & Hteam & _).
  destruct (task_rules_follow_table Sample.db1 "dev1" "p1" None DEVELOPER eq_refl)
    as (_ & Hdev & _ & _).
  split; [exact Hassign|]. split; [exact Hteam|exact Hdev].
Defined.

(** X5: the four roles are nested: every permission of a viewer is a
    permission of a developer, every permission of a developer one of a
    manager, every permission of a manager one of the owner, and the owner
    holds all fifteen. *)
Theorem roles_are_nested :
  forall p,
    (check_permission (Some "viewer") p = true ->
     check_permission (Some "developer") p = true)
    /\ (check_permission (Some "developer") p = true ->
        check_permission (Some "manager") p = true)
    /\ (check_permission (Some "manager") p = true ->
        check_permission (Some "owner") p = true)
    /\ check_permission (Some "owner") p = true
    /\ has_all_permissions (Some "owner") all_permissions = true.
Proof.
  intros p. destruct p; repeat split; try reflexivity; try discriminate.
Qed.

Lemma Permission_eqb_eq p q : Permission_eqb p q = true <-> p = q.
Proof.
  split; [|intros ->; apply String.eqb_refl].
  destruct p, q; cbn; intros H; try reflexivity; discriminate H.
Qed.

(** X6: the permission list [get_role_permissions] returns for a role
    string and [check_permission] agree: a permission is granted to the
    string exactly when it is in the list, for every string (unknown and
    empty strings get the empty list and no permission). *)
Theorem role_permissions_list_agrees :
  forall s p,
    check_permission (Some s) p = true <-> In p (get_role_permissions s).
Proof.
  intros s p. unfold check_permission, get_role_permissions.
  destruct s as [|c s].
  - cbn. split; [discriminate|intros []].
  - cbn [truthy_opt truthy negb].
    destruct (Role_of_value (lower (String c s))) as [r|].
    + cbv zeta. rewrite existsb_exists. split.
      * intros (q & Hin & Heq). apply Permission_eqb_eq in Heq. subst q. exact Hin.
      * intros Hin. exists p. split; [exact Hin|apply Permission_eqb_eq; reflexivity].
    + split; [discriminate|intros []].
Qed.

(** ** routes/tasks.py *)

Lemma create_task_run new_id stamp project_id task_data current_user db :
  Tasks.create_task new_id stamp project_id task_data current_user db
  = match find (fun p => String.eqb (p_id p) project_id) (projects db) with
    | None => (Raise ProjectNotFound, db)
    | Some _ =>
        let role := resolved_role current_user project_id db in
        let assignee := or_else (tc_assigned_to task_data) "" in
        if negb (is_set role) then (Raise UnauthorizedAccess, db)
        else if negb (check_permission role CREATE_TASK)
        then (Raise InsufficientPermissions, db)
        else if (truthy_opt (tc_assigned_to task_data)
                 && negb (is_set (resolved_role assignee project_id db)))%bool
        then (Raise InvalidData, db)
        else if (truthy_opt (tc_assigned_to task_data)
                 && negb (String.eqb assignee current_user)
                 && negb (check_permission role ASSIGN_TASK))%bool
        then (Raise InsufficientPermissions, db)
        else
          let row := created_row new_id stamp project_id task_data in
          (Ok row, with_tasks (tasks db ++ [row]) db)
    end.
Proof.
  unfold Tasks.create_task.
  unfold bind at 1. rewrite verify_project_access_run.
  destruct (find _ (projects db)) as [p|]; [|reflexivity].
  cbv zeta. destruct (is_set (resolved_role current_user project_id db));
    [|reflexivity].
  cbn [negb]. unfold bind at 1. rewrite get_user_role_in_project_run.
  unfold bind at 1.
  destruct (check_permission (resolved_role current_user project_id db) CREATE_TASK);
    [|reflexivity].
  cbn [negb require ret]. unfold bind at 1.
  destruct (truthy_opt (tc_assigned_to task_data)).
  - unfold bind at 1. rewrite is_project_member_run.
    destruct (is_set (resolved_role _ project_id db)); [|reflexivity].
    cbn [negb andb]. unfold bind at 1. cbn [require ret].
    destruct (String.eqb _ current_user).
    + reflexivity.
    + cbn [negb andb]. unfold bind at 1. rewrite can_assign_task_run.
      destruct (check_permission _ ASSIGN_TASK); reflexivity.
  - reflexivity.
Qed.

Lemma Task_model_run datetime_validates row db :
  Task_model datetime_validates row db
  = (if Task_validates datetime_validates row then Ok row
     else Raise ValidationError, db).
Proof.
  unfold Task_model, ret, raise.
  destruct (Task_validates datetime_validates row); reflexivity.
Qed.

Lemma Task_models_run datetime_validates rows db :
  Task_models datetime_validates rows db
  = (if forallb (Task_validates datetime_validates) rows then Ok rows
     else Raise ValidationError, db).
Proof.
  induction rows as [|row rows IH]; [reflexivity|].
  cbn [Task_models forallb]. unfold bind at 1. rewrite Task_model_run.
  destruct (Task_validates datetime_validates row); [|reflexivity].
  cbn [andb]. unfold bind at 1. rewrite IH.
  destruct (forallb _ rows); reflexivity.
Qed.

Lemma get_all_tasks_run datetime_validates project_id current_user db :
  Tasks.get_all_tasks datetime_validates project_id current_user db
  = (match find (fun p => String.eqb (p_id p) project_id) (projects db) with
     | None => Raise ProjectNotFound
     | Some _ =>
         let role := resolved_role current_user project_id db in
         if negb (is_set role) then Raise UnauthorizedAccess
         else if negb (check_permission role VIEW_TASK)
         then Raise InsufficientPermissions
         else if forallb (Task_validates datetime_validates)
                   (project_tasks project_id db)
         then Ok (project_tasks project_id db, len (project_tasks project_id db))
         else Raise ValidationError
     end, db).
Proof.
  unfold Tasks.get_all_tasks.
  unfold bind at 1. rewrite verify_project_access_run.
  destruct (find _ (projects db)) as [p|]; [|reflexivity].
  cbv zeta. destruct (is_set (resolved_role current_user project_id db));
    [|reflexivity].
  cbn [negb]. unfold bind at 1. rewrite get_user_role_in_project_run.
  unfold bind at 1.
  destruct (check_permission _ VIEW_TASK); [|reflexivity].
  cbn [negb require ret]. unfold bind at 1.
  unfold select_tasks_where_project at 1, bind at 1, get_db, ret at 1.
  fold (project_tasks project_id db).
  unfold bind at 1. rewrite Task_models_run.
  destruct (forallb _ _); reflexivity.
Qed.

Lemma get_existing_task_found project_id task_id db :
  Tasks.get_existing_task project_id task_id db
  = (match found_task project_id task_id db with
     | Some t => Ok t
     | None => Raise TaskNotFound
     end, db).
Proof.
  rewrite get_existing_task_run. unfold found_task.
  destruct (find _ (tasks db)) as [t|]; [|reflexivity].
  destruct (String.eqb _ _); reflexivity.
Qed.

Lemma get_task_run datetime_validates project_id task_id current_user db :
  Tasks.get_task datetime_validates project_id task_id current_user db
  = (match find (fun p => String.eqb (p_id p) project_id) (projects db) with
     | None => Raise ProjectNotFound
     | Some _ =>
         let role := resolved_role current_user project_id db in
         if negb (is_set role) then Raise UnauthorizedAccess
         else if negb (check_permission role VIEW_TASK)
         then Raise InsufficientPermissions
         else match found_task project_id task_id db with
              | Some t =>
                  if Task_validates datetime_validates t then Ok t
                  else Raise ValidationError
              | None => Raise TaskNotFound
              end
     end, db).
Proof.
  unfold Tasks.get_task.
  unfold bind at 1. rewrite verify_project_access_run.
  destruct (find _ (projects db)) as [p|]; [|reflexivity].
  cbv zeta. destruct (is_set (resolved_role current_user project_id db));
    [|reflexivity].
  cbn [negb]. unfold bind at 1. rewrite get_user_role_in_project_run.
  unfold bind at 1.
  destruct (check_permission _ VIEW_TASK); [|reflexivity].
  cbn [negb require ret]. unfold bind at 1. rewrite get_existing_task_found.
  destruct (found_task project_id task_id db) as [t|]; [|reflexivity].
  apply Task_model_run.
Qed.

Lemma delete_task_run project_id task_id current_user db :
  Tasks.delete_task project_id task_id current_user db
  = match find (fun p => String.eqb (p_id p) project_id) (projects db) with
    | None => (Raise ProjectNotFound, db)
    | Some _ =>
        let role := resolved_role current_user project_id db in
        if negb (is_set role) then (Raise UnauthorizedAccess, db)
        else match found_task project_id task_id db with
             | None => (Raise TaskNotFound, db)
             | Some _ =>
                 if (opt_eqb role "owner" || opt_eqb role "manager")%bool
                 then (Ok tt,
                       with_tasks
                         (filter (fun t => negb (String.eqb (t_id t) task_id))
                            (tasks db)) db)
                 else (Raise InsufficientPermissions, db)
             end
    end.
Proof.
  unfold Tasks.delete_task.
  unfold bind at 1. rewrite verify_project_access_run.
  destruct (find _ (projects db)) as [p|]; [|reflexivity].
  cbv zeta. destruct (is_set (resolved_role current_user project_id db)) eqn:Hset;
    [|reflexivity].
  cbn [negb]. unfold bind at 1. rewrite get_existing_task_found.
  destruct (found_task project_id task_id db) as [t|]; [|reflexivity].
  unfold bind at 1. rewrite can_delete_task_run. cbv zeta.
  destruct (resolved_role current_user project_id db) as [s|]; [|discriminate Hset].
  destruct s as [|c s]; [reflexivity|].
  cbn [truthy_opt truthy negb].
  destruct (opt_eqb _ "owner" || opt_eqb _ "manager")%bool; reflexivity.
Qed.

Lemma update_task_status_run datetime_validates project_id task_id status_data
    current_user db :
  Tasks.update_task_status datetime_validates project_id task_id status_data
    current_user db
  = match find (fun p => String.eqb (p_id p) project_id) (projects db) with
    | None => (Raise ProjectNotFound, db)
    | Some _ =>
        let role := resolved_role current_user project_id db in
        if negb (is_set role) then (Raise UnauthorizedAccess, db)
        else match found_task project_id task_id db with
             | None => (Raise TaskNotFound, db)
             | Some task =>
                 if (check_permission role UPDATE_TASK_STATUS
                     || opt_eqb (t_assigned_to task) current_user)%bool
                 then
                   bind (update_task_row task_id
                           (Tasks.set_status (TaskStatus_value status_data)))
                     (fun updated_task =>
                        bind (calculate_project_progress project_id)
                          (fun new_progress =>
                             bind (Task_model datetime_validates updated_task)
                               (fun response => ret (response, new_progress))))
                     db
                 else (Raise InsufficientPermissions, db)
             end
    end.
Proof.
  unfold Tasks.update_task_status.
  unfold bind at 1. rewrite verify_project_access_run.
  destruct (find _ (projects db)) as [p|]; [|reflexivity].
  cbv zeta. destruct (is_set (resolved_role current_user project_id db));
    [|reflexivity].
  cbn [negb]. unfold bind at 1. rewrite get_existing_task_found.
  destruct (found_task project_id task_id db) as [t|]; [|reflexivity].
  unfold bind at 1. rewrite get_user_role_in_project_run.
  unfold bind at 1.
  destruct (check_permission _ UPDATE_TASK_STATUS || _)%bool; reflexivity.
Qed.

Lemma update_task_run datetime_validates project_id task_id task_data
    current_user db :
  Tasks.update_task datetime_validates project_id task_id task_data
    current_user db
  = match find (fun p => String.eqb (p_id p) project_id) (projects db) with
    | None => (Raise ProjectNotFound, db)
    | Some _ =>
        if negb (is_set (resolved_role current_user project_id db))
        then (Raise UnauthorizedAccess, db)
        else match found_task project_id task_id db with
             | None => (Raise TaskNotFound, db)
             | Some task =>
                 update_task_body datetime_validates project_id task_id task_data
                   current_user task db
             end
    end.
Proof.
  unfold Tasks.update_task.
  unfold bind at 1. rewrite verify_project_access_run.
  destruct (find _ (projects db)) as [p|]; [|reflexivity].
  destruct (is_set (resolved_role current_user project_id db)); [|reflexivity].
  cbn [negb]. unfold bind at 1. rewrite get_existing_task_found.
  destruct (found_task project_id task_id db) as [task|]; [|reflexivity].
  cbv zeta. unfold update_task_body. cbv zeta.
  unfold bind at 1. rewrite can_edit_task_run. cbv zeta.
  match goal with |- _ = (if negb ?c then _ else _) =>
    destruct c end; [|reflexivity].
  cbn [negb].
  unfold bind at 1. cbn [require ret]. unfold bind at 1.
  destruct (Tasks.update_is_empty task_data); [reflexivity|].
  cbn [negb require ret]. unfold bind at 1.
  destruct (tu_assigned_to task_data) as [new_assignee|]; [|reflexivity].
  destruct (negb (opt_opt_eqb new_assignee (t_assigned_to task))); [|reflexivity].
  unfold bind at 1. rewrite can_assign_task_run. unfold bind at 1.
  destruct (check_permission _ ASSIGN_TASK); [|reflexivity].
  cbn [negb require ret].
  destruct (truthy_opt new_assignee); [|reflexivity].
  unfold bind at 1. rewrite is_project_member_run.
  destruct (is_set (resolved_role _ project_id db)); reflexivity.
Qed.

Lemma check_project_access_run project_id username require_owner db :
  Projects.check_project_access project_id username require_owner db
  = (match find (fun p => String.eqb (p_id p) project_id) (projects db) with
     | None => Raise ProjectNotFound
     | Some p =>
         let is_owner := String.eqb (p_owner_id p) username in
         if (require_owner && negb is_owner)%bool then Raise UnauthorizedAccess
         else if is_owner then Ok p
         else if existsb (fun tm => String.eqb (tm_username tm) username)
                   (filter (fun m => String.eqb (tm_project_id m) project_id)
                      (team_members db))
         then Ok p
         else Raise UnauthorizedAccess
     end, db).
Proof.
  unfold Projects.check_project_access, select_project_by_id.
  unfold bind at 1. unfold get_db, ret at 1.
  unfold bind at 1. cbn [fst snd].
  destruct (find _ (projects db)) as [p|]; [|reflexivity].
  cbv zeta. unfold bind at 1.
  destruct (require_owner && negb (String.eqb (p_owner_id p) username))%bool;
    [reflexivity|].
  cbn [negb require ret]. unfold bind at 1.
  destruct (String.eqb (p_owner_id p) username); [reflexivity|].
  cbn [negb]. unfold select_members_where_project, bind, get_db, ret, require, raise.
  destruct (existsb _ _); reflexivity.
Qed.

Lemma get_team_members_run project_id current_user db :
  Roles.get_team_members project_id current_user db
  = (match find (fun p => String.eqb (p_id p) project_id) (projects db) with
     | None => Raise ProjectNotFound
     | Some _ =>
         if is_set (resolved_role current_user project_id db)
         then Ok (filter (fun m => String.eqb (tm_project_id m) project_id)
                    (team_members db))
         else Raise UnauthorizedAccess
     end, db).
Proof.
  unfold Roles.get_team_members.
  unfold bind at 1. rewrite verify_project_exists_run.
  destruct (find _ (projects db)) as [p|]; [|reflexivity].
  unfold bind at 1. rewrite is_project_member_run.
  destruct (is_set _); reflexivity.
Qed.

Lemma get_team_member_run project_id username current_user db :
  Roles.get_team_member project_id username current_user db
  = (match find (fun p => String.eqb (p_id p) project_id) (projects db) with
     | None => Raise ProjectNotFound
     | Some _ =>
         if is_set (resolved_role current_user project_id db)
         then match filter (member_matches project_id username)
                      (team_members db) with
              | [] => Raise TeamMemberNotFound
              | m :: _ => Ok m
              end
         else Raise UnauthorizedAccess
     end, db).
Proof.
  unfold Roles.get_team_member.
  unfold bind at 1. rewrite verify_project_exists_run.
  destruct (find _ (projects db)) as [p|]; [|reflexivity].
  unfold bind at 1. rewrite is_project_member_run.
  destruct (is_set _); [|reflexivity].
  unfold bind at 1. cbn [require ret].
  unfold select_members_with_filters, bind, get_db, ret, raise.
  destruct (filter _ (team_members db)); reflexivity.
Qed.

Lemma get_member_permissions_run project_id username current_user db :
  Roles.get_member_permissions project_id username current_user db
  = (match find (fun p => String.eqb (p_id p) project_id) (projects db) with
     | None => Raise ProjectNotFound
     | Some _ =>
         if is_set (resolved_role current_user project_id db)
         then
           let role := resolved_role username project_id db in
           if truthy_opt role
           then Ok (username, or_else role "",
                    map Permission_value (get_role_permissions (or_else role "")))
           else Raise TeamMemberNotFound
         else Raise UnauthorizedAccess
     end, db).
Proof.
  unfold Roles.get_member_permissions.
  unfold bind at 1. rewrite verify_project_exists_run.
  destruct (find _ (projects db)) as [p|]; [|reflexivity].
  unfold bind at 1. rewrite is_project_member_run.
  destruct (is_set _); [|reflexivity].
  unfold bind at 1. cbn [require ret].
  unfold bind at 1. rewrite get_user_role_in_project_run.
  unfold bind at 1. cbv zeta.
  destruct (truthy_opt (resolved_role username project_id db)); reflexivity.
Qed.

Lemma verify_analytics_access_run project_id username db :
  AnalyticsRoutes.verify_analytics_access project_id username db
  = (match find (fun p => String.eqb (p_id p) project_id) (projects db) with
     | None => Raise ProjectNotFound
     | Some _ =>
         if check_permission (resolved_role username project_id db) VIEW_ANALYTICS
         then Ok tt else Raise InsufficientPermissions
     end, db).
Proof.
  unfold AnalyticsRoutes.verify_analytics_access, select_project_by_id.
  unfold bind at 1. unfold get_db, ret at 1. unfold bind at 1. cbn [fst snd].
  destruct (find _ (projects db)) as [p|]; [|reflexivity].
  cbn [is_set require ret]. unfold bind at 1. cbn [ret].
  unfold bind at 1. rewrite get_user_role_in_project_run.
  unfold require, ret, raise.
  destruct (check_permission _ VIEW_ANALYTICS); reflexivity.
Qed.

Lemma legacy_add_team_member_run new_id stamp project_id team_member current_user db :
  Projects.add_team_member new_id stamp project_id team_member current_user db
  = match find (fun p => String.eqb (p_id p) project_id) (projects db) with
    | None => (Raise ProjectNotFound, db)
    | Some p =>
        if negb (String.eqb (p_owner_id p) current_user)
        then (Raise UnauthorizedAccess, db)
        else
          match filter (member_matches project_id (tma_username team_member))
                  (team_members db) with
          | _ :: _ => (Raise InvalidData, db)
          | [] =>
              let row := mkTeamMember new_id project_id (tma_username team_member)
                           (tma_role team_member) stamp in
              (Ok row, with_team_members (team_members db ++ [row]) db)
          end
    end.
Proof.
  unfold Projects.add_team_member.
  unfold bind at 1. rewrite check_project_access_run.
  destruct (find _ (projects db)) as [p|]; [|reflexivity].
  cbv zeta. cbn [andb].
  destruct (String.eqb (p_owner_id p) current_user); [|reflexivity].
  cbn [negb]. unfold bind at 1, select_members_with_filters, bind, get_db, ret.
  destruct (filter _ (team_members db)); reflexivity.
Qed.

Lemma legacy_remove_team_member_run project_id member_id current_user db :
  Projects.remove_team_member project_id member_id current_user db
  = match find (fun p => String.eqb (p_id p) project_id) (projects db) with
    | None => (Raise ProjectNotFound, db)
    | Some p =>
        if negb (String.eqb (p_owner_id p) current_user)
        then (Raise UnauthorizedAccess, db)
        else (Ok tt,
              with_team_members
                (filter (fun m => negb (String.eqb (tm_id m) member_id))
                   (team_members db)) db)
    end.
Proof.
  unfold Projects.remove_team_member.
  unfold bind at 1. rewrite check_project_access_run.
  destruct (find _ (projects db)) as [p|]; [|reflexivity].
  cbv zeta. cbn [andb].
  destruct (String.eqb (p_owner_id p) current_user); reflexivity.
Qed.

Lemma update_project_full_run project_id project_data current_user db :
  Projects.update_project project_id project_data current_user db
  = match find (fun p => String.eqb (p_id p) project_id) (projects db) with
    | None => (Raise ProjectNotFound, db)
    | Some p =>
        if negb (String.eqb (p_owner_id p) current_user)
        then (Raise UnauthorizedAccess, db)
        else if Projects.update_is_empty project_data
        then (Raise InvalidData, db)
        else (Ok (Projects.apply_project_update project_data p),
              with_projects
                (update_rows p_id project_id
                   (Projects.apply_project_update project_data) (projects db)) db)
    end.
Proof.
  unfold Projects.update_project.
  unfold bind at 1. rewrite check_project_access_run.
  destruct (find _ (projects db)) as [p|] eqn:Hp; [|reflexivity].
  cbv zeta. cbn [andb].
  destruct (String.eqb (p_owner_id p) current_user); [|reflexivity].
  cbn [negb]. unfold bind at 1.
  destruct (Projects.update_is_empty project_data); [reflexivity|].
  cbn [negb require ret].
  unfold update_project_row, bind, get_db, put_db, ret, raise, first_updated.
  rewrite (find_update_rows p_id project_id _ _ p); [reflexivity|reflexivity|exact Hp].
Qed.

(** X7: on a project id that is not in the store every route of tasks.py
    and roles.py, the project routes modelled here and the analytics access
    check raise ProjectNotFound before anything else, whoever calls and
    whatever the other arguments, and write nothing. *)
Theorem missing_project_is_reported_first :
  forall datetime_validates db project_id,
    find (fun p => String.eqb (p_id p) project_id) (projects db) = None ->
    forall current_user username task_id new_id stamp,
      (forall task_data,
          Tasks.create_task new_id stamp project_id task_data current_user db
          = (Raise ProjectNotFound, db))
      /\ Tasks.get_all_tasks datetime_validates project_id current_user db = (Raise ProjectNotFound, db)
      /\ Tasks.get_task datetime_validates project_id task_id current_user db
         = (Raise ProjectNotFound, db)
      /\ (forall task_data,
             Tasks.update_task datetime_validates project_id task_id task_data current_user db
             = (Raise ProjectNotFound, db))
      /\ (forall status_data,
             Tasks.update_task_status datetime_validates project_id task_id status_data current_user db
             = (Raise ProjectNotFound, db))
      /\ Tasks.delete_task project_id task_id current_user db
         = (Raise ProjectNotFound, db)
      /\ (forall member_data,
             Roles.add_team_member new_id stamp project_id member_data current_user db
             = (Raise ProjectNotFound, db)
             /\ Roles.update_member_role project_id username member_data
                  current_user db = (Raise ProjectNotFound, db)
             /\ Projects.add_team_member new_id stamp project_id member_data
                  current_user db = (Raise ProjectNotFound, db))
      /\ Roles.remove_team_member project_id username current_user db
         = (Raise ProjectNotFound, db)
      /\ Roles.get_team_members project_id current_user db
         = (Raise ProjectNotFound, db)
      /\ Roles.get_team_member project_id username current_user db
         = (Raise ProjectNotFound, db)
      /\ Roles.get_member_permissions project_id username current_user db
         = (Raise ProjectNotFound, db)
      /\ (forall project_data,
             Projects.update_project project_id project_data current_user db
             = (Raise ProjectNotFound, db))
      /\ AnalyticsRoutes.verify_analytics_access project_id current_user db
         = (Raise ProjectNotFound, db).
Proof.
  intros datetime_validates db project_id Hp current_user username task_id
    new_id stamp.
  assert (Hexists : forall T (k : Project -> M T),
             bind (Roles.verify_project_exists project_id) k db
             = (Raise ProjectNotFound, db)).
  { intros T k. unfold bind. rewrite verify_project_exists_run, Hp. reflexivity. }
  split; [intros task_data; rewrite create_task_run, Hp; reflexivity|].
  split; [rewrite get_all_tasks_run, Hp; reflexivity|].
  split; [rewrite get_task_run, Hp; reflexivity|].
  split; [intros task_data; rewrite update_task_run, Hp; reflexivity|].
  split; [intros status_data; rewrite update_task_status_run, Hp; reflexivity|].
  split; [rewrite delete_task_run, Hp; reflexivity|].
  split.
  { intros member_data. split; [apply Hexists|]. split; [apply Hexists|].
    rewrite legacy_add_team_member_run, Hp. reflexivity. }
  split; [apply Hexists|].
  split; [rewrite get_team_members_run, Hp; reflexivity|].
  split; [rewrite get_team_member_run, Hp; reflexivity|].
  split; [rewrite get_member_permissions_run, Hp; reflexivity|].
  split; [intros project_data; rewrite update_project_full_run, Hp; reflexivity|].
  rewrite verify_analytics_access_run, Hp. reflexivity.
Qed.

Lemma missing_project_is_reported_first_witness :
  Tasks.delete_task "p9" "t1" "olivia" Sample.db1
  = (Raise ProjectNotFound, Sample.db1)
  /\ Roles.remove_team_member "p9" "dev1" "olivia" Sample.db1
     = (Raise ProjectNotFound, Sample.db1).
Proof.
  destruct (missing_project_is_reported_first Sample.datetime_validates
              Sample.db1 "p9" eq_refl
              "olivia" "dev1" "t1" "t9" "2024-03-01")
    as (_ & _ & _ & _ & _ & Hdelete & _ & Hremove & _).
  split; [exact Hdelete|exact Hremove].
Defined.

(** X8: a user with no role in an existing project (neither its owner nor
    listed in the membership table) is refused by every task route and every
    read route of the membership table with UnauthorizedAccess, and nothing
    is written; this comes before the task is even looked up. *)
Theorem non_members_are_refused :
  forall datetime_validates db project_id project current_user,
    find (fun p => String.eqb (p_id p) project_id) (projects db) = Some project ->
    fst (is_project_member current_user project_id db) = Ok false ->
    forall username task_id new_id stamp,
      (forall task_data,
          Tasks.create_task new_id stamp project_id task_data current_user db
          = (Raise UnauthorizedAccess, db))
      /\ Tasks.get_all_tasks datetime_validates project_id current_user db
         = (Raise UnauthorizedAccess, db)
      /\ Tasks.get_task datetime_validates project_id task_id current_user db
         = (Raise UnauthorizedAccess, db)
      /\ (forall task_data,
             Tasks.update_task datetime_validates project_id task_id task_data current_user db
             = (Raise UnauthorizedAccess, db))
      /\ (forall status_data,
             Tasks.update_task_status datetime_validates project_id task_id status_data current_user db
             = (Raise UnauthorizedAccess, db))
      /\ Tasks.delete_task project_id task_id current_user db
         = (Raise UnauthorizedAccess, db)
      /\ Roles.get_team_members project_id current_user db
         = (Raise UnauthorizedAccess, db)
      /\ Roles.get_team_member project_id username current_user db
         = (Raise UnauthorizedAccess, db)
      /\ Roles.get_member_permissions project_id username current_user db
         = (Raise UnauthorizedAccess, db).
Proof.
  intros datetime_validates db project_id project current_user Hp Hmem
    username task_id new_id stamp.
  rewrite is_project_member_run in Hmem. cbn in Hmem. injection Hmem as Hmem.
  split; [intros task_data; rewrite create_task_run, Hp; cbv zeta;
          rewrite Hmem; reflexivity|].
  split; [rewrite get_all_tasks_run, Hp; cbv zeta; rewrite Hmem; reflexivity|].
  split; [rewrite get_task_run, Hp; cbv zeta; rewrite Hmem; reflexivity|].
  split; [intros task_data; rewrite update_task_run, Hp, Hmem; reflexivity|].
  split; [intros status_data; rewrite update_task_status_run, Hp; cbv zeta;
          rewrite Hmem; reflexivity|].
  split; [rewrite delete_task_run, Hp; cbv zeta; rewrite Hmem; reflexivity|].
  split; [rewrite get_team_members_run, Hp, Hmem; reflexivity|].
  split; [rewrite get_team_member_run, Hp, Hmem; reflexivity|].
  rewrite get_member_permissions_run, Hp, Hmem. reflexivity.
Qed.

Lemma non_members_are_refused_witness :
  Tasks.get_all_tasks Sample.datetime_validates "p1" "peter" Sample.db_two_projects
  = (Raise UnauthorizedAccess, Sample.db_two_projects)
  /\ Tasks.update_task_status Sample.datetime_validates "p1" "t1" COMPLETED "peter" Sample.db_two_projects
     = (Raise UnauthorizedAccess, Sample.db_two_projects).
Proof.
  destruct (non_members_are_refused Sample.datetime_validates
              Sample.db_two_projects "p1"
              (Sample.project_p1 0) "peter" eq_refl eq_refl
              "alice" "t1" "t9" "2024-03-01")
    as (_ & Hlist & _ & _ & Hstatus & _).
  split; [exact Hlist|apply Hstatus].
Defined.

(** X9: a task id that is absent, or that belongs to another project, is
    reported as TaskNotFound by the routes that take a task id, for every
    member of the project (the owner included), and nothing is written: a
    task is never read, changed or deleted through a project it does not
    belong to. *)
Theorem foreign_task_is_not_found :
  forall datetime_validates db project_id project current_user task_id,
    find (fun p => String.eqb (p_id p) project_id) (projects db) = Some project ->
    fst (is_project_member current_user project_id db) = Ok true ->
    (forall t, find (fun t => String.eqb (t_id t) task_id) (tasks db) = Some t ->
               t_project_id t <> project_id) ->
    (forall task_data,
        Tasks.update_task datetime_validates project_id task_id task_data current_user db
        = (Raise TaskNotFound, db))
    /\ (forall status_data,
           Tasks.update_task_status datetime_validates project_id task_id status_data current_user db
           = (Raise TaskNotFound, db))
    /\ Tasks.delete_task project_id task_id current_user db
       = (Raise TaskNotFound, db)
    /\ (check_permission (resolved_role current_user project_id db) VIEW_TASK = true ->
        Tasks.get_task datetime_validates project_id task_id current_user db
        = (Raise TaskNotFound, db)).
Proof.
  intros datetime_validates db project_id project current_user task_id Hp Hmem
    Hforeign.
  rewrite is_project_member_run in Hmem. cbn in Hmem. injection Hmem as Hmem.
  assert (Hnone : found_task project_id task_id db = None).
  { unfold found_task.
    destruct (find _ (tasks db)) as [t|] eqn:Ht; [|reflexivity].
    destruct (String.eqb (t_project_id t) project_id) eqn:E; [|reflexivity].
    apply String.eqb_eq in E. destruct (Hforeign t eq_refl E). }
  split; [intros task_data; rewrite update_task_run, Hp, Hmem, Hnone; reflexivity|].
  split; [intros status_data; rewrite update_task_status_run, Hp; cbv zeta;
          rewrite Hmem, Hnone; reflexivity|].
  split; [rewrite delete_task_run, Hp; cbv zeta; rewrite Hmem, Hnone; reflexivity|].
  intros Hview. rewrite get_task_run, Hp. cbv zeta.
  rewrite Hmem, Hview, Hnone. reflexivity.
Qed.

Lemma foreign_task_is_not_found_witness :
  Tasks.delete_task "p1" "t5" "olivia" Sample.db_two_projects
  = (Raise TaskNotFound, Sample.db_two_projects)
  /\ Tasks.get_task Sample.datetime_validates "p1" "t5" "olivia" Sample.db_two_projects
     = (Raise TaskNotFound, Sample.db_two_projects).
Proof.
  destruct (foreign_task_is_not_found Sample.datetime_validates
              Sample.db_two_projects "p1"
              (Sample.project_p1 0) "olivia" "t5" eq_refl eq_refl)
    as (_ & _ & Hdelete & Hget).
  - intros t Ht. injection Ht as <-. discriminate.
  - split; [exact Hdelete|apply Hget; reflexivity].
Defined.

(** X10: [create_task] by a member of an existing project.  It needs the
    CREATE_TASK permission; a named assignee must be a member of the
    project, and naming somebody else than oneself needs ASSIGN_TASK (so a
    developer may create tasks for themselves only).  When it goes through,
    exactly one row is appended to the task table, under the project id of
    the route (the one in the body is ignored), with the status and priority
    values of the body; the project and membership tables are untouched, and
    so is the stored progress. *)
Theorem create_task_outcome :
  forall db project_id project current_user role new_id stamp task_data,
    find (fun p => String.eqb (p_id p) project_id) (projects db) = Some project ->
    fst (get_user_role_in_project current_user project_id db) = Ok (Some role) ->
    let assignee := tc_assigned_to task_data in
    let out := Tasks.create_task new_id stamp project_id task_data current_user db in
    let row := created_row new_id stamp project_id task_data in
    (check_permission (Some role) CREATE_TASK = false ->
     out = (Raise InsufficientPermissions, db))
    /\ (check_permission (Some role) CREATE_TASK = true ->
        (truthy_opt assignee = false ->
         out = (Ok row, with_tasks (tasks db ++ [row]) db))
        /\ (forall a, assignee = Some a -> truthy a = true ->
              (fst (is_project_member a project_id db) = Ok false ->
               out = (Raise InvalidData, db))
              /\ (fst (is_project_member a project_id db) = Ok true ->
                  a <> current_user ->
                  check_permission (Some role) ASSIGN_TASK = false ->
                  out = (Raise InsufficientPermissions, db))
              /\ (fst (is_project_member a project_id db) = Ok true ->
                  a = current_user
                  \/ check_permission (Some role) ASSIGN_TASK = true ->
                  out = (Ok row, with_tasks (tasks db ++ [row]) db))))
    /\ t_project_id row = project_id
    /\ stored_progress project_id (with_tasks (tasks db ++ [row]) db)
       = stored_progress project_id db.
Proof.
  intros db project_id project current_user role new_id stamp task_data Hp Hrole
    assignee out row.
  rewrite get_user_role_in_project_run in Hrole. cbn in Hrole.
  injection Hrole as Hrole.
  assert (Hout := create_task_run new_id stamp project_id task_data current_user db).
  fold out in Hout. rewrite Hp in Hout. cbv zeta in Hout.
  rewrite Hrole in Hout. cbn [is_set negb] in Hout. fold row in Hout.
  fold assignee in Hout.
  split; [intros Hc; rewrite Hout, Hc; reflexivity|].
  split; [|split; reflexivity].
  intros Hc. rewrite Hc in Hout. cbn [negb] in Hout. split.
  - intros Hna. rewrite Hna in Hout. exact Hout.
  - intros a Ha Htruthy. unfold assignee in *. rewrite Ha in Hout.
    cbn [truthy_opt or_else] in Hout. rewrite Htruthy in Hout.
    cbn [andb] in Hout.
    split; [|split].
    + intros Hm. rewrite is_project_member_run in Hm. cbn in Hm.
      injection Hm as Hm. rewrite Hm in Hout. exact Hout.
    + intros Hm Hne Hassign.
      rewrite is_project_member_run in Hm. cbn in Hm. injection Hm as Hm.
      rewrite Hm, Hassign in Hout. cbn [negb andb] in Hout.
      apply String.eqb_neq in Hne. rewrite Hne in Hout. exact Hout.
    + intros Hm Hor.
      rewrite is_project_member_run in Hm. cbn in Hm. injection Hm as Hm.
      rewrite Hm in Hout. cbn [negb] in Hout.
      destruct Hor as [-> | Hassign].
      * rewrite String.eqb_refl in Hout. exact Hout.
      * rewrite Hassign in Hout. cbn [negb] in Hout.
        rewrite andb_false_r in Hout. exact Hout.
Qed.

(** dev1, a developer, creates a task for themselves, may not create one
    for alice, and alice, a viewer, may not create any. *)
Lemma create_task_outcome_witness :
  (exists t db',
      Tasks.create_task "t9" "2024-03-01" "p1"
        (mkTaskCreate "other" "fix" None (Some "dev1") TODO HIGH) "dev1" Sample.db1
      = (Ok t, db')
      /\ t_project_id t = "p1" /\ List.length (tasks db') = 3%nat)
  /\ Tasks.create_task "t9" "2024-03-01" "p1"
       (mkTaskCreate "p1" "fix" None (Some "alice") TODO HIGH) "dev1" Sample.db1
     = (Raise InsufficientPermissions, Sample.db1)
  /\ Tasks.create_task "t9" "2024-03-01" "p1" Sample.new_task "alice" Sample.db1
     = (Raise InsufficientPermissions, Sample.db1).
Proof.
  split; [|split].
  - destruct (create_task_outcome Sample.db1 "p1" (Sample.project_p1 0) "dev1"
                "developer" "t9" "2024-03-01"
                (mkTaskCreate "other" "fix" None (Some "dev1") TODO HIGH)
                eq_refl eq_refl) as (_ & H & _).
    destruct (H eq_refl) as (_ & Hnamed).
    destruct (Hnamed "dev1" eq_refl eq_refl) as (_ & _ & Hok).
    eexists. eexists. split; [apply Hok; [reflexivity|left; reflexivity]|].
    split; reflexivity.
  - destruct (create_task_outcome Sample.db1 "p1" (Sample.project_p1 0) "dev1"
                "developer" "t9" "2024-03-01"
                (mkTaskCreate "p1" "fix" None (Some "alice") TODO HIGH)
                eq_refl eq_refl) as (_ & H & _).
    destruct (H eq_refl) as (_ & Hnamed).
    destruct (Hnamed "alice" eq_refl eq_refl) as (_ & Hno & _).
    apply Hno; [reflexivity|discriminate|reflexivity].
  - destruct (create_task_outcome Sample.db1 "p1" (Sample.project_p1 0) "alice"
                "viewer" "t9" "2024-03-01" Sample.new_task eq_refl eq_refl)
      as (H & _).
    apply H. reflexivity.
Defined.

(** X11: [delete_task] by a member of an existing project, on a task of
    that project: it goes through exactly for the roles "owner" and
    "manager" and raises InsufficientPermissions for every other member,
    the task's assignee included.  After it, no row with that id is left,
    the other rows are kept in their order, and the project and membership
    tables are untouched. *)
Theorem delete_task_outcome :
  forall db project_id project current_user role task_id task,
    find (fun p => String.eqb (p_id p) project_id) (projects db) = Some project ->
    fst (get_user_role_in_project current_user project_id db) = Ok (Some role) ->
    find (fun t => String.eqb (t_id t) task_id) (tasks db) = Some task ->
    t_project_id task = project_id ->
    let out := Tasks.delete_task project_id task_id current_user db in
    (role = "owner" \/ role = "manager" ->
     fst out = Ok tt
     /\ find (fun t => String.eqb (t_id t) task_id) (tasks (snd out)) = None
     /\ tasks (snd out)
        = filter (fun t => negb (String.eqb (t_id t) task_id)) (tasks db)
     /\ projects (snd out) = projects db
     /\ team_members (snd out) = team_members db)
    /\ (role <> "owner" -> role <> "manager" ->
        out = (Raise InsufficientPermissions, db)).
Proof.
  intros db project_id project current_user role task_id task Hp Hrole Ht Htp out.
  rewrite get_user_role_in_project_run in Hrole. cbn in Hrole.
  injection Hrole as Hrole.
  assert (Hfound : found_task project_id task_id db = Some task).
  { unfold found_task. rewrite Ht, Htp, String.eqb_refl. reflexivity. }
  assert (Hout := delete_task_run project_id task_id current_user db).
  fold out in Hout. rewrite Hp in Hout. cbv zeta in Hout.
  rewrite Hrole, Hfound in Hout. cbn [is_set negb opt_eqb] in Hout.
  split.
  - intros Hor.
    assert (Hb : (String.eqb role "owner" || String.eqb role "manager")%bool = true).
    { destruct Hor as [-> | ->]; reflexivity. }
    rewrite Hb in Hout. rewrite Hout. cbn [fst snd tasks with_tasks projects team_members].
    repeat split.
    destruct (find (fun t => String.eqb (t_id t) task_id)
                (filter (fun t => negb (String.eqb (t_id t) task_id)) (tasks db)))
      as [x|] eqn:E; [|reflexivity].
    apply find_some in E. destruct E as [Hin Hid].
    apply filter_In in Hin. destruct Hin as [_ Hneg].
    rewrite Hid in Hneg. discriminate Hneg.
  - intros Hno Hnm.
    apply String.eqb_neq in Hno, Hnm. rewrite Hno, Hnm in Hout. exact Hout.
Qed.

Lemma delete_task_outcome_witness :
  Tasks.delete_task "p1" "t1" "alice" Sample.db1
  = (Raise InsufficientPermissions, Sample.db1)
  /\ map t_id (tasks (snd (Tasks.delete_task "p1" "t1" "mark" Sample.db1))) = ["t2"].
Proof.
  destruct (delete_task_outcome Sample.db1 "p1" (Sample.project_p1 0) "alice"
              "viewer" "t1" (Sample.task "t1" (Some "alice") "todo" None)
              eq_refl eq_refl eq_refl eq_refl) as (_ & Hno).
  destruct (delete_task_outcome Sample.db1 "p1" (Sample.project_p1 0) "mark"
              "manager" "t1" (Sample.task "t1" (Some "alice") "todo" None)
              eq_refl eq_refl eq_refl eq_refl) as (Hyes & _).
  split.
  - apply Hno; discriminate.
  - destruct (Hyes (or_intror eq_refl)) as (_ & _ & Htasks & _).
    rewrite Htasks. reflexivity.
Defined.

(** X12: changing the assignee through [update_task] needs ASSIGN_TASK on
    top of the right to edit: for a member whose role lacks it (a developer
    editing their own task, say), a payload whose [assigned_to] differs from
    the task's current assignee is refused with InsufficientPermissions and
    nothing is written, whatever else the payload holds. *)
Theorem reassigning_needs_assign_permission :
  forall datetime_validates db project_id project current_user role task_id task
         task_data new_assignee,
    find (fun p => String.eqb (p_id p) project_id) (projects db) = Some project ->
    fst (get_user_role_in_project current_user project_id db) = Ok (Some role) ->
    find (fun t => String.eqb (t_id t) task_id) (tasks db) = Some task ->
    t_project_id task = project_id ->
    check_permission (Some role) ASSIGN_TASK = false ->
    tu_assigned_to task_data = Some new_assignee ->
    opt_opt_eqb new_assignee (t_assigned_to task) = false ->
    Tasks.update_task datetime_validates project_id task_id task_data current_user db
    = (Raise InsufficientPermissions, db).
Proof.
  intros datetime_validates db project_id project current_user role task_id task
    task_data new_assignee Hp Hrole Ht Htp Hassign Hnew Hdiff.
  rewrite get_user_role_in_project_run in Hrole. cbn in Hrole.
  injection Hrole as Hrole.
  assert (Hfound : found_task project_id task_id db = Some task).
  { unfold found_task. rewrite Ht, Htp, String.eqb_refl. reflexivity. }
  rewrite update_task_run, Hp, Hrole, Hfound. cbn [is_set negb].
  unfold update_task_body. cbv zeta. rewrite Hrole.
  match goal with |- (if negb ?c then _ else _) = _ => destruct c end;
    [|reflexivity].
  cbn [negb].
  assert (Hne : Tasks.update_is_empty task_data = false).
  { unfold Tasks.update_is_empty. rewrite Hnew. cbn.
    rewrite !orb_true_r. reflexivity. }
  rewrite Hne, Hnew, Hdiff, Hassign. reflexivity.
Qed.

Lemma reassigning_needs_assign_permission_witness :
  fst (can_edit_task "alice" "p1" (Some "alice") Sample.db_dev_task) = Ok true
  /\ Tasks.update_task Sample.datetime_validates "p1" "t1"
       (mkTaskUpdate (Some (Some "new title")) None (Some (Some "mark")) None None)
       "alice" Sample.db_dev_task
     = (Raise InsufficientPermissions, Sample.db_dev_task).
Proof.
  split; [reflexivity|].
  apply (reassigning_needs_assign_permission Sample.datetime_validates
           Sample.db_dev_task "p1"
           (Sample.project_p1 0) "alice" "developer" "t1"
           (Sample.task "t1" (Some "alice") "todo" (Some "2024-01-01"))
           (mkTaskUpdate (Some (Some "new title")) None (Some (Some "mark")) None
              None)
           (Some "mark")); reflexivity.
Defined.

Lemma calculate_project_progress_keeps_tables project_id db :
  tasks (snd (calculate_project_progress project_id db)) = tasks db
  /\ team_members (snd (calculate_project_progress project_id db))
     = team_members db.
Proof.
  rewrite calculate_project_progress_unfold.
  destruct (len _ =? 0); [split; reflexivity|].
  destruct (percent _ _); split; reflexivity.
Qed.

(** Writing a task row that keeps its id and project, then recomputing the
    progress, goes through on a project of fewer than 2^53 tasks. *)
Lemma write_then_recompute_ok project_id task_id patch db project task :
  (forall t, t_id (patch t) = t_id t) ->
  (forall t, t_project_id (patch t) = t_project_id t) ->
  find (fun p => String.eqb (p_id p) project_id) (projects db) = Some project ->
  find (fun t => String.eqb (t_id t) task_id) (tasks db) = Some task ->
  t_project_id task = project_id ->
  len (project_tasks project_id db) < 2 ^ 53 ->
  exists n db',
    update_task_row task_id patch db
    = (Ok (patch task), with_tasks (update_rows t_id task_id patch (tasks db)) db)
    /\ calculate_project_progress project_id
         (with_tasks (update_rows t_id task_id patch (tasks db)) db)
       = (Ok n, db').
Proof.
  intros Hid Hpid Hp Ht Htp Hsize.
  set (db1 := with_tasks (update_rows t_id task_id patch (tasks db)) db).
  assert (Hfind1 : find (fun t => String.eqb (t_id t) task_id) (tasks db1)
                   = Some (patch task)).
  { apply find_update_rows; assumption. }
  assert (Hlen1 : len (project_tasks project_id db1)
                  = len (project_tasks project_id db)).
  { unfold db1. rewrite project_tasks_after_update by exact Hpid.
    unfold len. rewrite length_update_rows. reflexivity. }
  assert (Hne1 : project_tasks project_id db1 <> []).
  { unfold project_tasks.
    apply (find_some_filter _ _ _ (patch task) Hfind1).
    rewrite Hpid, Htp. apply String.eqb_refl. }
  destruct (percent_total
              (count_if is_completed (project_tasks project_id db1))
              (len (project_tasks project_id db1))) as [n Hn].
  { apply count_if_le_len. }
  { rewrite Hlen1. split; [|exact Hsize].
    rewrite <- Hlen1. unfold len.
    destruct (project_tasks project_id db1); [congruence|cbn; lia]. }
  exists n. eexists. split.
  - apply update_task_row_run; assumption.
  - apply (calculate_project_progress_run project_id db1 project n Hp Hne1 Hn).
Qed.



(** X14: a mutating route that refuses writes nothing.  Whenever
    [create_task], [delete_task] or [remove_team_member] of roles.py
    raises, the store is exactly as it was.  For [update_task] and
    [update_task_status] (on a project of fewer than 2^53 tasks) the same
    holds for every error but one: the response is built after the writes,
    so when it cannot be built (ValidationError) the task row has already
    been rewritten. *)
Theorem refused_mutation_writes_nothing :
  forall db project_id current_user e,
    (forall new_id stamp task_data,
        fst (Tasks.create_task new_id stamp project_id task_data current_user db)
        = Raise e ->
        snd (Tasks.create_task new_id stamp project_id task_data current_user db)
        = db)
    /\ (forall task_id,
           fst (Tasks.delete_task project_id task_id current_user db) = Raise e ->
           snd (Tasks.delete_task project_id task_id current_user db) = db)
    /\ (forall username,
           fst (Roles.remove_team_member project_id username current_user db)
           = Raise e ->
           snd (Roles.remove_team_member project_id username current_user db) = db)
    /\ (len (project_tasks project_id db) < 2 ^ 53 ->
        (forall datetime_validates task_id status_data,
            let out :=
              Tasks.update_task_status datetime_validates project_id task_id
                status_data current_user db in
            let patch := Tasks.set_status (TaskStatus_value status_data) in
            (fst out = Raise e -> e <> ValidationError -> snd out = db)
            /\ (fst out = Raise ValidationError ->
                exists task,
                  find (fun t => String.eqb (t_id t) task_id) (tasks db)
                  = Some task
                  /\ Task_validates datetime_validates (patch task) = false
                  /\ find (fun t => String.eqb (t_id t) task_id) (tasks (snd out))
                     = Some (patch task)))
        /\ (forall datetime_validates task_id task_data,
               let out :=
                 Tasks.update_task datetime_validates project_id task_id
                   task_data current_user db in
               let patch := Tasks.apply_task_update task_data in
               (fst out = Raise e -> e <> ValidationError -> snd out = db)
               /\ (fst out = Raise ValidationError ->
                   exists task,
                     find (fun t => String.eqb (t_id t) task_id) (tasks db)
                     = Some task
                     /\ Task_validates datetime_validates (patch task) = false
                     /\ find (fun t => String.eqb (t_id t) task_id)
                          (tasks (snd out))
                        = Some (patch task)))).
Proof.
  intros db project_id current_user e.
  assert (Hmissing : forall T (k : Project -> M T),
             find (fun p => String.eqb (p_id p) project_id) (projects db) = None ->
             bind (Roles.verify_project_exists project_id) k db
             = (Raise ProjectNotFound, db)).
  { intros T k Hp. unfold bind. rewrite verify_project_exists_run, Hp. reflexivity. }
  split.
  { intros new_id stamp task_data. rewrite create_task_run.
    destruct (find _ (projects db)); [|reflexivity]. cbv zeta.
    repeat match goal with
           | |- context [if ?c then _ else _] => destruct c
           end; try reflexivity; discriminate. }
  split.
  { intros task_id. rewrite delete_task_run.
    destruct (find _ (projects db)); [|reflexivity]. cbv zeta.
    destruct (negb _); [reflexivity|].
    destruct (found_task _ _ _); [|reflexivity].
    destruct (_ || _)%bool; [discriminate|reflexivity]. }
  split.
  { intros username.
    destruct (find (fun p => String.eqb (p_id p) project_id) (projects db))
      as [p|] eqn:Hp.
    - rewrite (remove_team_member_run _ _ _ _ p Hp).
      destruct (negb _); [reflexivity|].
      destruct (String.eqb _ _); [reflexivity|].
      destruct (filter _ (team_members db)); [reflexivity|discriminate].
    - unfold Roles.remove_team_member. rewrite Hmissing by reflexivity. reflexivity. }
  intros Hsize.
  (* the tail shared by the two update routes: write, recompute, respond *)
  assert (Htail : forall datetime_validates task_id patch p task A
                         (f : Task -> Z -> A) (recompute : bool),
             (forall t, t_id (patch t) = t_id t) ->
             (forall t, t_project_id (patch t) = t_project_id t) ->
             find (fun p => String.eqb (p_id p) project_id) (projects db) = Some p ->
             find (fun t => String.eqb (t_id t) task_id) (tasks db) = Some task ->
             t_project_id task = project_id ->
             let out :=
               bind (update_task_row task_id patch)
                 (fun updated_task =>
                    if recompute then
                      bind (calculate_project_progress project_id)
                        (fun new_progress =>
                           bind (Task_model datetime_validates updated_task)
                             (fun response => ret (f response new_progress)))
                    else
                      bind (Task_model datetime_validates updated_task)
                        (fun response => ret (f response 0))) db in
             (fst out = Raise e -> e <> ValidationError -> snd out = db)
             /\ (fst out = Raise ValidationError ->
                 Task_validates datetime_validates (patch task) = false
                 /\ find (fun t => String.eqb (t_id t) task_id) (tasks (snd out))
                    = Some (patch task))).
  { intros datetime_validates task_id patch p task A f recompute Hid Hpid Hp Ht Htp.
    destruct (write_then_recompute_ok project_id task_id patch db p task
                Hid Hpid Hp Ht Htp Hsize) as (n & db2 & Hw & Hc).
    assert (Hfind1 : find (fun t => String.eqb (t_id t) task_id)
                       (update_rows t_id task_id patch (tasks db))
                     = Some (patch task)).
    { apply find_update_rows; assumption. }
    assert (Hk := calculate_project_progress_keeps_tables project_id
                    (with_tasks (update_rows t_id task_id patch (tasks db)) db)).
    rewrite Hc in Hk. cbn [snd tasks with_tasks] in Hk. destruct Hk as [Hk _].
    cbv zeta.
    match goal with |- (fst ?o = _ -> _) /\ _ => set (out := o) end.
    assert (Hout : out
                   = (if Task_validates datetime_validates (patch task)
                      then Ok (f (patch task) (if recompute then n else 0))
                      else Raise ValidationError,
                      if recompute then db2
                      else with_tasks (update_rows t_id task_id patch (tasks db)) db)).
    { unfold out. unfold bind at 1. rewrite Hw. destruct recompute.
      - unfold bind at 1. rewrite Hc. unfold bind at 1. rewrite Task_model_run.
        destruct (Task_validates datetime_validates (patch task)); reflexivity.
      - unfold bind at 1. rewrite Task_model_run.
        destruct (Task_validates datetime_validates (patch task)); reflexivity. }
    rewrite Hout. clear Hout. clearbody out.
    destruct (Task_validates datetime_validates (patch task)); cbn [fst snd].
    - split; discriminate.
    - split.
      + intros [= <-] Hne. congruence.
      + intros _. split; [reflexivity|].
        destruct recompute; [rewrite Hk|]; exact Hfind1. }
  split.
  - intros datetime_validates task_id status_data. cbv zeta.
    rewrite update_task_status_run.
    destruct (find (fun p => String.eqb (p_id p) project_id) (projects db))
      as [p|] eqn:Hp; [|split; [reflexivity|discriminate]].
    cbv zeta. destruct (negb _); [split; [reflexivity|discriminate]|].
    unfold found_task.
    destruct (find (fun t => String.eqb (t_id t) task_id) (tasks db))
      as [task|] eqn:Ht; [|split; [reflexivity|discriminate]].
    destruct (String.eqb (t_project_id task) project_id) eqn:Htp;
      [|split; [reflexivity|discriminate]].
    apply String.eqb_eq in Htp.
    destruct (_ || _)%bool; [|split; [reflexivity|discriminate]].
    destruct (Htail datetime_validates task_id
                (Tasks.set_status (TaskStatus_value status_data)) p task
                (Task * Z)%type (fun r n => (r, n)) true)
      as (Hother & Hvalid); try assumption; try reflexivity.
    split; [exact Hother|].
    intros H. exists task. split; [reflexivity|]. apply Hvalid, H.
  - intros datetime_validates task_id task_data. cbv zeta.
    rewrite update_task_run.
    destruct (find (fun p => String.eqb (p_id p) project_id) (projects db))
      as [p|] eqn:Hp; [|split; [reflexivity|discriminate]].
    destruct (negb _); [split; [reflexivity|discriminate]|].
    unfold found_task.
    destruct (find (fun t => String.eqb (t_id t) task_id) (tasks db))
      as [task|] eqn:Ht; [|split; [reflexivity|discriminate]].
    destruct (String.eqb (t_project_id task) project_id) eqn:Htp;
      [|split; [reflexivity|discriminate]].
    apply String.eqb_eq in Htp.
    unfold update_task_body. cbv zeta.
    match goal with |- (fst (if negb ?c then _ else _) = _ -> _) /\ _ =>
      destruct c end; [|split; [reflexivity|discriminate]].
    cbn [negb].
    destruct (Tasks.update_is_empty task_data);
      [split; [reflexivity|discriminate]|].
    match goal with
    | |- (fst (match ?g with Some _ => _ | None => _ end) = _ -> _) /\ _ =>
        destruct g as [e'|] eqn:Hguard
    end.
    { split; [reflexivity|].
      cbn [fst]. intros [= ->]. exfalso. revert Hguard.
      destruct (tu_assigned_to task_data) as [new_assignee|]; [|discriminate].
      destruct (negb (opt_opt_eqb new_assignee (t_assigned_to task)));
        [|discriminate].
      destruct (negb (check_permission _ ASSIGN_TASK)); [discriminate|].
      destruct (_ && _)%bool; discriminate. }
    destruct (is_set (tu_status task_data)) eqn:Hstatus.
    + destruct (Htail datetime_validates task_id
                  (Tasks.apply_task_update task_data) p task
                  (Task * option Z)%type (fun r n => (r, Some n)) true)
        as (Hother & Hvalid); try assumption; try reflexivity.
      split; [exact Hother|].
      intros H. exists task. split; [reflexivity|]. apply Hvalid, H.
    + destruct (Htail datetime_validates task_id
                  (Tasks.apply_task_update task_data) p task
                  (Task * option Z)%type (fun r _ => (r, None)) false)
        as (Hother & Hvalid); try assumption; try reflexivity.
      split; [exact Hother|].
      intros H. exists task. split; [reflexivity|]. apply Hvalid, H.
Qed.

(** A refused update writes nothing; alice's own update of t1, which has
    no [updated_at], is written and then fails. *)
Lemma refused_mutation_writes_nothing_witness :
  snd (Tasks.create_task "t9" "2024-03-01" "p1" Sample.new_task "alice" Sample.db1)
  = Sample.db1
  /\ snd (Tasks.update_task_status Sample.datetime_validates "p1" "t2" COMPLETED
            "alice" Sample.db1)
     = Sample.db1
  /\ fst (Tasks.update_task_status Sample.datetime_validates "p1" "t1" COMPLETED
            "alice" Sample.db1)
     = Raise ValidationError
  /\ find (fun t => String.eqb (t_id t) "t1")
       (tasks (snd (Tasks.update_task_status Sample.datetime_validates "p1" "t1"
                      COMPLETED "alice" Sample.db1)))
     = Some (Sample.task "t1" (Some "alice") "completed" None).
Proof.
  destruct (refused_mutation_writes_nothing Sample.db1 "p1" "alice"
              InsufficientPermissions) as (Hcreate & _ & _ & Hstatus).
  destruct Hstatus as (Hs & _); [reflexivity|].
  destruct (Hs Sample.datetime_validates "t2" COMPLETED) as (Hrefused & _).
  destruct (Hs Sample.datetime_validates "t1" COMPLETED) as (_ & Hwritten).
  assert (Hfail : fst (Tasks.update_task_status Sample.datetime_validates "p1"
                         "t1" COMPLETED "alice" Sample.db1)
                  = Raise ValidationError) by (vm_compute; reflexivity).
  split; [apply Hcreate; reflexivity|].
  split; [apply Hrefused; [reflexivity|discriminate]|].
  split; [exact Hfail|].
  destruct (Hwritten Hfail) as (task & Htask & _ & Hfind).
  rewrite Hfind. injection Htask as <-. reflexivity.
Defined.

(** ** routes/roles.py *)

(** X15: the membership mutations of roles.py are reserved to the project
    owner: for any other caller, a manager included (whose role holds
    ADD_MEMBER in the permission table), adding, re-roling and removing a
    member raise InsufficientPermissions and write nothing.  The table is
    not consulted by these routes. *)
Theorem membership_mutations_are_owner_only :
  forall db project_id project current_user,
    find (fun p => String.eqb (p_id p) project_id) (projects db) = Some project ->
    current_user <> p_owner_id project ->
    forall username member_data new_id stamp,
      Roles.add_team_member new_id stamp project_id member_data current_user db
      = (Raise InsufficientPermissions, db)
      /\ Roles.update_member_role project_id username member_data current_user db
         = (Raise InsufficientPermissions, db)
      /\ Roles.remove_team_member project_id username current_user db
         = (Raise InsufficientPermissions, db).
Proof.
  intros db project_id project current_user Hp Hne username member_data new_id stamp.
  assert (Hneb : String.eqb (p_owner_id project) current_user = false).
  { apply String.eqb_neq. congruence. }
  rewrite (add_team_member_run _ _ _ _ _ _ project Hp),
    (update_member_role_run _ _ _ _ _ project Hp),
    (remove_team_member_run _ _ _ _ project Hp), Hneb.
  repeat split.
Qed.

Lemma membership_mutations_are_owner_only_witness :
  fst (get_user_role_in_project "mark" "p1" Sample.db1) = Ok (Some "manager")
  /\ check_permission (Some "manager") ADD_MEMBER = true
  /\ Roles.add_team_member "m9" "2024-03-01" "p1" (mkTeamMemberAdd "zoe" "viewer")
       "mark" Sample.db1 = (Raise InsufficientPermissions, Sample.db1).
Proof.
  split; [reflexivity|]. split; [reflexivity|].
  assert (Hne : "mark" <> p_owner_id (Sample.project_p1 0)) by discriminate.
  destruct (membership_mutations_are_owner_only Sample.db1 "p1"
              (Sample.project_p1 0) "mark" eq_refl Hne "zoe"
              (mkTeamMemberAdd "zoe" "viewer") "m9" "2024-03-01") as (Hadd & _).
  exact Hadd.
Defined.

Lemma add_team_member_ok_inv new_id stamp project_id member_data current_user
    db row db' :
  Roles.add_team_member new_id stamp project_id member_data current_user db
  = (Ok row, db') ->
  exists project,
    find (fun p => String.eqb (p_id p) project_id) (projects db) = Some project
    /\ current_user = p_owner_id project
    /\ role_is_valid (tma_role member_data)
    /\ tma_username member_data <> p_owner_id project
    /\ match filter (member_matches project_id (tma_username member_data))
               (team_members db) with
       | existing :: _ =>
           team_members db'
           = update_rows tm_id (tm_id existing) (Roles.set_role (tma_role member_data))
               (team_members db)
       | [] =>
           team_members db'
           = (team_members db
                ++ [mkTeamMember new_id project_id (tma_username member_data)
                      (tma_role member_data) stamp])%list
       end
    /\ projects db' = projects db /\ tasks db' = tasks db.
Proof.
  intros H.
  destruct (find (fun p => String.eqb (p_id p) project_id) (projects db))
    as [p|] eqn:Hp.
  2:{ unfold Roles.add_team_member, bind in H.
      rewrite verify_project_exists_run, Hp in H. discriminate H. }
  rewrite (add_team_member_run _ _ _ _ _ _ p Hp) in H.
  destruct (String.eqb (p_owner_id p) current_user) eqn:Hown; [|discriminate H].
  cbn [negb] in H.
  destruct (existsb _ _) eqn:Hvalid; [|discriminate H]. cbn [negb] in H.
  destruct (String.eqb (tma_username member_data) (p_owner_id p)) eqn:Hu;
    [discriminate H|].
  exists p. split; [reflexivity|].
  split; [symmetry; apply String.eqb_eq, Hown|].
  split; [exact Hvalid|]. split; [apply String.eqb_neq, Hu|].
  destruct (filter (member_matches project_id (tma_username member_data))
              (team_members db)) as [|m l] eqn:Hf.
  - unfold insert_member, bind, get_db, put_db, ret in H.
    injection H as _ <-. repeat split.
  - destruct (filter_head_find _ tm_id _ _ _ Hf) as [first Hfirst].
    rewrite (update_member_row_run _ _ _ first) in H by (try reflexivity; exact Hfirst).
    injection H as _ <-. repeat split.
Qed.

Lemma filter_app_single {A} (f : A -> bool) l x :
  filter f (l ++ [x]) = (filter f l ++ if f x then [x] else [])%list.
Proof. rewrite filter_app. reflexivity. Qed.

(** X16: adding a member and resolving their role compose: after a
    successful [add_team_member], by insertion or by update of an existing
    row, [get_user_role_in_project] gives the added user the role of the
    request and [is_project_member] holds for them. *)
Theorem added_member_resolves_to_role :
  forall db project_id member_data current_user new_id stamp row db',
    Roles.add_team_member new_id stamp project_id member_data current_user db
    = (Ok row, db') ->
    get_user_role_in_project (tma_username member_data) project_id db'
    = (Ok (Some (tma_role member_data)), db')
    /\ is_project_member (tma_username member_data) project_id db' = (Ok true, db').
Proof.
  intros db project_id member_data current_user new_id stamp row db' H.
  apply add_team_member_ok_inv in H.
  destruct H as (p & Hp & _ & _ & Hne & Hteam & Hproj & _).
  assert (Hrole : resolved_role (tma_username member_data) project_id db'
                  = Some (tma_role member_data)).
  { unfold resolved_role. rewrite Hproj, Hp.
    replace (String.eqb (p_owner_id p) (tma_username member_data)) with false
      by (symmetry; apply String.eqb_neq; congruence).
    destruct (filter (member_matches project_id (tma_username member_data))
                (team_members db)) as [|m l] eqn:Hf.
    - rewrite Hteam, filter_app_single, Hf. cbn [app].
      unfold member_matches at 1. cbn [tm_project_id tm_username].
      rewrite !String.eqb_refl. reflexivity.
    - rewrite Hteam, filter_matches_update_rows, Hf. cbn.
      rewrite String.eqb_refl. reflexivity. }
  rewrite get_user_role_in_project_run, is_project_member_run, Hrole.
  split; reflexivity.
Qed.

Lemma added_member_resolves_to_role_witness :
  let db' := snd (Roles.add_team_member "m9" "2024-03-01" "p1"
                    (mkTeamMemberAdd "zoe" "developer") "olivia" Sample.db1) in
  fst (get_user_role_in_project "zoe" "p1" Sample.db1) = Ok None
  /\ get_user_role_in_project "zoe" "p1" db' = (Ok (Some "developer"), db').
Proof.
  cbv zeta. split; [reflexivity|].
  apply (added_member_resolves_to_role Sample.db1 "p1"
           (mkTeamMemberAdd "zoe" "developer") "olivia" "m9" "2024-03-01"
           (mkTeamMember "m9" "p1" "zoe" "developer" "2024-03-01")).
  reflexivity.
Defined.

Lemma NoDup_map_In_eq {A B} (f : A -> B) l x y :
  NoDup (map f l) -> In x l -> In y l -> f x = f y -> x = y.
Proof.
  induction l as [|a l IH]; cbn; intros Hnd Hx Hy Hf; [destruct Hx|].
  inversion Hnd as [|? ? Hnotin Hnd']; subst.
  destruct Hx as [-> | Hx], Hy as [-> | Hy].
  - reflexivity.
  - exfalso. apply Hnotin. rewrite Hf. apply in_map, Hy.
  - exfalso. apply Hnotin. rewrite <- Hf. apply in_map, Hx.
  - apply IH; assumption.
Qed.

(** X17: removing a member, when the membership table holds at most one row
    per (project, user): after a successful [remove_team_member] the user
    has no role in the project any more and is no longer a member, while the
    task table is exactly as before - the tasks assigned to them stay
    assigned to them. *)
Theorem removed_member_has_no_role :
  forall db project_id username current_user db',
    NoDup (map member_key (team_members db)) ->
    Roles.remove_team_member project_id username current_user db = (Ok tt, db') ->
    get_user_role_in_project username project_id db' = (Ok None, db')
    /\ is_project_member username project_id db' = (Ok false, db')
    /\ tasks db' = tasks db
    /\ projects db' = projects db.
Proof.
  intros db project_id username current_user db' Hnd H.
  destruct (find (fun p => String.eqb (p_id p) project_id) (projects db))
    as [p|] eqn:Hp.
  2:{ unfold Roles.remove_team_member, bind in H.
      rewrite verify_project_exists_run, Hp in H. discriminate H. }
  rewrite (remove_team_member_run _ _ _ _ p Hp) in H.
  destruct (negb _); [discriminate H|].
  destruct (String.eqb username (p_owner_id p)) eqn:Hu; [discriminate H|].
  destruct (filter (member_matches project_id username) (team_members db))
    as [|m l] eqn:Hf; [discriminate H|].
  injection H as <-.
  assert (Hm : In m (team_members db) /\ member_matches project_id username m = true).
  { apply filter_In. rewrite Hf. left. reflexivity. }
  assert (Hrole : resolved_role username project_id
                    (with_team_members
                       (filter (fun x => negb (String.eqb (tm_id x) (tm_id m)))
                          (team_members db)) db) = None).
  { unfold resolved_role. cbn [projects team_members with_team_members].
    rewrite Hp.
    replace (String.eqb (p_owner_id p) username) with false
      by (symmetry; rewrite String.eqb_sym; exact Hu).
    destruct (filter (member_matches project_id username)
                (filter (fun x => negb (String.eqb (tm_id x) (tm_id m)))
                   (team_members db))) as [|x xs] eqn:Hf2; [reflexivity|].
    exfalso.
    assert (Hx : In x (filter (member_matches project_id username)
                         (filter (fun x => negb (String.eqb (tm_id x) (tm_id m)))
                            (team_members db)))) by (rewrite Hf2; left; reflexivity).
    apply filter_In in Hx. destruct Hx as [Hx Hxm].
    apply filter_In in Hx. destruct Hx as [Hx Hxid].
    assert (Heq : x = m).
    { apply (NoDup_map_In_eq member_key (team_members db)); try assumption.
      - apply Hm.
      - destruct Hm as [_ Hmm]. unfold member_matches in *.
        apply andb_prop in Hxm, Hmm.
        destruct Hxm as [H1 H2], Hmm as [H3 H4].
        apply String.eqb_eq in H1, H2, H3, H4.
        unfold member_key. congruence. }
    subst x. rewrite String.eqb_refl in Hxid. discriminate Hxid. }
  rewrite get_user_role_in_project_run, is_project_member_run, Hrole.
  repeat split.
Qed.

Lemma removed_member_has_no_role_witness :
  let db' := snd (Roles.remove_team_member "p1" "alice" "olivia" Sample.db1) in
  fst (is_project_member "alice" "p1" Sample.db1) = Ok true
  /\ is_project_member "alice" "p1" db' = (Ok false, db')
  /\ map t_assigned_to (tasks db') = [Some "alice"; None].
Proof.
  cbv zeta.
  destruct (removed_member_has_no_role Sample.db1 "p1" "alice" "olivia"
              (snd (Roles.remove_team_member "p1" "alice" "olivia" Sample.db1)))
    as (_ & Hmember & Htasks & _).
  - repeat constructor; cbn; intuition discriminate.
  - reflexivity.
  - split; [reflexivity|]. split; [exact Hmember|]. rewrite Htasks. reflexivity.
Defined.

(** X18: re-roling and removing act only on an existing row: for a username
    that is not the owner's and has no membership row in the project, the
    owner's [update_member_role] and [remove_team_member] raise
    TeamMemberNotFound and write nothing (only [add_team_member] inserts),
    and [get_team_member] and [get_member_permissions] report the same
    error to any member who asks. *)
Theorem unknown_member_is_not_found :
  forall db project_id project username,
    find (fun p => String.eqb (p_id p) project_id) (projects db) = Some project ->
    fst (is_project_member username project_id db) = Ok false ->
    let owner := p_owner_id project in
    (forall member_data,
        role_is_valid (tma_role member_data) ->
        Roles.update_member_role project_id username member_data owner db
        = (Raise TeamMemberNotFound, db))
    /\ Roles.remove_team_member project_id username owner db
       = (Raise TeamMemberNotFound, db)
    /\ (forall current_user,
           fst (is_project_member current_user project_id db) = Ok true ->
           Roles.get_team_member project_id username current_user db
           = (Raise TeamMemberNotFound, db)
           /\ Roles.get_member_permissions project_id username current_user db
              = (Raise TeamMemberNotFound, db)).
Proof.
  intros db project_id project username Hp Hmem owner.
  rewrite is_project_member_run in Hmem. cbn in Hmem. injection Hmem as Hmem.
  assert (Hrole : resolved_role username project_id db = None).
  { destruct (resolved_role username project_id db); [discriminate Hmem|reflexivity]. }
  assert (Hfacts : String.eqb username (p_owner_id project) = false
                   /\ filter (member_matches project_id username) (team_members db)
                      = []).
  { unfold resolved_role in Hrole. rewrite Hp in Hrole.
    destruct (String.eqb (p_owner_id project) username) eqn:E; [discriminate Hrole|].
    rewrite String.eqb_sym. split; [exact E|].
    destruct (filter _ (team_members db)); [reflexivity|discriminate Hrole]. }
  destruct Hfacts as [Hu Hf].
  split; [|split].
  - intros member_data Hvalid.
    rewrite (update_member_role_run _ _ _ _ _ project Hp).
    unfold owner. rewrite String.eqb_refl. unfold role_is_valid in Hvalid.
    rewrite Hvalid, Hu, Hf. reflexivity.
  - rewrite (remove_team_member_run _ _ _ _ project Hp).
    unfold owner. rewrite String.eqb_refl, Hu, Hf. reflexivity.
  - intros current_user Hcur.
    rewrite is_project_member_run in Hcur. cbn in Hcur. injection Hcur as Hcur.
    rewrite get_team_member_run, get_member_permissions_run, Hp, Hcur, Hf.
    cbv zeta. rewrite Hrole. split; reflexivity.
Qed.

Lemma unknown_member_is_not_found_witness :
  Roles.update_member_role "p1" "zoe" (mkTeamMemberAdd "zoe" "manager") "olivia"
    Sample.db1 = (Raise TeamMemberNotFound, Sample.db1)
  /\ Roles.remove_team_member "p1" "zoe" "olivia" Sample.db1
     = (Raise TeamMemberNotFound, Sample.db1).
Proof.
  destruct (unknown_member_is_not_found Sample.db1 "p1" (Sample.project_p1 0) "zoe"
              eq_refl eq_refl) as (Hupdate & Hremove & _).
  split; [apply Hupdate; reflexivity|exact Hremove].
Defined.

(** ** routes/projects.py *)

(** X19: the add-member route of routes/projects.py rejects a duplicate
    instead of updating it, and has no test on the owner's username: called
    by the owner for any username without a row in the project - the
    owner's own username included - it appends a membership row for it;
    for a username that has a row it raises InvalidData and writes
    nothing. *)
Theorem older_add_member_route_behaviour :
  forall db project_id project username role new_id stamp,
    find (fun p => String.eqb (p_id p) project_id) (projects db) = Some project ->
    let owner := p_owner_id project in
    let add :=
      Projects.add_team_member new_id stamp project_id
        (mkTeamMemberAdd username role) owner db in
    let row := mkTeamMember new_id project_id username role stamp in
    (filter (member_matches project_id username) (team_members db) = [] ->
     add = (Ok row, with_team_members (team_members db ++ [row]) db))
    /\ (filter (member_matches project_id username) (team_members db) <> [] ->
        add = (Raise InvalidData, db))
    /\ (filter (member_matches project_id owner) (team_members db) = [] ->
        exists db',
          Projects.add_team_member new_id stamp project_id
            (mkTeamMemberAdd owner role) owner db
          = (Ok (mkTeamMember new_id project_id owner role stamp), db')
          /\ existsb (member_matches project_id owner) (team_members db') = true).
Proof.
  intros db project_id project username role new_id stamp Hp owner add row.
  unfold add. rewrite !legacy_add_team_member_run, Hp.
  fold owner. rewrite String.eqb_refl. cbn [negb tma_username tma_role].
  split; [|split].
  - intros ->. reflexivity.
  - intros Hne. destruct (filter _ (team_members db)); [congruence|reflexivity].
  - intros ->. eexists. split; [reflexivity|].
    cbn [team_members with_team_members]. rewrite existsb_app. cbn.
    unfold member_matches. cbn. rewrite !String.eqb_refl.
    cbn. apply orb_true_r.
Qed.

Lemma older_add_member_route_behaviour_witness :
  let out := Projects.add_team_member "m9" "2024-03-01" "p1"
               (mkTeamMemberAdd "olivia" "viewer") "olivia" Sample.db1 in
  (exists row, fst out = Ok row)
  /\ map tm_username (team_members (snd out)) = ["mark"; "dev1"; "alice"; "olivia"]
  /\ Projects.add_team_member "m9" "2024-03-01" "p1"
       (mkTeamMemberAdd "dev1" "manager") "olivia" Sample.db1
     = (Raise InvalidData, Sample.db1).
Proof.
  cbv zeta.
  destruct (older_add_member_route_behaviour Sample.db1 "p1" (Sample.project_p1 0)
              "olivia" "viewer" "m9" "2024-03-01" eq_refl) as (Hnew & _ & _).
  destruct (older_add_member_route_behaviour Sample.db1 "p1" (Sample.project_p1 0)
              "dev1" "manager" "m9" "2024-03-01" eq_refl) as (_ & Hdup & _).
  cbv zeta in Hnew, Hdup.
  change (p_owner_id (Sample.project_p1 0)) with "olivia" in Hnew, Hdup.
  rewrite (Hnew eq_refl).
  split; [eexists; reflexivity|]. split; [reflexivity|].
  apply Hdup. discriminate.
Defined.

(** X20: the remove-member route of routes/projects.py takes a membership
    row id and checks only that the caller owns the project of the route:
    called by that owner it deletes every membership row with the given id,
    whatever project the row belongs to, and it succeeds also when no row
    has that id. *)
Theorem older_remove_member_route_ignores_project :
  forall db project_id project member_id,
    find (fun p => String.eqb (p_id p) project_id) (projects db) = Some project ->
    let out := Projects.remove_team_member project_id member_id
                 (p_owner_id project) db in
    fst out = Ok tt
    /\ team_members (snd out)
       = filter (fun m => negb (String.eqb (tm_id m) member_id)) (team_members db)
    /\ (forall m, tm_id m = member_id -> ~ In m (team_members (snd out)))
    /\ projects (snd out) = projects db /\ tasks (snd out) = tasks db.
Proof.
  intros db project_id project member_id Hp out. unfold out.
  rewrite legacy_remove_team_member_run, Hp, String.eqb_refl.
  cbn [negb fst snd team_members with_team_members projects tasks].
  repeat split.
  intros m Hid Hin. apply filter_In in Hin. destruct Hin as [_ Hneg].
  rewrite Hid, String.eqb_refl in Hneg. discriminate Hneg.
Qed.

(** olivia owns p1 only; through p1 she removes peter, a member of paula's
    project p2. *)
Lemma older_remove_member_route_ignores_project_witness :
  let out := Projects.remove_team_member "p1" "m7" "olivia"
               Sample.db_two_projects in
  fst (is_project_member "peter" "p2" Sample.db_two_projects) = Ok true
  /\ fst out = Ok tt
  /\ fst (is_project_member "peter" "p2" (snd out)) = Ok false.
Proof.
  cbv zeta.
  destruct (older_remove_member_route_ignores_project Sample.db_two_projects "p1"
              (Sample.project_p1 0) "m7" eq_refl) as (Hok & Hteam & _).
  cbv zeta in Hok, Hteam.
  change (p_owner_id (Sample.project_p1 0)) with "olivia" in Hok, Hteam.
  split; [reflexivity|]. split; [exact Hok|].
  rewrite is_project_member_run. unfold resolved_role. rewrite Hteam. reflexivity.
Defined.

(** X21: [update_project] is reserved to the owner: any other caller, a
    manager included (whose role holds EDIT_PROJECT in the permission
    table), gets UnauthorizedAccess; the owner's empty payload is refused
    with InvalidData; neither writes.  The owner's update lays the payload
    over the project row, never changes its id or owner, and touches no
    task and no membership row. *)
Theorem update_project_is_owner_only :
  forall db project_id project current_user project_data,
    find (fun p => String.eqb (p_id p) project_id) (projects db) = Some project ->
    let out := Projects.update_project project_id project_data current_user db in
    (current_user <> p_owner_id project -> out = (Raise UnauthorizedAccess, db))
    /\ (current_user = p_owner_id project ->
        (Projects.update_is_empty project_data = true ->
         out = (Raise InvalidData, db))
        /\ (Projects.update_is_empty project_data = false ->
            exists updated,
              fst out = Ok updated
              /\ p_id updated = project_id
              /\ p_owner_id updated = p_owner_id project
              /\ find (fun p => String.eqb (p_id p) project_id) (projects (snd out))
                 = Some updated
              /\ tasks (snd out) = tasks db
              /\ team_members (snd out) = team_members db)).
Proof.
  intros db project_id project current_user project_data Hp out. unfold out.
  rewrite update_project_full_run, Hp.
  split.
  - intros Hne.
    replace (String.eqb (p_owner_id project) current_user) with false
      by (symmetry; apply String.eqb_neq; congruence).
    reflexivity.
  - intros ->. rewrite String.eqb_refl. cbn [negb]. split.
    + intros ->. reflexivity.
    + intros ->. eexists. cbn [fst snd].
      split; [reflexivity|].
      split.
      { cbn. apply find_some in Hp. destruct Hp as [_ H].
        apply String.eqb_eq, H. }
      split; [reflexivity|].
      split; [|split; reflexivity].
      cbn [projects with_projects].
      apply find_update_rows; [reflexivity|exact Hp].
Qed.

Lemma update_project_is_owner_only_witness :
  check_permission (Some "manager") EDIT_PROJECT = true
  /\ Projects.update_project "p1" (mkProjectUpdate (Some "New name") None None None)
       "mark" Sample.db1 = (Raise UnauthorizedAccess, Sample.db1)
  /\ Projects.update_project "p1" (mkProjectUpdate None None None None)
       "olivia" Sample.db1 = (Raise InvalidData, Sample.db1).
Proof.
  destruct (update_project_is_owner_only Sample.db1 "p1" (Sample.project_p1 0)
              "mark" (mkProjectUpdate (Some "New name") None None None) eq_refl)
    as (Hother & _).
  destruct (update_project_is_owner_only Sample.db1 "p1" (Sample.project_p1 0)
              "olivia" (mkProjectUpdate None None None None) eq_refl)
    as (_ & Howner).
  split; [reflexivity|].
  split; [apply Hother; discriminate|].
  destruct (Howner eq_refl) as (Hempty & _). apply Hempty. reflexivity.
Defined.

Lemma existsb_username_filter project_id username l :
  existsb (fun tm => String.eqb (tm_username tm) username)
    (filter (fun m => String.eqb (tm_project_id m) project_id) l)
  = match filter (member_matches project_id username) l with
    | _ :: _ => true
    | [] => false
    end.
Proof.
  induction l as [|m l IH]; [reflexivity|].
  cbn [filter]. unfold member_matches at 1.
  destruct (String.eqb (tm_project_id m) project_id); cbn [andb existsb].
  - destruct (String.eqb (tm_username m) username); [reflexivity|exact IH].
  - exact IH.
Qed.

(** X22: the two access checks agree: [check_project_access] of
    routes/projects.py (without the owner requirement) and
    [verify_project_access] of routes/tasks.py accept the same callers on
    the same store and raise the same error for the others:
    ProjectNotFound for a missing project, UnauthorizedAccess for a user
    who neither owns it nor is listed in it. *)
Theorem access_checks_agree :
  forall db project_id username,
    match Projects.check_project_access project_id username false db,
          Tasks.verify_project_access project_id username db with
    | (Ok p, db1), (Ok _, db2) =>
        find (fun p => String.eqb (p_id p) project_id) (projects db) = Some p
        /\ db1 = db /\ db2 = db
    | (Raise e1, db1), (Raise e2, db2) => e1 = e2 /\ db1 = db /\ db2 = db
    | _, _ => False
    end.
Proof.
  intros db project_id username.
  rewrite check_project_access_run, verify_project_access_run.
  unfold resolved_role.
  destruct (find _ (projects db)) as [p|]; [|repeat split].
  cbv zeta. cbn [andb].
  destruct (String.eqb (p_owner_id p) username); [repeat split|].
  rewrite existsb_username_filter.
  destruct (filter (member_matches project_id username) (team_members db));
    repeat split.
Qed.

(** ** The aggregations of analytics.py, helpers.py and the stats route *)

Lemma count_if_cons {A : Type} (cond : A -> bool) x l :
  count_if cond (x :: l) = (if cond x then 1 else 0) + count_if cond l.
Proof.
  unfold count_if. cbn [filter]. destruct (cond x); cbn [List.length]; lia.
Qed.

(** The counting loop adds, to the entry of each key, the number of tasks
    whose field has that key. *)
Lemma count_into_spec keys field tasks :
  forall counts,
    (forall kv, In kv counts -> In (fst kv) keys) ->
    Projects.count_into keys field tasks counts
    = map (fun kv =>
             (fst kv,
              snd kv + count_if (fun t => opt_eqb (field t) (fst kv)) tasks))
        counts.
Proof.
  induction tasks as [|t tasks IH]; intros counts Hkeys.
  - cbn [Projects.count_into]. rewrite <- (map_id counts) at 1.
    apply map_ext. intros [k v]. cbn. f_equal. lia.
  - cbn [Projects.count_into].
    destruct (existsb (opt_eqb (field t)) keys) eqn:E.
    + rewrite IH.
      * rewrite map_map. apply map_ext. intros kv.
        rewrite count_if_cons.
        destruct (opt_eqb (field t) (fst kv)); cbn [fst snd]; f_equal; lia.
      * intros kv Hin. apply in_map_iff in Hin. destruct Hin as (kv0 & <- & Hin0).
        destruct (opt_eqb (field t) (fst kv0)); cbn [fst]; apply Hkeys, Hin0.
    + rewrite IH by exact Hkeys. apply map_ext_in. intros kv Hin.
      rewrite count_if_cons.
      destruct (opt_eqb (field t) (fst kv)) eqn:E2; [|reflexivity].
      assert (Hex : existsb (opt_eqb (field t)) keys = true).
      { apply existsb_exists. exists (fst kv). split; [apply Hkeys, Hin|exact E2]. }
      congruence.
Qed.

Lemma get_project_stats_run project_id current_user db :
  Projects.get_project_stats project_id current_user db
  = match Projects.check_project_access project_id current_user false db with
    | (Ok project, _) =>
        let tasks := project_tasks project_id db in
        let count field k := (k, count_if (fun t => opt_eqb (field t) k) tasks) in
        (Ok (Projects.mkProjectStats (len tasks)
               (map (count t_status) ["todo"; "in_progress"; "completed"])
               (map (count t_priority) ["low"; "medium"; "high"])
               (len (filter (fun m => String.eqb (tm_project_id m) project_id)
                       (team_members db)))
               (p_progress project)), db)
    | (Raise e, _) => (Raise e, db)
    end.
Proof.
  unfold Projects.get_project_stats. unfold bind at 1.
  rewrite check_project_access_run.
  destruct (match find _ (projects db) with Some _ => _ | None => _ end)
    as [project|e]; [|reflexivity].
  unfold select_tasks_where_project, select_members_where_project,
    bind, get_db, ret.
  cbv zeta. fold (project_tasks project_id db).
  rewrite !count_into_spec.
  - reflexivity.
  - intros kv Hin. cbn in Hin. cbn. intuition (subst; cbn; auto).
  - intros kv Hin. cbn in Hin. cbn. intuition (subst; cbn; auto).
Qed.

(** X23: what the stats route reports is what the analytics helpers
    compute on the same store: its per-status and per-priority
    dictionaries carry the counts of [calculate_task_completion_rate] and
    [get_tasks_by_priority], its total is theirs, its member count is one
    below [get_project_member_count] of helpers.py (which adds the owner),
    and its progress is the value stored on the project row, not a
    recomputed one.  The route writes nothing. *)
Theorem project_stats_agree_with_analytics :
  forall db project_id current_user stats db',
    Projects.get_project_stats project_id current_user db = (Ok stats, db') ->
    exists rate prio members,
      calculate_task_completion_rate project_id db = (Ok rate, db)
      /\ get_tasks_by_priority project_id db = (Ok prio, db)
      /\ Helpers.get_project_member_count project_id db = (Ok members, db)
      /\ db' = db
      /\ Projects.ps_total_tasks stats = total_tasks rate
      /\ Projects.ps_tasks_by_status stats
         = [("todo", todo_tasks rate); ("in_progress", in_progress_tasks rate);
            ("completed", completed_tasks rate)]
      /\ Projects.ps_tasks_by_priority stats
         = [("low", pc_low prio); ("medium", pc_medium prio); ("high", pc_high prio)]
      /\ Projects.ps_team_member_count stats + 1 = members
      /\ stored_progress project_id db = Some (Projects.ps_progress stats).
Proof.
  intros db project_id current_user stats db' Hrun.
  rewrite get_project_stats_run, check_project_access_run in Hrun.
  unfold stored_progress.
  destruct (find (fun p => String.eqb (p_id p) project_id) (projects db))
    as [p|]; [|discriminate Hrun].
  assert (Hstats :
    (Ok stats, db')
    = (Ok (Projects.mkProjectStats (len (project_tasks project_id db))
             (map (fun k => (k, count_if (fun t => opt_eqb (t_status t) k)
                                  (project_tasks project_id db)))
                ["todo"; "in_progress"; "completed"])
             (map (fun k => (k, count_if (fun t => opt_eqb (t_priority t) k)
                                  (project_tasks project_id db)))
                ["low"; "medium"; "high"])
             (len (filter (fun m => String.eqb (tm_project_id m) project_id)
                     (team_members db)))
             (p_progress p)), db)).
  { rewrite <- Hrun. cbv zeta. cbn [andb].
    destruct (String.eqb (p_owner_id p) current_user); [reflexivity|].
    destruct (existsb _ _); [reflexivity|].
    cbv zeta in Hrun. cbn [andb] in Hrun.
    destruct (String.eqb (p_owner_id p) current_user); discriminate Hrun. }
  clear Hrun. injection Hstats as -> ->.
  do 3 eexists.
  unfold calculate_task_completion_rate, get_tasks_by_priority,
    Helpers.get_project_member_count, select_tasks_where_project,
    select_members_where_project, bind, get_db, ret.
  fold (project_tasks project_id db).
  repeat (split; [reflexivity|]). reflexivity.
Qed.

Lemma project_stats_agree_with_analytics_witness :
  exists stats,
    Projects.get_project_stats "p2" "peter" Sample.db_two_projects
    = (Ok stats, Sample.db_two_projects)
    /\ Projects.ps_tasks_by_status stats = [("todo", 0); ("in_progress", 1); ("completed", 0)]
    /\ fst (Helpers.get_project_member_count "p2" Sample.db_two_projects)
       = Ok (Projects.ps_team_member_count stats + 1).
Proof.
  eexists. split; [vm_compute; reflexivity|].
  match goal with
  | |- Projects.ps_tasks_by_status ?s = _ /\ _ =>
      destruct (project_stats_agree_with_analytics Sample.db_two_projects
                  "p2" "peter" s Sample.db_two_projects eq_refl)
        as (rate & prio & members & Hrate & _ & Hcount & _ & _ & Hstatus & _ & Hteam & _)
  end.
  split.
  - rewrite Hstatus. vm_compute in Hrate. injection Hrate as <-. reflexivity.
  - rewrite Hcount, Hteam. reflexivity.
Defined.

Lemma len_cons {A : Type} (x : A) l : len (x :: l) = 1 + len l.
Proof. unfold len. cbn [List.length]. lia. Qed.

Lemma count_if_nonneg {A : Type} (cond : A -> bool) l : 0 <= count_if cond l.
Proof. unfold count_if. lia. Qed.

Lemma count_if_zero {A : Type} (cond : A -> bool) l :
  count_if cond l = 0 <-> forall x, In x l -> cond x = false.
Proof.
  induction l as [|x l IH].
  - split; [intros _ y []|reflexivity].
  - rewrite count_if_cons. pose proof (count_if_nonneg cond l) as Hpos. split.
    + intros Hsum y [Heq|Hin].
      * rewrite <- Heq. destruct (cond x); [lia|reflexivity].
      * apply IH; [|exact Hin]. destruct (cond x); lia.
    + intros Hall. rewrite (Hall x (or_introl eq_refl)).
      apply IH. intros y Hy. apply Hall. right. exact Hy.
Qed.

(** Three keys that differ pairwise split a list into the rows of each key
    and the rows of none. *)
Lemma opt_eqb_eq (o : option string) (s : string) :
  opt_eqb o s = true <-> o = Some s.
Proof.
  destruct o as [x|]; cbn.
  - rewrite String.eqb_eq. split; congruence.
  - split; discriminate.
Qed.

Lemma count_by_three_keys (field : Task -> option string) (a b c : string) l :
  a <> b -> a <> c -> b <> c ->
  count_if (fun t => opt_eqb (field t) a) l
  + count_if (fun t => opt_eqb (field t) b) l
  + count_if (fun t => opt_eqb (field t) c) l
  + count_if (fun t => negb (opt_eqb (field t) a || opt_eqb (field t) b
                             || opt_eqb (field t) c)) l
  = len l.
Proof.
  intros Hab Hac Hbc. induction l as [|t l IH]; [reflexivity|].
  rewrite !count_if_cons, len_cons, <- IH.
  destruct (opt_eqb (field t) a) eqn:Ea;
    destruct (opt_eqb (field t) b) eqn:Eb;
    destruct (opt_eqb (field t) c) eqn:Ec;
    cbn [orb negb]; try lia;
    rewrite ?opt_eqb_eq in *; congruence.
Qed.

(** X24: the status and priority counters split the tasks of a project:
    the completed, in-progress and todo counts of
    [calculate_task_completion_rate] are non-negative and add up to at most
    the total, and to exactly the total if and only if every task of the
    project carries one of the three statuses (a row with any other status
    is in the total and in no counter); the same bound holds for the high,
    medium and low counts of [get_tasks_by_priority].  Neither function
    raises or writes. *)
Theorem status_and_priority_counts_partition :
  forall db project_id,
    exists rate prio,
      calculate_task_completion_rate project_id db = (Ok rate, db)
      /\ get_tasks_by_priority project_id db = (Ok prio, db)
      /\ 0 <= completed_tasks rate /\ 0 <= in_progress_tasks rate
      /\ 0 <= todo_tasks rate
      /\ completed_tasks rate + in_progress_tasks rate + todo_tasks rate
         <= total_tasks rate
      /\ (completed_tasks rate + in_progress_tasks rate + todo_tasks rate
          = total_tasks rate
          <-> forall t, In t (project_tasks project_id db) ->
                t_status t = Some "completed" \/ t_status t = Some "in_progress"
                \/ t_status t = Some "todo")
      /\ 0 <= pc_high prio /\ 0 <= pc_medium prio /\ 0 <= pc_low prio
      /\ pc_high prio + pc_medium prio + pc_low prio <= total_tasks rate.
Proof.
  intros db project_id. do 2 eexists.
  unfold calculate_task_completion_rate, get_tasks_by_priority,
    select_tasks_where_project, bind, get_db, ret.
  fold (project_tasks project_id db).
  split; [reflexivity|]. split; [reflexivity|].
  cbn [total_tasks completed_tasks in_progress_tasks todo_tasks
       pc_high pc_medium pc_low].
  unfold is_completed, has_priority.
  set (tasks := project_tasks project_id db).
  pose proof (count_by_three_keys t_status "completed" "in_progress" "todo" tasks)
    as Hstatus.
  pose proof (count_by_three_keys t_priority "high" "medium" "low" tasks)
    as Hprio.
  specialize (Hstatus ltac:(discriminate) ltac:(discriminate) ltac:(discriminate)).
  specialize (Hprio ltac:(discriminate) ltac:(discriminate) ltac:(discriminate)).
  set (other := fun t : Task =>
         negb (opt_eqb (t_status t) "completed"
               || opt_eqb (t_status t) "in_progress"
               || opt_eqb (t_status t) "todo")) in Hstatus.
  pose proof (count_if_nonneg other tasks) as Hother.
  match type of Hprio with
  | _ + count_if ?f _ = _ => pose proof (count_if_nonneg f tasks) as Hother'
  end.
  repeat (split; [first [apply count_if_nonneg | lia]|]).
  split; [|repeat (split; [apply count_if_nonneg|]); lia].
  split.
  - intros Hsum t Hin.
    assert (Hzero : count_if other tasks = 0) by lia.
    pose proof (proj1 (count_if_zero other tasks) Hzero t Hin) as Ht.
    unfold other in Ht. apply negb_false_iff in Ht.
    apply orb_prop in Ht. destruct Ht as [Ht|Ht];
      [apply orb_prop in Ht; destruct Ht as [Ht|Ht]|];
      apply opt_eqb_eq in Ht; auto.
  - intros Hall.
    assert (Hzero : count_if other tasks = 0).
    { apply count_if_zero. intros t Hin. unfold other.
      destruct (Hall t Hin) as [H|[H|H]]; rewrite H; reflexivity. }
    lia.
Qed.

(** X25: [get_team_productivity] returns one row per name, the owner of
    the project first (when the project exists and its owner id is not
    empty), then the username of every membership row of the project in
    table order - so an owner who also has a membership row is listed
    twice, and a project that no longer exists still lists its membership
    rows.  Each row counts the tasks of the project assigned to its user,
    with 0 <= completed <= assigned, and carries the clock reading.  The
    function never raises, whatever the timestamps look like, and writes
    nothing. *)
Theorem team_productivity_lists_owner_then_members :
  forall fromisoformat round now_iso db project_id,
    exists series,
      get_team_productivity fromisoformat round now_iso project_id db
      = (Ok series, db)
      /\ map pr_username series
         = ((match find (fun p => String.eqb (p_id p) project_id) (projects db) with
             | Some p => if truthy (p_owner_id p) then [p_owner_id p] else []
             | None => []
             end)
            ++ map tm_username
                 (filter (fun m => String.eqb (tm_project_id m) project_id)
                    (team_members db)))%list
      /\ Forall (fun p =>
                   pr_tasks_assigned p
                   = len (filter (fun t => (String.eqb (t_project_id t) project_id
                                            && opt_eqb (t_assigned_to t) (pr_username p))%bool)
                            (tasks db))
                   /\ 0 <= pr_tasks_completed p <= pr_tasks_assigned p
                   /\ pr_last_active p = now_iso) series.
Proof.
  intros fromisoformat round now_iso db project_id.
  destruct (get_team_productivity_shape fromisoformat round now_iso project_id db)
    as (series & Hrun & Hnames & Hall).
  exists series. split; [exact Hrun|]. split; [exact Hnames|].
  revert Hall. apply Forall_impl.
  intros p (Ha & Hc & Hlast). split; [exact Ha|]. split; [|exact Hlast].
  rewrite Hc, Ha. apply count_if_le_len.
Qed.

Lemma member_projects_of_run memberships db :
  member_projects_of memberships db
  = (Ok (flat_map
           (fun m =>
              match find (fun p => String.eqb (p_id p) (tm_project_id m))
                      (projects db) with
              | Some p => [p]
              | None => []
              end) memberships), db).
Proof.
  induction memberships as [|m ms IH]; [reflexivity|].
  cbn [member_projects_of flat_map].
  unfold select_project_by_id, bind, get_db, ret. rewrite IH.
  destruct (find _ (projects db)); reflexivity.
Qed.

(** With unique ids, looking a stored project up by its id finds it. *)
Lemma find_project_by_own_id ps p :
  NoDup (map p_id ps) -> In p ps ->
  find (fun q => String.eqb (p_id q) (p_id p)) ps = Some p.
Proof.
  induction ps as [|q ps IH]; intros Hnd Hin; [destruct Hin|].
  cbn [map] in Hnd. inversion Hnd as [|? ? Hnotin Hnd']; subst.
  cbn [find]. destruct Hin as [->|Hin].
  - rewrite String.eqb_refl. reflexivity.
  - destruct (String.eqb_spec (p_id q) (p_id p)) as [E|E].
    + exfalso. apply Hnotin. rewrite E. apply in_map, Hin.
    + apply IH; assumption.
Qed.

Lemma NoDup_map_filter {A B : Type} (f : A -> B) (keep : A -> bool) l :
  NoDup (map f l) -> NoDup (map f (filter keep l)).
Proof.
  induction l as [|x l IH]; intros Hnd; [constructor|].
  cbn [map] in Hnd. inversion Hnd as [|? ? Hnotin Hnd']; subst.
  cbn [filter]. destruct (keep x); [|apply IH, Hnd'].
  cbn [map]. constructor; [|apply IH, Hnd'].
  intros Hin. apply Hnotin. apply in_map_iff in Hin.
  destruct Hin as (y & Hy & Hin). apply filter_In in Hin.
  rewrite <- Hy. apply in_map, Hin.
Qed.

Lemma same_elements_same_length (l l' : list string) :
  NoDup l -> NoDup l' -> (forall x, In x l <-> In x l') ->
  List.length l = List.length l'.
Proof.
  intros Hl Hl' Hsame. apply Nat.le_antisymm.
  - apply NoDup_incl_length; [exact Hl|]. intros x Hx. apply Hsame, Hx.
  - apply NoDup_incl_length; [exact Hl'|]. intros x Hx. apply Hsame, Hx.
Qed.

(** X26: [get_user_statistics] counts every project of the user once.
    When project ids are unique in the store, total_projects is the number
    of projects in which the user resolves to a role - owned or joined -
    however many membership rows the user has there (an owner with a
    membership row of their own is not counted twice) and leaving out
    membership rows whose project is gone.  The completed and in-progress
    counts are disjoint parts of the assigned tasks.  Nothing is
    written. *)
Theorem user_statistics_count_each_project_once :
  forall db username,
    NoDup (map p_id (projects db)) ->
    exists s,
      get_user_statistics username db = (Ok s, db)
      /\ us_total_projects s
         = count_if (fun p => is_set (resolved_role username (p_id p) db))
             (projects db)
      /\ us_total_assigned_tasks s
         = len (filter (fun t => opt_eqb (t_assigned_to t) username) (tasks db))
      /\ 0 <= us_completed_tasks_by_me s
      /\ 0 <= us_in_progress_tasks_by_me s
      /\ us_completed_tasks_by_me s + us_in_progress_tasks_by_me s
         <= us_total_assigned_tasks s.
Proof.
  intros db username Hnd. eexists.
  unfold get_user_statistics. unfold bind at 1.
  unfold select_projects_where_owner at 1, bind at 1, get_db at 1, ret at 1.
  cbn [fst snd]. unfold bind at 1.
  unfold select_members_where_username at 1, bind at 1, get_db at 1, ret at 1.
  cbn [fst snd]. unfold bind at 1. rewrite member_projects_of_run.
  unfold select_tasks_where_assigned, bind, get_db, ret. cbv zeta.
  split; [reflexivity|].
  cbn [us_total_projects us_total_assigned_tasks us_completed_tasks_by_me
       us_in_progress_tasks_by_me].
  set (mine := filter (fun t => opt_eqb (t_assigned_to t) username) (tasks db)).
  split; [|split; [reflexivity|]].
  - unfold len, count_if. f_equal.
    rewrite <- (length_map p_id (filter _ (projects db))).
    apply same_elements_same_length.
    + apply NoDup_nodup.
    + apply NoDup_map_filter, Hnd.
    + intros x. rewrite nodup_In, map_app, in_app_iff, !in_map_iff. split.
      * intros [(p & <- & Hp)|(p & <- & Hp)].
        -- apply filter_In in Hp. destruct Hp as [Hin Howner].
           exists p. split; [reflexivity|]. apply filter_In. split; [exact Hin|].
           unfold resolved_role. rewrite (find_project_by_own_id _ _ Hnd Hin), Howner.
           reflexivity.
        -- apply in_flat_map in Hp. destruct Hp as (m & Hm & Hp).
           apply filter_In in Hm. destruct Hm as [Hm Huser].
           destruct (find _ (projects db)) as [q|] eqn:Hfind; [|destruct Hp].
           destruct Hp as [->|[]].
           apply find_some in Hfind. destruct Hfind as [Hin Hid].
           apply String.eqb_eq in Hid.
           exists p. split; [reflexivity|]. apply filter_In. split; [exact Hin|].
           unfold resolved_role. rewrite (find_project_by_own_id _ _ Hnd Hin).
           destruct (String.eqb (p_owner_id p) username); [reflexivity|].
           destruct (filter (member_matches (p_id p) username) (team_members db))
             eqn:Hrows; [|reflexivity].
           assert (Hmatch : In m (filter (member_matches (p_id p) username)
                                    (team_members db))).
           { apply filter_In. split; [exact Hm|]. unfold member_matches.
             rewrite Huser, <- Hid, String.eqb_refl. reflexivity. }
           rewrite Hrows in Hmatch. destruct Hmatch.
      * intros (p & <- & Hp). apply filter_In in Hp. destruct Hp as [Hin Hrole].
        unfold resolved_role in Hrole.
        rewrite (find_project_by_own_id _ _ Hnd Hin) in Hrole.
        destruct (String.eqb (p_owner_id p) username) eqn:Howner.
        -- left. exists p. split; [reflexivity|]. apply filter_In. auto.
        -- right. exists p. split; [reflexivity|].
           destruct (filter (member_matches (p_id p) username) (team_members db))
             as [|m rows] eqn:Hrows; [discriminate Hrole|].
           assert (Hm : In m (filter (member_matches (p_id p) username)
                                (team_members db))) by (rewrite Hrows; left; reflexivity).
           apply filter_In in Hm. destruct Hm as [Hm Hmatch].
           unfold member_matches in Hmatch. apply andb_prop in Hmatch.
           destruct Hmatch as [Hid Huser]. apply String.eqb_eq in Hid.
           apply in_flat_map. exists m. split.
           ++ apply filter_In. auto.
           ++ rewrite Hid, (find_project_by_own_id _ _ Hnd Hin). left. reflexivity.
  - pose proof (count_by_three_keys t_status "completed" "in_progress" "todo" mine)
      as Hsplit.
    specialize (Hsplit ltac:(discriminate) ltac:(discriminate) ltac:(discriminate)).
    unfold has_status.
    match type of Hsplit with
    | _ + count_if ?f _ + count_if ?g _ = _ =>
        pose proof (count_if_nonneg f mine); pose proof (count_if_nonneg g mine)
    end.
    repeat (split; [apply count_if_nonneg|]). lia.
Qed.

(** olivia owns p1 and is also listed in its membership table: one
    project. *)
Lemma user_statistics_count_each_project_once_witness :
  exists s,
    get_user_statistics "olivia" Sample.db_owner_row = (Ok s, Sample.db_owner_row)
    /\ us_total_projects s = 1.
Proof.
  assert (Hnd : NoDup (map p_id (projects Sample.db_owner_row))).
  { repeat constructor. intros []. }
  destruct (user_statistics_count_each_project_once Sample.db_owner_row "olivia" Hnd)
    as (s & Hrun & Hcount & _).
  exists s. split; [exact Hrun|]. rewrite Hcount. reflexivity.
Defined.

(** ** routes/analytics.py *)

(** VIEW_ANALYTICS is held by the owner and manager rows of the table
    only, whatever the letter case of the stored role. *)
Lemma check_permission_view_analytics role :
  check_permission role VIEW_ANALYTICS = true
  <-> exists r, role = Some r /\ (lower r = "owner" \/ lower r = "manager").
Proof.
  destruct role as [r|].
  - destruct (Role_of_value (lower r)) as [role|] eqn:E.
    + rewrite (check_permission_of_role r role VIEW_ANALYTICS E).
      assert (Hval : lower r = Role_value role).
      { unfold Role_of_value in E. apply find_some in E.
        destruct E as [_ E]. apply String.eqb_eq in E. symmetry. exact E. }
      split.
      * intros H. exists r. split; [reflexivity|]. rewrite Hval.
        destruct role; cbn in H; try discriminate H; cbn; auto.
      * intros (r' & Heq & H). injection Heq as <-. rewrite Hval in H.
        destruct role; cbn in H; destruct H as [H|H]; try discriminate H;
          reflexivity.
    + assert (Hno : check_permission (Some r) VIEW_ANALYTICS = false).
      { unfold check_permission. destruct r as [|c r]; [reflexivity|].
        cbn [truthy_opt truthy negb]. rewrite E. reflexivity. }
      rewrite Hno. split; [discriminate|].
      intros (r' & Heq & H). injection Heq as <-.
      destruct H as [H|H]; rewrite H in E; discriminate E.
  - split; [discriminate|]. intros (r & Heq & _). discriminate Heq.
Qed.

Lemma get_member_analytics_endpoint_run fromisoformat round project_id username
    current_user db :
  AnalyticsRoutes.get_member_analytics_endpoint fromisoformat round
    project_id username current_user db
  = match find (fun p => String.eqb (p_id p) project_id) (projects db) with
    | None => (Raise ProjectNotFound, db)
    | Some _ =>
        if (check_permission (resolved_role current_user project_id db) VIEW_ANALYTICS
            || String.eqb current_user username)%bool
        then get_member_analytics fromisoformat round project_id username db
        else (Raise InsufficientPermissions, db)
    end.
Proof.
  unfold AnalyticsRoutes.get_member_analytics_endpoint, select_project_by_id.
  unfold bind at 1. unfold get_db, ret at 1. unfold bind at 1. cbn [fst snd].
  destruct (find _ (projects db)) as [p|]; [|reflexivity].
  cbn [is_set require ret]. unfold bind at 1. cbn [ret].
  unfold bind at 1. rewrite get_user_role_in_project_run.
  cbv zeta. unfold bind at 1. unfold require, ret, raise.
  destruct (_ || _)%bool; reflexivity.
Qed.

(** X27: the member-analytics endpoint is open to the user themselves:
    on an existing project any caller may fetch the analytics of their own
    username, a caller without any role in the project included (the
    answer then carries the role "none"), as may a caller holding
    VIEW_ANALYTICS for any username; every other caller gets
    InsufficientPermissions.  The answer counts the tasks of the project
    assigned to the username; nothing is written. *)
Theorem member_analytics_is_open_to_oneself :
  forall fromisoformat round db project_id project current_user username,
    find (fun p => String.eqb (p_id p) project_id) (projects db) = Some project ->
    let out :=
      AnalyticsRoutes.get_member_analytics_endpoint fromisoformat round
        project_id username current_user db in
    let may_view :=
      check_permission (resolved_role current_user project_id db) VIEW_ANALYTICS in
    (current_user = username \/ may_view = true ->
     exists a,
       out = (Ok a, db)
       /\ ma_username a = username
       /\ ma_role a = match resolved_role username project_id db with
                      | Some r => if truthy r then r else "none"
                      | None => "none"
                      end
       /\ ma_total_assigned a
          = len (filter (fun t => (String.eqb (t_project_id t) project_id
                                   && opt_eqb (t_assigned_to t) username)%bool)
                   (tasks db))
       /\ 0 <= ma_completed a /\ 0 <= ma_in_progress a /\ 0 <= ma_todo a
       /\ ma_completed a + ma_in_progress a + ma_todo a <= ma_total_assigned a)
    /\ (current_user <> username -> may_view = false ->
        out = (Raise InsufficientPermissions, db)).
Proof.
  intros fromisoformat round db project_id project current_user username Hp
    out may_view.
  unfold out. rewrite get_member_analytics_endpoint_run, Hp. fold may_view.
  split.
  - intros Hmay.
    assert (Hgo : (may_view || String.eqb current_user username)%bool = true).
    { destruct Hmay as [-> | ->]; [rewrite String.eqb_refl; apply orb_true_r|reflexivity]. }
    rewrite Hgo.
    unfold get_member_analytics. unfold bind at 1.
    rewrite get_user_role_in_project_run.
    unfold select_tasks_with_filters, bind, get_db, ret. cbv zeta.
    eexists. split; [reflexivity|].
    cbn [ma_username ma_role ma_total_assigned ma_completed ma_in_progress ma_todo].
    split; [reflexivity|].
    split; [destruct (resolved_role username project_id db) as [[|c r]|]; reflexivity|].
    split; [reflexivity|].
    match goal with
    | |- context [len ?l] =>
        pose proof (count_by_three_keys t_status "completed" "in_progress" "todo" l)
          as Hsplit
    end.
    specialize (Hsplit ltac:(discriminate) ltac:(discriminate) ltac:(discriminate)).
    unfold has_status.
    match type of Hsplit with
    | _ + count_if ?f ?l = _ => pose proof (count_if_nonneg f l)
    end.
    repeat (split; [apply count_if_nonneg|]). lia.
  - intros Hne Hmay. rewrite Hmay.
    replace (String.eqb current_user username) with false
      by (symmetry; apply String.eqb_neq; exact Hne).
    reflexivity.
Qed.

(** peter has no role in p1 and still reads his own analytics there;
    alice, a viewer of p1, may not read those of dev1. *)
Lemma member_analytics_is_open_to_oneself_witness :
  fst (get_user_role_in_project "peter" "p1" Sample.db_two_projects) = Ok None
  /\ (exists a,
        AnalyticsRoutes.get_member_analytics_endpoint Sample.fromisoformat
          Sample.round "p1" "peter" "peter" Sample.db_two_projects
        = (Ok a, Sample.db_two_projects)
        /\ ma_role a = "none")
  /\ AnalyticsRoutes.get_member_analytics_endpoint Sample.fromisoformat
       Sample.round "p1" "dev1" "alice" Sample.db_two_projects
     = (Raise InsufficientPermissions, Sample.db_two_projects).
Proof.
  destruct (member_analytics_is_open_to_oneself Sample.fromisoformat Sample.round
              Sample.db_two_projects "p1" (Sample.project_p1 0) "peter" "peter"
              eq_refl) as (Hself & _).
  destruct (member_analytics_is_open_to_oneself Sample.fromisoformat Sample.round
              Sample.db_two_projects "p1" (Sample.project_p1 0) "alice" "dev1"
              eq_refl) as (_ & Hother).
  split; [reflexivity|]. split.
  - destruct (Hself (or_introl eq_refl)) as (a & Hrun & _ & Hrole & _).
    exists a. split; [exact Hrun|]. rewrite Hrole. reflexivity.
  - apply Hother; [discriminate|reflexivity].
Defined.

(** X28: the analytics routes admit owners and managers only.  On an
    existing project [verify_analytics_access] succeeds exactly when the
    caller's role, lower-cased, is "owner" or "manager"; developers,
    viewers and users with no role at all get InsufficientPermissions (not
    the UnauthorizedAccess the task routes give a non-member).  The
    timeline route makes this check first: a refused caller gets the
    refusal whatever the number of days and whatever the tasks'
    timestamps look like. *)
Theorem analytics_routes_admit_owner_and_manager :
  forall db project_id project username,
    find (fun p => String.eqb (p_id p) project_id) (projects db) = Some project ->
    let role := resolved_role username project_id db in
    let admitted :=
      exists r, role = Some r /\ (lower r = "owner" \/ lower r = "manager") in
    (admitted ->
     AnalyticsRoutes.verify_analytics_access project_id username db = (Ok tt, db))
    /\ (~ admitted ->
        AnalyticsRoutes.verify_analytics_access project_id username db
        = (Raise InsufficientPermissions, db)
        /\ forall fromisoformat fuel now days,
             AnalyticsRoutes.get_analytics_timeline fromisoformat fuel now
               project_id days username db
             = Some (Raise InsufficientPermissions)).
Proof.
  intros db project_id project username Hp role admitted.
  pose proof (check_permission_view_analytics role) as Hiff. fold admitted in Hiff.
  assert (Hrun := verify_analytics_access_run project_id username db).
  rewrite Hp in Hrun. fold role in Hrun.
  split.
  - intros Hadm. apply Hiff in Hadm. rewrite Hrun, Hadm. reflexivity.
  - intros Hno.
    assert (Hfalse : check_permission role VIEW_ANALYTICS = false).
    { destruct (check_permission role VIEW_ANALYTICS); [|reflexivity].
      exfalso. apply Hno, Hiff. reflexivity. }
    rewrite Hfalse in Hrun. split; [exact Hrun|].
    intros fromisoformat fuel now days.
    unfold AnalyticsRoutes.get_analytics_timeline. rewrite Hrun. reflexivity.
Qed.

(** dev1 is a developer of the project whose only completed task has a
    malformed timestamp: the timeline route refuses before any parse, where
    the manager mark gets the ValueError. *)
Lemma analytics_routes_admit_owner_and_manager_witness :
  AnalyticsRoutes.verify_analytics_access "p1" "mark" Sample.db_bad_stamp
  = (Ok tt, Sample.db_bad_stamp)
  /\ AnalyticsRoutes.get_analytics_timeline Sample.fromisoformat 40 Sample.now
       "p1" 30 "dev1" Sample.db_bad_stamp
     = Some (Raise InsufficientPermissions)
  /\ AnalyticsRoutes.get_analytics_timeline Sample.fromisoformat 40 Sample.now
       "p1" 30 "mark" Sample.db_bad_stamp
     = Some (Raise ValueError).
Proof.
  destruct (analytics_routes_admit_owner_and_manager Sample.db_bad_stamp "p1"
              (Sample.project_p1 100) "mark" eq_refl) as (Hyes & _).
  destruct (analytics_routes_admit_owner_and_manager Sample.db_bad_stamp "p1"
              (Sample.project_p1 100) "dev1" eq_refl) as (_ & Hno).
  split; [|split].
  - apply Hyes. exists "manager". split; [reflexivity|]. right. reflexivity.
  - apply Hno. intros (r & Hr & Hrole).
    assert (Hdev : r = "developer") by (vm_compute in Hr; congruence).
    rewrite Hdev in Hrole. destruct Hrole as [H|H]; discriminate H.
  - vm_compute. reflexivity.
Defined.

(** ** The timeline and the progress value *)

Lemma count_if_mono {A : Type} (f g : A -> bool) l :
  (forall x, In x l -> f x = true -> g x = true) ->
  count_if f l <= count_if g l.
Proof.
  induction l as [|x l IH]; intros Himp; [unfold count_if; cbn; lia|].
  rewrite !count_if_cons.
  assert (IH' : count_if f l <= count_if g l).
  { apply IH. intros y Hy. apply Himp. right. exact Hy. }
  pose proof (Himp x (or_introl eq_refl)) as Hx.
  destruct (f x); [rewrite (Hx eq_refl)|destruct (g x)]; lia.
Qed.

Lemma count_if_full {A : Type} (cond : A -> bool) l :
  count_if cond l = len l <-> forall x, In x l -> cond x = true.
Proof.
  induction l as [|x l IH].
  - split; [intros _ y []|reflexivity].
  - rewrite count_if_cons, len_cons.
    pose proof (count_if_le_len cond l) as Hle. split.
    + intros Hsum y [Heq|Hin].
      * rewrite <- Heq. destruct (cond x); [reflexivity|lia].
      * apply IH; [|exact Hin]. destruct (cond x); lia.
    + intros Hall. rewrite (Hall x (or_introl eq_refl)).
      f_equal. apply IH. intros y Hy. apply Hall. right. exact Hy.
Qed.

Lemma completed_on_later fromisoformat d d' t :
  d <= d' ->
  completed_on fromisoformat d t = true ->
  completed_on fromisoformat d' t = true.
Proof.
  intros Hle. unfold completed_on.
  destruct (is_completed t && truthy_opt (t_updated_at t))%bool; [|discriminate].
  cbn [andb]. destruct (t_updated_at t) as [s|]; [|discriminate].
  destruct (fromisoformat (replace_Z s)) as [dt|]; [|discriminate].
  intros H. apply Z.leb_le in H. apply Z.leb_le. lia.
Qed.

Lemma completed_on_is_completed fromisoformat d t :
  completed_on fromisoformat d t = true -> is_completed t = true.
Proof.
  unfold completed_on. destruct (is_completed t); [reflexivity|discriminate].
Qed.

Lemma nth_error_map_seq {A : Type} (f : nat -> A) n i e :
  nth_error (map f (seq 0 n)) i = Some e -> (i < n)%nat /\ e = f i.
Proof.
  intros H.
  assert (Hlt : (i < n)%nat).
  { rewrite <- (length_seq n 0), <- (length_map f (seq 0 n)).
    apply nth_error_Some. congruence. }
  split; [exact Hlt|].
  rewrite nth_error_map in H.
  rewrite (nth_error_nth' (seq 0 n) 0%nat) in H
    by (rewrite length_seq; exact Hlt).
  rewrite seq_nth in H by exact Hlt. cbn in H. congruence.
Qed.

(** X29: [get_project_timeline] over the calendar.  A look-back that
    leaves the calendar ([now - days] before 0001-01-01 or after
    9999-12-31) raises OverflowError, whatever the tasks; a negative one
    that stays inside it gives the empty series.  For 0 <= days with
    [now - days] still a date, today not the last day of the calendar and
    every completed task carrying a well-formed timestamp, the series is
    cumulative: it has days + 1 buckets, the i-th dated now - days + i (so
    the last one is today's); every bucket carries the current number of
    tasks as total and a completed count between 0 and the number of tasks
    completed now; and the completed count never decreases from one bucket
    to a later one. *)
Theorem timeline_is_cumulative :
  forall fromisoformat fuel now project_id days db,
    MINORDINAL <= dt_date now <= MAXORDINAL ->
    (dt_date now - days < MINORDINAL \/ MAXORDINAL < dt_date now - days ->
     get_project_timeline fromisoformat fuel now project_id days db
     = Some (Raise OverflowError))
    /\ (days < 0 -> dt_date now - days <= MAXORDINAL -> (0 < fuel)%nat ->
        get_project_timeline fromisoformat fuel now project_id days db
        = Some (Ok []))
    /\ (0 <= days < dt_date now ->
        dt_date now < MAXORDINAL ->
        (Z.to_nat (days + 1) < fuel)%nat ->
        (forall t, In t (project_tasks project_id db) ->
                   bad_stamp fromisoformat t = false) ->
        len (project_tasks project_id db) < 2 ^ 53 ->
        exists series,
          get_project_timeline fromisoformat fuel now project_id days db
          = Some (Ok series)
          /\ len series = days + 1
          /\ (forall i e, nth_error series i = Some e ->
                te_date e = dt_date now - days + Z.of_nat i
                /\ te_total e = len (project_tasks project_id db)
                /\ 0 <= te_completed e
                   <= count_if is_completed (project_tasks project_id db))
          /\ (forall i j e e',
                (i <= j)%nat ->
                nth_error series i = Some e -> nth_error series j = Some e' ->
                te_completed e <= te_completed e')).
Proof.
  intros fromisoformat fuel now project_id days db Hnow.
  split; [|split].
  - apply get_project_timeline_overflow.
  - intros Hdays Hmax Hfuel. destruct fuel as [|fuel]; [lia|].
    apply get_project_timeline_negative; [exact Hdays|apply Hnow|exact Hmax].
  - intros Hdays Hlast Hfuel Hall Hsize.
    eexists. split;
      [apply (get_project_timeline_series fromisoformat fuel now project_id days db
                Hdays Hlast Hfuel Hall Hsize)|].
    split; [|split].
    + unfold len. rewrite length_map, length_seq. lia.
    + intros i e He. apply nth_error_map_seq in He. destruct He as [_ ->].
      cbn [bucket te_date te_total te_completed].
      split; [reflexivity|]. split; [reflexivity|].
      split; [apply count_if_nonneg|].
      apply count_if_mono. intros t _. apply completed_on_is_completed.
    + intros i j e e' Hij He He'.
      apply nth_error_map_seq in He, He'.
      destruct He as [_ ->]. destruct He' as [_ ->].
      cbn [bucket te_completed].
      apply count_if_mono. intros t _. apply completed_on_later. lia.
Qed.

(** A look-back of two days gives three buckets; one of a million days
    reaches before the year 1 and raises. *)
Lemma timeline_is_cumulative_witness :
  (exists series,
      get_project_timeline Sample.fromisoformat 10 Sample.now "p1" 2 Sample.db_half
      = Some (Ok series)
      /\ map te_completed series = [1; 1; 1]
      /\ len series = 3)
  /\ get_project_timeline Sample.fromisoformat 10 Sample.now "p1" 1000000
       Sample.db_half
     = Some (Raise OverflowError).
Proof.
  assert (Hnow : MINORDINAL <= dt_date Sample.now <= MAXORDINAL)
    by (vm_compute; split; discriminate).
  assert (Hall : forall t, In t (project_tasks "p1" Sample.db_half) ->
                           bad_stamp Sample.fromisoformat t = false).
  { intros t [<-|[<-|[]]]; reflexivity. }
  destruct (timeline_is_cumulative Sample.fromisoformat 10 Sample.now "p1" 2
              Sample.db_half Hnow) as (_ & _ & Hseries).
  destruct (timeline_is_cumulative Sample.fromisoformat 10 Sample.now "p1" 1000000
              Sample.db_half Hnow) as (Hoverflow & _).
  split.
  - destruct Hseries as (series & Hrun & Hlen & _);
      [vm_compute; split; [discriminate|reflexivity]
      |vm_compute; reflexivity
      |cbn; lia
      |exact Hall
      |reflexivity|].
    exists series. split; [exact Hrun|]. split; [|exact Hlen].
    assert (Hval : get_project_timeline Sample.fromisoformat 10 Sample.now "p1" 2
                     Sample.db_half
                   = Some (Ok [mkTimelineEntry 738944 1 2 50;
                               mkTimelineEntry 738945 1 2 50;
                               mkTimelineEntry 738946 1 2 50]))
      by (vm_compute; reflexivity).
    rewrite Hval in Hrun. injection Hrun as <-. reflexivity.
  - apply Hoverflow. left. vm_compute. reflexivity.
Defined.

(** X30: on a project of 1 to 100 tasks [calculate_project_progress]
    returns and stores a value between 0 and 100 that is the floor of the
    exact percentage of completed tasks or one below it (the quotient is
    rounded before it is multiplied); the value is 100 exactly when every
    task is completed, and 0 when none is.  The function of the same name
    in helpers.py returns the same value and writes nothing. *)
Theorem progress_is_within_one_of_the_percentage :
  forall db project_id project,
    find (fun p => String.eqb (p_id p) project_id) (projects db) = Some project ->
    0 < len (project_tasks project_id db) <= 100 ->
    let completed := count_if is_completed (project_tasks project_id db) in
    let total := len (project_tasks project_id db) in
    exists n,
      fst (calculate_project_progress project_id db) = Ok n
      /\ stored_progress project_id (snd (calculate_project_progress project_id db))
         = Some n
      /\ Helpers.calculate_project_progress project_id db = (Ok n, db)
      /\ 0 <= n <= 100
      /\ 100 * completed / total - 1 <= n <= 100 * completed / total
      /\ (n = 100 <-> forall t, In t (project_tasks project_id db) ->
                        t_status t = Some "completed")
      /\ (completed = 0 -> n = 0).
Proof.
  intros db project_id project Hp Hsize completed total.
  pose proof (count_if_le_len is_completed (project_tasks project_id db)) as Hc.
  fold completed in Hc. fold total in Hc, Hsize.
  destruct (percent_upto_100 completed total Hsize Hc)
    as (n & Hpct & Hrange & Hfull & Hzero & Hfloor).
  assert (Hne : project_tasks project_id db <> []).
  { intros E. unfold total in Hsize. rewrite E in Hsize. cbn in Hsize. lia. }
  exists n.
  rewrite (calculate_project_progress_run project_id db project n Hp Hne Hpct).
  cbn [fst snd].
  split; [reflexivity|]. split.
  { unfold stored_progress. cbn [projects with_projects].
    rewrite (find_update_rows p_id project_id (set_progress n) _ project);
      [reflexivity|reflexivity|exact Hp]. }
  split.
  { unfold Helpers.calculate_project_progress, select_tasks_where_project,
      bind, get_db, ret.
    fold (project_tasks project_id db). fold total. fold completed.
    replace (total =? 0) with false by (symmetry; apply Z.eqb_neq; lia).
    rewrite Hpct. reflexivity. }
  split; [exact Hrange|].
  split; [destruct Hfloor as [->| ->]; lia|].
  split; [|exact Hzero].
  assert (Hall : completed = total
                 <-> forall t, In t (project_tasks project_id db) ->
                       t_status t = Some "completed").
  { unfold completed, total. rewrite count_if_full. unfold is_completed. split.
    - intros H t Hin. apply opt_eqb_eq, H, Hin.
    - intros H t Hin. apply opt_eqb_eq, H, Hin. }
  rewrite <- Hall. split; [|exact Hfull].
  intros Hn.
  assert (Hdiv : 100 <= 100 * completed / total)
    by (destruct Hfloor as [H|H]; lia).
  pose proof (Z.mul_div_le (100 * completed) total ltac:(lia)) as Hmul.
  nia.
Qed.

Lemma progress_is_within_one_of_the_percentage_witness :
  fst (calculate_project_progress "p1" Sample.db_29_of_50) = Ok 57
  /\ 100 * 29 / 50 = 58
  /\ Helpers.calculate_project_progress "p1" Sample.db_29_of_50
     = (Ok 57, Sample.db_29_of_50).
Proof.
  assert (Hsize : 0 < len (project_tasks "p1" Sample.db_29_of_50) <= 100)
    by (vm_compute; split; [reflexivity|discriminate]).
  destruct (progress_is_within_one_of_the_percentage Sample.db_29_of_50 "p1"
              (Sample.project_p1 0) eq_refl Hsize)
    as (n & Hrun & _ & Hhelper & _).
  assert (Hval : fst (calculate_project_progress "p1" Sample.db_29_of_50) = Ok 57)
    by (vm_compute; reflexivity).
  assert (Hn : n = 57) by congruence.
  rewrite Hn in Hhelper.
  split; [exact Hval|]. split; [reflexivity|exact Hhelper].
Defined.
